(* ===== verification/_CoqProject ===== *)
-Q . S2P
Prelude.v
Js.v
PdfLib.v
Store.v
RangeParser.v
Split.v
Merge.v
Cleanup.v
Media.v
Compress.v
Security.v
Convert.v
Image.v
Intake.v
Server.v
Contract.v
RoundTrip.v
Scenarios.v
Paths.v
