(* ===== verification/Prelude.v ===== *)
(** * pdftool: a verification development of src/server.js

    ** The program
    [src/server.js] is an Express server.  multer stores each request's
    files under [uploads/] (lines 20-37), then one handler per endpoint
    runs, reading and writing files under [uploads/] and [downloads/]
    through [fs.promises] and calling pdf-lib, archiver, sharp, docx and
    mammoth:
    - [/api/convert] (lines 62-151): image to image with sharp, text to
      PDF, docx to text, text to docx;
    - [/api/merge] (154-192): all pages of two or more PDFs, in order;
    - [/api/split] (195-287): one part per token of a page-range
      expression, or [numParts] contiguous parts, all packed in a zip;
    - [/api/compress] (290-363): a sharp pipeline, or a PDF re-save;
    - [/api/security] (366-417): a text watermark on every page;
    - [/api/image] (420-469): rotate, resize, crop or grayscale.
    - [/api/health] (471-474): a constant answer.
    [cleanupOldFiles] (39-56), run by [setInterval] every 30 minutes
    (line 59), removes files older than one hour from both directories.
    The handlers and the sweep interleave at their [await]s.

    ** Files, in dependency order
    - [Prelude] (this file): the state-and-exception monad [St] of the
      handlers with its notations [let!], [do!], [let?] in [pdf_scope],
      the hint databases [pdftool] and [pdfrw], integer ranges [zseq]
      (the indices a counting [for] visits) and generic lemmas on the
      monad, including [st_preserves] (an invariant kept by an action)
      and the Hoare triples [hoare] with their rules.
    - [Js]: JavaScript numbers with [NaN] ([jsnum]), [trim], [split] on
      one character, [includes], [parseInt], decimal printing.
    - [PdfLib]: pdf-lib and archiver as the classes [PdfLib] and
      [Archiver] with their laws; [ListModel] is an instance.
    - [Store]: the [world] (files with contents and mtime keyed by
      directory and name, existing directories, the clock), the [fs]
      calls and [Date.now] as actions of [M] = [St world js_error],
      multer's [diskStorage] ([multer_store]), the responses, the
      handlers' [catch] ([catch_500]) and the class [FsInv] of
      invariants kept by every [fs] call.
    - [RangeParser]: [range_tokens], [parse_range], the page loops
      [interval_loop] and [range_part] of the pages mode.
    - [Split], [Merge]: the whole [split_handler] and [merge_handler].
    - [Cleanup]: [cleanupOldFiles] as written, the same sweep cut at its
      awaits ([sweep_step] on the program counter [sweep_pc]), and the
      [setInterval] schedule [scheduled].
    - [Media]: [path.extname] (Node's POSIX scan), [toLowerCase],
      [toUpperCase], the sharp builder as data ([sharp]) with the rule
      by which [toFile] picks its output format ([sharp_output_format]:
      the forced format, else the output name's suffix, else the input
      image's own format, else an error), the texts of the form and of
      mammoth as JavaScript strings of UTF-16 units ([jstr]), pdf-lib's
      [drawText] with the standard font, which throws on a unit that
      WinAnsi cannot encode ([draw_text]), and the classes [Sharp],
      [TextLibs], [PdfDraw], [Sized] with their laws; [MediaModel] is an
      instance of all of them.
    - [Compress], [Security], [Convert], [Image]: the four handlers
      [compress_handler], [security_handler], [convert_handler],
      [image_handler], each following its source line by line.
    - [Intake]: the requests and multer in front of every route: each
      file stored in order, the [fileSize] limit of line 36, the abort
      that removes every file of a refused request and its 500 answer
      ([receive] gives [Accepted] or [Rejected]).
    - [Server]: the whole server as a step relation [server_step] on a
      [server] (the sweep's program counter, the stored requests that
      wait for their handler, the world): a request is received
      ([receive], multer), a waiting request is handled ([handle]), the
      timer starts a sweep, the sweep takes one step, or time passes.
      [exec] is an executable scheduler proved to follow [server_step].
    - [Contract]: what a client can rely on: the outputs a success of
      merge, compress or convert names ([served]), and [express.static]
      under [/downloads] ([static_get], line 18).
    - [Paths]: the path-safety invariant of [downloads] ([dl_safe]):
      every file there has a name with no slash that is neither [.] nor
      [..], on every reachable server.
    - [RoundTrip]: split by a covering range list, then merge.
    - [Scenarios]: the spec's scenarios run on [split_handler].

    Every handler is written against the library classes, never against
    a model: its theorems hold for any pdf-lib, sharp or archiver that
    satisfies the laws, and the witnesses run them on the list and media
    models by [vm_compute].

    ** What the theorems show
    - Range parsing: the loops copy exactly the reference indices
      [range_indices]; in-range, interval, past-the-end and below-page-1
      tokens; termination of the loop; the covering round trip.
    - Split and merge: the exact final file system and answer in both
      split modes and for merge; errors (no downloads directory, a token
      that throws after earlier parts were written, an unloadable PDF,
      fewer than two files, the same upload twice); the frame property
      of split (it never moves the clock nor removes a directory, on
      every path); name clashes of two requests within one millisecond.
    - Convert, compress, security, image: the success path of each
      branch with the file it writes, and each error answer with the
      world it leaves; the code bugs these expose (WebP data under a
      .jpg name, the ignored level, success answers naming files never
      written, bmp offered but not writable, no [mkdir] before writing,
      a watermark or a text file with a character outside WinAnsi
      answered 500, an edited image under an unknown extension written
      in its input format).
    - Split by size: every part has [min c (T - i*c)] pages, and a
      [numParts] that is not a positive number gives an empty zip.
    - Cleanup: [cleanupOldFiles] removes exactly the files older than an
      hour in existing directories; the step machine refines it; under
      the [setInterval] schedule each sweep keeps a file exactly while
      it is at most an hour old, so it is gone at the first sweep after
      that (within 90 minutes of its last write).
    - Server: a reachable interleaving in which a sweep misses a stale
      upload.
    - Paths: by rule induction on [server_step], no reachable server has
      a file in [downloads] whose name has a slash or is [.] or [..]
      (a path out of the directory), whatever names and fields the
      clients send.
    - Contract: on a reachable server the success of a merge, compress
      or convert names an output that exists in [downloads], because the
      uploads multer stores stay apart from the outputs, and a [GET] of
      its [downloadUrl] through [express.static] returns that file's
      bytes, because every output name is a plain URL name (for an
      edited image, because [toFile] accepted its extension as one of
      sharp's formats).  These are proved with the Hoare triples of this
      file ([hoare]) walking each handler's code.
    - Media: the extension [path.extname] yields never holds a dot or a
      slash (an invariant of its reverse scan, [extname_loop_inv]).
    - Intake: multer refuses exactly the requests with a file over 50 MB,
      answers them 500 and leaves no file of theirs behind; the exact
      boundary of the limit (52428800 bytes accepted, one more refused).

    ** Fuel and bounds
    - [interval_loop] takes fuel; [loop_fuel start totalPages] =
      [totalPages - start] (at least 0) iterations suffice because the
      loop stops once [p >= totalPages], and [interval_loop_terminates]
      proves the loop stops by its own test within it.
    - [copy_run] (the size mode's inner loop) runs exactly
      [endPage - startPage] times, a structural count.
    - [sweep_run] takes fuel; [sweep_fuel w] =
      [length cleanup_dirs * (2 + 2 * size (files w)) + 1] (two steps
      per directory and two per file it can list, plus the last) bounds
      every sweep that runs without interleaving
      ([sweep_steps_refine]).
    - Numbers are exact integers and rationals: [parseInt] above 2^53,
      and the double rounding of the compress report's [Math.round] and
      [toFixed] on values within a half of a rounding boundary, are not
      modelled.

    ** Not modelled
    - Express routing, [cors], [express.json] and [app.listen]: I/O
      plumbing with no state of the program (the requests of the model
      carry the parsed body); the HTML of Express's error page for a
      refused upload (its status and message are modelled); the paths
      [express.static]
      would percent-decode or resolve below [downloads], which no
      handler's link contains.
    - The internals of sharp's, docx's and mammoth's encoders and of
      pdf-lib's [save]: abstract functions with the laws the handlers
      rely on.
    - Concurrency inside a handler: each handler runs as one step with
      respect to other handlers; only the sweep is cut at its awaits.
      [setInterval] starts a sweep only when none is running, so two
      overlapping sweeps are not modelled.
    - Stream errors of [createWriteStream] in the split handler's zip
      block, and its flushing: the archive is written as a whole when
      [finalize] resolves, whereas the code answers without waiting for
      the stream's [close] (a finding); for this reason the download
      contract of [Contract] leaves split out.
    - Form fields other than [watermarkText] are kept as 8-bit strings:
      they are only compared with literals or parsed as numbers.
    - Percent-encoding of the image link: the code puts the upload's
      extension into the URL unencoded (a finding); [Paths] shows the
      name has no slash, not that it is URL-clean.
*)

From stdpp Require Export base list gmap strings pretty.
From Stdlib Require Export ZArith Lia.

Declare Scope pdf_scope.
Delimit Scope pdf_scope with pdf.

Create HintDb pdftool.
Create Rewrite HintDb pdfrw.

(** ** The state and exception monad of the handlers.

    A JavaScript [async] handler mutates the file system as it goes and
    may throw; a thrown exception does not roll back what was already
    written.  [St S E A] threads a state [S] and returns an [outcome]:
    either a value or the exception, always with the state reached. *)

Inductive outcome (E A : Type) : Type :=
| Ok (a : A)
| Throw (e : E).
Arguments Ok {E A} a.
Arguments Throw {E A} e.

Definition St (S E A : Type) : Type := S -> outcome E A * S.

Section Monad.
  Context {S E : Type}.

Definition st_ret {A} (a : A) : St S E A := fun s => (Ok a, s).
Definition st_throw {A} (e : E) : St S E A := fun s => (Throw e, s).

Definition st_bind {A B} (m : St S E A) (k : A -> St S E B) : St S E B :=
    fun s =>
      match m s with
      | (Ok a, s') => k a s'
      | (Throw e, s') => (Throw e, s')
      end.

  (** [try { m } catch (e) { h(e) }] *)
Definition st_catch {A} (m : St S E A) (h : E -> St S E A) : St S E A :=
    fun s =>
      match m s with
      | (Throw e, s') => h e s'
      | r => r
      end.

  (** A pure computation that may throw, run without touching the state. *)
Definition st_lift {A} (o : outcome E A) : St S E A := fun s => (o, s).

  (** [for (const x of l) { body(x) }], results collected in order. *)
Fixpoint st_mapM {A B} (f : A -> St S E B) (l : list A) : St S E (list B) :=
    match l with
    | [] => st_ret []
    | x :: l' => st_bind (f x) (fun b => st_bind (st_mapM f l') (fun bs => st_ret (b :: bs)))
    end.

  (** Pure exception monad, for the page loops that touch no file. *)
Definition o_bind {A B} (o : outcome E A) (k : A -> outcome E B) : outcome E B :=
    match o with Ok a => k a | Throw e => Throw e end.
End Monad.

Notation "'let!' x ':=' c 'in' k" := (st_bind c (fun x => k))
  (at level 10, x name, c at level 100, k at level 200) : pdf_scope.
Notation "'do!' c 'in' k" := (st_bind c (fun _ => k))
  (at level 10, c at level 100, k at level 200) : pdf_scope.
Notation "'let?' x ':=' c 'in' k" := (o_bind c (fun x => k))
  (at level 10, x name, c at level 100, k at level 200) : pdf_scope.

Open Scope pdf_scope.

(** ** Integer ranges: the indices a counting [for] loop visits. *)

Definition zseq (a : Z) (n : nat) : list Z := map (fun k => a + Z.of_nat k)%Z (seq 0 n).

Lemma length_zseq a n : length (zseq a n) = n.
Proof. unfold zseq. by rewrite length_map, length_seq. Qed.

Lemma zseq_S a n : zseq a (S n) = a :: zseq (a + 1)%Z n.
Proof.
  unfold zseq. simpl. rewrite <- seq_shift, map_map. f_equal; [lia|].
  apply map_ext. intros k. lia.
Qed.

Lemma zseq_add a n m : zseq a (n + m) = zseq a n ++ zseq (a + Z.of_nat n)%Z m.
Proof.
  revert a. induction n as [|n IH]; intros a; [simpl; by rewrite Z.add_0_r|].
  rewrite Nat.add_succ_l, !zseq_S, IH. simpl. do 3 f_equal. lia.
Qed.

Lemma elem_of_zseq a n x : x ∈ zseq a n <-> (a <= x < a + Z.of_nat n)%Z.
Proof.
  revert a. induction n as [|n IH]; intros a.
  - unfold zseq. simpl. split; [intros ?%elem_of_nil; done | lia].
  - rewrite zseq_S, elem_of_cons, IH. lia.
Qed.

Lemma lookup_zseq a n i : i < n -> zseq a n !! i = Some (a + Z.of_nat i)%Z.
Proof.
  intros Hi. unfold zseq. rewrite list_lookup_fmap, lookup_seq_lt; done.
Qed.

#[export] Hint Rewrite length_zseq : pdfrw.

(** ** Reasoning about monadic programs *)

Section MonadLemmas.
  Context {S E : Type}.

Lemma st_bind_ok {A B} (m : St S E A) (k : A -> St S E B) s a s' :
    m s = (Ok a, s') -> st_bind m k s = k a s'.
  Proof. unfold st_bind. by intros ->. Qed.

Lemma st_bind_throw {A B} (m : St S E A) (k : A -> St S E B) s e s' :
    m s = (Throw e, s') -> st_bind m k s = (Throw e, s').
  Proof. unfold st_bind. by intros ->. Qed.

Lemma o_bind_ok {A B} (a : A) (k : A -> outcome E B) : o_bind (Ok a) k = k a.
  Proof. done. Qed.

  (** A predicate on states that an action keeps, whatever it returns. *)
Definition st_preserves {A} (P : S -> Prop) (m : St S E A) : Prop :=
    forall s, P s -> P (snd (m s)).

Lemma st_preserves_ret {A} P (a : A) : st_preserves P (st_ret a).
  Proof. by intros s. Qed.

Lemma st_preserves_throw {A} P e : st_preserves P (@st_throw S E A e).
  Proof. by intros s. Qed.

Lemma st_preserves_lift {A} P (o : outcome E A) : st_preserves P (st_lift o).
  Proof. by intros s. Qed.

Lemma st_preserves_bind {A B} P (m : St S E A) (k : A -> St S E B) :
    st_preserves P m -> (forall a, st_preserves P (k a)) ->
    st_preserves P (st_bind m k).
  Proof.
    intros Hm Hk s Hs. unfold st_bind.
    specialize (Hm s Hs). destruct (m s) as [[a|e] s']; [by apply Hk | done].
  Qed.

Lemma st_preserves_catch {A} P (m : St S E A) h :
    st_preserves P m -> (forall e, st_preserves P (h e)) ->
    st_preserves P (st_catch m h).
  Proof.
    intros Hm Hh s Hs. unfold st_catch.
    specialize (Hm s Hs). destruct (m s) as [[a|e] s']; [done | by apply Hh].
  Qed.

Lemma st_preserves_mapM {A B} P (f : A -> St S E B) l :
    (forall x, st_preserves P (f x)) -> st_preserves P (st_mapM f l).
  Proof.
    intros Hf. induction l as [|x l IH]; simpl.
    - apply st_preserves_ret.
    - apply st_preserves_bind; [done|]. intros b.
      apply st_preserves_bind; [done|]. intros. apply st_preserves_ret.
  Qed.
End MonadLemmas.

#[export] Hint Resolve st_preserves_ret st_preserves_throw st_preserves_lift
  st_preserves_bind st_preserves_catch st_preserves_mapM : pdftool.

(** ** Hoare triples

    [hoare P m Q]: run from a state satisfying [P], if [m] returns a
    value [a] in the state [s'], then [Q a s'].  A thrown exception
    satisfies every triple (partial correctness): the handlers' [catch]
    turns exceptions into answers, and [hoare_catch] accounts for them. *)

Section Hoare.
  Context {S E : Type}.

Definition hoare {A} (P : S -> Prop) (m : St S E A) (Q : A -> S -> Prop) : Prop :=
    forall s, P s -> match m s with (Ok a, s') => Q a s' | (Throw _, _) => True end.

Lemma hoare_ret {A} P (a : A) Q : (forall s, P s -> Q a s) -> hoare P (st_ret a) Q.
  Proof. intros H s Hs. by apply H. Qed.

Lemma hoare_lift {A} P (o : outcome E A) Q :
    (forall a s, o = Ok a -> P s -> Q a s) -> hoare P (st_lift o) Q.
  Proof. intros H s Hs. unfold st_lift. destruct o; [by apply H | done]. Qed.

Lemma hoare_bind {A B} P R Q (m : St S E A) (k : A -> St S E B) :
    hoare P m R -> (forall a, hoare (R a) (k a) Q) -> hoare P (st_bind m k) Q.
  Proof.
    intros Hm Hk s Hs. unfold st_bind. specialize (Hm s Hs).
    destruct (m s) as [[a|e] s']; [by apply Hk | done].
  Qed.

Lemma hoare_conseq {A} P P' Q Q' (m : St S E A) :
    hoare P m Q -> (forall s, P' s -> P s) -> (forall a s, Q a s -> Q' a s) -> hoare P' m Q'.
  Proof. intros Hm HP HQ s Hs. specialize (Hm s (HP s Hs)). destruct (m s) as [[a|e] s']; auto. Qed.

  (** Whatever [m] does, a postcondition that always holds holds. *)
Lemma hoare_any {A} P (m : St S E A) Q : (forall a s, Q a s) -> hoare P m Q.
  Proof. intros HQ s _. destruct (m s) as [[a|e] s']; auto. Qed.

Lemma hoare_preserves {A} I (m : St S E A) : st_preserves I m -> hoare I m (fun _ => I).
  Proof. intros Hm s Hs. specialize (Hm s Hs). destruct (m s) as [[a|e] s']; auto. Qed.

  (** [try { m } catch (e) { h(e) }]: the handler starts in whatever state
      the exception left. *)
Lemma hoare_catch {A} P Q (m : St S E A) h :
    hoare P m Q -> (forall e, hoare (fun _ => True) (h e) Q) -> hoare P (st_catch m h) Q.
  Proof.
    intros Hm Hh s Hs. unfold st_catch. specialize (Hm s Hs).
    destruct (m s) as [[a|e] s']; [done | by apply Hh].
  Qed.

  (** A precondition that does not depend on the state is a hypothesis. *)
Lemma hoare_pure {A} (phi : Prop) (m : St S E A) Q :
    (phi -> hoare (fun _ => True) m Q) -> hoare (fun _ => phi) m Q.
  Proof. intros H s Hphi. exact (H Hphi s I). Qed.

  (** Sequencing with an action about which nothing is needed. *)
Lemma hoare_bind_any {A B} P Q (m : St S E A) (k : A -> St S E B) :
    (forall a, hoare (fun _ => True) (k a) Q) -> hoare P (st_bind m k) Q.
  Proof. intros Hk. apply (hoare_bind _ (fun _ _ => True)); [by apply hoare_any | done]. Qed.

  (** Sequencing with an action that keeps the precondition. *)
Lemma hoare_bind_keep {A B} P Q (m : St S E A) (k : A -> St S E B) :
    st_preserves P m -> (forall a, hoare P (k a) Q) -> hoare P (st_bind m k) Q.
  Proof. intros Hm Hk. eapply hoare_bind; [by apply hoare_preserves | done]. Qed.

  (** The results of a loop [for (const x of l)] each satisfy what each
      iteration promises. *)
Lemma hoare_mapM {A B} P (R : B -> Prop) (f : A -> St S E B) l :
    (forall x, hoare (fun _ => True) (f x) (fun b _ => R b)) ->
    hoare P (st_mapM f l) (fun bs _ => Forall R bs).
  Proof.
    intros Hf. revert P. induction l as [|x l IH]; intros P; simpl.
    - apply hoare_ret. constructor.
    - apply (hoare_bind _ (fun b _ => R b)); [eapply hoare_conseq; [apply Hf | done | done]|].
      intros b. apply hoare_pure. intros Hb.
      apply (hoare_bind _ (fun bs _ => Forall R bs)); [apply IH|].
      intros bs. apply hoare_ret. intros s Hbs. by constructor.
  Qed.
End Hoare.

(** Unfold the monad's plumbing once the action's pieces are known. *)
Ltac st_simpl :=
  repeat first
    [ progress cbn [st_bind st_ret st_throw st_lift st_catch o_bind fst snd] in *
    | progress autorewrite with pdfrw in * ].

(** ** Lists related element-wise *)

Lemma Forall_exists_Forall2 {A B} (P : A -> B -> Prop) (xs : list A) :
  Forall (fun x => exists y, P x y) xs -> exists ys, Forall2 P xs ys.
Proof.
  induction 1 as [|x xs [y Hy] _ [ys IH]]; [by exists []|]. exists (y :: ys). by constructor.
Qed.

Lemma Forall2_map_l_iff {A A' B} (f : A -> A') (P : A' -> B -> Prop) xs ys :
  Forall2 P (map f xs) ys <-> Forall2 (fun x y => P (f x) y) xs ys.
Proof.
  revert ys. induction xs as [|x xs IH]; intros ys; split; intros H; inversion H; subst; constructor; try done;
    by apply IH.
Qed.

Lemma Forall2_map_eq {A B C} (f : A -> C) (g : B -> C) xs ys :
  Forall2 (fun x y => g y = f x) xs ys -> map g ys = map f xs.
Proof. induction 1; simpl; congruence. Qed.

(** Close a decidable proposition on closed data by evaluation. *)
Ltac by_eval := apply (bool_decide_unpack _); vm_compute; exact I.
