(* ===== verification/Js.v ===== *)
(** * The JavaScript primitives the handlers call

    - [jsnum]: the Number values of the handlers: integers and [NaN]
      (the result of [parseInt] on a string with no digit), with the
      subtraction and comparisons the page loops use; every comparison
      with [NaN] is false.
    - [trim]: [String.prototype.trim];
    - [split_char]: [String.prototype.split] with a one-character
      separator, as in [pageRanges.split(',')] and [range.split('-')];
    - [includes_char]: [String.prototype.includes] with one character;
    - [parseInt]: the global [parseInt] with no radix argument
      (ECMA-262, 19.2.5), including the ["0x"] prefix;
    - [num_to_string]: [Number.prototype.toString] on non-negative
      integers, used in template literals.

    Strings are [string]s of 8-bit characters, standing for the UTF-16
    code units 0-255 of a JavaScript string.  Numbers are exact
    integers: the rounding of [parseInt] above 2^53 is not modelled. *)

From S2P Require Import Prelude.
From Stdlib Require Export Ascii.

(** ** Numbers *)

Inductive jsnum : Type :=
| JNum (z : Z)
| JNaN.

#[export] Instance jsnum_eq_dec : EqDecision jsnum.
Proof. solve_decision. Defined.

(** [x - k] *)
Definition num_sub (x : jsnum) (k : Z) : jsnum :=
  match x with JNum z => JNum (z - k) | JNaN => JNaN end.

(** [x + k] *)
Definition num_add (x : jsnum) (k : Z) : jsnum :=
  match x with JNum z => JNum (z + k) | JNaN => JNaN end.

(** [x < y] and [x <= y]: false as soon as one side is [NaN]. *)
Definition num_lt (x y : jsnum) : bool :=
  match x, y with JNum a, JNum b => (a <? b)%Z | _, _ => false end.
Definition num_le (x y : jsnum) : bool :=
  match x, y with JNum a, JNum b => (a <=? b)%Z | _, _ => false end.

(** [String(n)] for a non-negative integer [n]. *)
Definition num_to_string (n : N) : string := pretty n.

(** ** Characters *)

(** WhiteSpace and LineTerminator code points below 256: tab, line feed,
    vertical tab, form feed, carriage return, space and no-break space. *)
Definition is_js_space (c : ascii) : bool :=
  let n := Ascii.N_of_ascii c in
  ((9 <=? n) && (n <=? 13))%N || (n =? 32)%N || (n =? 160)%N.

(** The value of [c] as a digit in radices up to 36, as [parseInt] reads
    it: ['0'-'9'], then ['a'-'z'] and ['A'-'Z'] from 10. *)
Definition digit_value (c : ascii) : option Z :=
  let n := Z.of_N (Ascii.N_of_ascii c) in
  if ((48 <=? n) && (n <=? 57))%Z then Some (n - 48)%Z
  else if ((97 <=? n) && (n <=? 122))%Z then Some (n - 87)%Z
  else if ((65 <=? n) && (n <=? 90))%Z then Some (n - 55)%Z
  else None.

(** ** Strings *)

Fixpoint trim_start (s : string) : string :=
  match s with
  | EmptyString => EmptyString
  | String c s' => if is_js_space c then trim_start s' else s
  end.

Fixpoint trim_end (s : string) : string :=
  match s with
  | EmptyString => EmptyString
  | String c s' =>
      match trim_end s' with
      | EmptyString => if is_js_space c then EmptyString else String c EmptyString
      | r => String c r
      end
  end.

(** [s.trim()] *)
Definition trim (s : string) : string := trim_end (trim_start s).

(** [s.split(sep)]: the pieces between the occurrences of [sep]; the
    empty string gives [[""]]. *)
Fixpoint split_char (sep : ascii) (s : string) : list string :=
  match s with
  | EmptyString => [EmptyString]
  | String c s' =>
      let rest := split_char sep s' in
      if Ascii.eqb c sep then EmptyString :: rest
      else match rest with
           | [] => [String c EmptyString]
           | h :: t => String c h :: t
           end
  end.

(** [l.join(sep)], the inverse of [split_char]. *)
Fixpoint join_char (sep : ascii) (l : list string) : string :=
  match l with
  | [] => EmptyString
  | [x] => x
  | x :: l' => x +:+ String sep (join_char sep l')
  end.

(** [s.includes(c)] *)
Fixpoint includes_char (c : ascii) (s : string) : bool :=
  match s with
  | EmptyString => false
  | String c' s' => Ascii.eqb c' c || includes_char c s'
  end.

(** ** parseInt *)

(** The digit values of the longest prefix of [s] made of digits of
    [radix]. *)
Fixpoint digits_prefix (radix : Z) (s : string) : list Z :=
  match s with
  | EmptyString => []
  | String c s' =>
      match digit_value c with
      | Some d => if (d <? radix)%Z then d :: digits_prefix radix s' else []
      | None => []
      end
  end.

Definition digits_value (radix : Z) (ds : list Z) : Z :=
  fold_left (fun acc d => acc * radix + d)%Z ds 0%Z.

(** [parseInt(s)]: skip white space, read a sign, read a ["0x"]/["0X"]
    prefix (radix 16) or else use radix 10, and read the longest digit
    prefix; no digit gives [NaN]. *)
Definition parseInt (s : string) : jsnum :=
  let s1 := trim_start s in
  let '(sign, s2) :=
    match s1 with
    | String "-"%char r => ((-1)%Z, r)
    | String "+"%char r => (1%Z, r)
    | _ => (1%Z, s1)
    end in
  let '(radix, s3) :=
    match s2 with
    | String "0"%char (String x r) =>
        if Ascii.eqb x "x"%char || Ascii.eqb x "X"%char then (16%Z, r) else (10%Z, s2)
    | _ => (10%Z, s2)
    end in
  match digits_prefix radix s3 with
  | [] => JNaN
  | ds => JNum (sign * digits_value radix ds)%Z
  end.

(** ** Lemmas on [split_char] and [join_char] *)

Lemma split_char_not_nil sep s : split_char sep s <> [].
Proof.
  induction s as [|c s IH]; simpl; [done|].
  destruct (Ascii.eqb c sep); [done|]. by destruct (split_char sep s).
Qed.

Lemma join_char_cons_String sep c h t :
  join_char sep (String c h :: t) = String c (join_char sep (h :: t)).
Proof. by destruct t. Qed.

Lemma join_char_cons_ne sep x l :
  l <> [] -> join_char sep (x :: l) = x +:+ String sep (join_char sep l).
Proof. by destruct l. Qed.

(** Every piece of a split is free of the separator. *)
Lemma split_char_pieces sep s :
  Forall (fun p => includes_char sep p = false) (split_char sep s).
Proof.
  induction s as [|c s IH]; simpl; [by repeat constructor|].
  destruct (Ascii.eqb c sep) eqn:Hc; [by constructor|].
  destruct (split_char sep s) as [|h t] eqn:Hs; [by destruct (split_char_not_nil sep s)|].
  inversion IH; subst. constructor; [|done]. simpl. by rewrite Hc.
Qed.

Lemma split_char_cons_sep sep s :
  split_char sep (String sep s) = "" :: split_char sep s.
Proof. simpl. by rewrite Ascii.eqb_refl. Qed.

Lemma split_char_app_sep sep x s :
  includes_char sep x = false ->
  split_char sep (x +:+ String sep s) = x :: split_char sep s.
Proof.
  induction x as [|c x IH]; intros Hx; simpl; [by rewrite Ascii.eqb_refl|].
  simpl in Hx. apply orb_false_iff in Hx as [Hc Hx].
  rewrite Hc, IH by done. done.
Qed.

Lemma split_char_no_sep sep x :
  includes_char sep x = false -> split_char sep x = [x].
Proof.
  induction x as [|c x IH]; intros Hx; simpl; [done|].
  simpl in Hx. apply orb_false_iff in Hx as [Hc Hx]. by rewrite Hc, IH.
Qed.

#[export] Hint Resolve split_char_not_nil : pdftool.

(** ** Lemmas on [parseInt] and decimal printing *)

Lemma digits_value_acc r ds a :
  fold_left (fun acc d => acc * r + d)%Z ds a = (a * r ^ Z.of_nat (length ds) + digits_value r ds)%Z.
Proof.
  unfold digits_value. revert a. induction ds as [|d ds IH]; intros a; simpl; [lia|].
  rewrite (IH (a * r + d)%Z), (IH (0 * r + d)%Z). rewrite Nat2Z.inj_succ, Z.pow_succ_r by lia. lia.
Qed.

Lemma digits_value_snoc r ds d :
  digits_value r (ds ++ [d]) = (digits_value r ds * r + d)%Z.
Proof. unfold digits_value at 1. by rewrite fold_left_app. Qed.

Lemma digit_value_pretty_N_char d :
  (d < 10)%N -> digit_value (pretty_N_char d) = Some (Z.of_N d).
Proof.
  intros Hd. assert (d = 0 \/ d = 1 \/ d = 2 \/ d = 3 \/ d = 4 \/ d = 5 \/ d = 6
    \/ d = 7 \/ d = 8 \/ d = 9)%N as Hcases by lia.
  by repeat destruct Hcases as [->|Hcases]; [..|subst].
Qed.

(** The decimal digits [pretty_N_go] puts in front of [s] are read back
    by [digits_prefix] with their value. *)
Lemma digits_prefix_pretty_N_go x s :
  exists ds, digits_prefix 10 (pretty_N_go x s) = ds ++ digits_prefix 10 s /\
             digits_value 10 ds = Z.of_N x /\ ((0 < x)%N -> ds <> []).
Proof.
  revert s. induction x as [x IH] using (well_founded_induction N.lt_wf_0). intros s.
  destruct (decide (x = 0)%N) as [->|Hx]; [by exists []|].
  rewrite pretty_N_go_step by lia.
  destruct (IH (x `div` 10)%N ltac:(apply N.div_lt; lia)
              (String (pretty_N_char (x `mod` 10)) s)) as (ds & Hds & Hv & _).
  exists (ds ++ [Z.of_N (x `mod` 10)]). split; [|split].
  - rewrite Hds. simpl. rewrite digit_value_pretty_N_char by (apply N.mod_lt; lia).
    assert (Z.of_N (x `mod` 10) < 10)%Z by (pose proof (N.mod_lt x 10); lia).
    destruct (Z.ltb_spec (Z.of_N (x `mod` 10)) 10); [|lia]. by rewrite <- app_assoc.
  - rewrite digits_value_snoc, Hv. pose proof (N.div_mod x 10). lia.
  - intros _. by destruct ds.
Qed.

Lemma pretty_N_go_lead x s :
  (0 < x)%N -> exists d r, (1 <= d <= 9)%N /\ pretty_N_go x s = String (pretty_N_char d) r.
Proof.
  revert s. induction x as [x IH] using (well_founded_induction N.lt_wf_0). intros s Hx.
  rewrite pretty_N_go_step by lia.
  destruct (decide (x < 10)%N) as [Hlt|Hge].
  - rewrite N.div_small, N.mod_small by done. exists x, s. split; [lia|done].
  - apply IH; [apply N.div_lt; lia|]. apply N.div_str_pos. lia.
Qed.

Lemma parseInt_lead_digit d r :
  (1 <= d <= 9)%N ->
  parseInt (String (pretty_N_char d) r) =
    match digits_prefix 10 (String (pretty_N_char d) r) with
    | [] => JNaN
    | ds => JNum (1 * digits_value 10 ds)%Z
    end.
Proof.
  intros Hd. assert (d = 1 \/ d = 2 \/ d = 3 \/ d = 4 \/ d = 5 \/ d = 6
    \/ d = 7 \/ d = 8 \/ d = 9)%N as Hcases by lia.
  by repeat destruct Hcases as [->|Hcases]; [..|subst].
Qed.

Fixpoint string_forallb (P : ascii -> bool) (s : string) : bool :=
  match s with
  | EmptyString => true
  | String c s' => P c && string_forallb P s'
  end.

Definition is_dec_digit (c : ascii) : bool :=
  let n := Ascii.N_of_ascii c in ((48 <=? n) && (n <=? 57))%N.

Lemma is_dec_digit_pretty_N_char d : is_dec_digit (pretty_N_char d) = true.
Proof. unfold pretty_N_char. by repeat case_match. Qed.

Lemma pretty_N_go_digits x s :
  string_forallb is_dec_digit s = true ->
  string_forallb is_dec_digit (pretty_N_go x s) = true.
Proof.
  revert s. induction x as [x IH] using (well_founded_induction N.lt_wf_0). intros s Hs.
  destruct (decide (x = 0)%N) as [->|Hx]; [done|].
  rewrite pretty_N_go_step by lia. apply IH; [apply N.div_lt; lia|].
  simpl. by rewrite is_dec_digit_pretty_N_char.
Qed.

Lemma num_to_string_digits n : string_forallb is_dec_digit (num_to_string n) = true.
Proof.
  unfold num_to_string, pretty, pretty_N. case_decide; [done|]. by apply pretty_N_go_digits.
Qed.

Lemma is_dec_digit_not_space c : is_dec_digit c = true -> is_js_space c = false.
Proof.
  unfold is_dec_digit, is_js_space. generalize (Ascii.N_of_ascii c) as n. intros n H.
  destruct (N.leb_spec 48 n), (N.leb_spec n 57); try discriminate.
  destruct (N.leb_spec 9 n), (N.leb_spec n 13), (N.eqb_spec n 32), (N.eqb_spec n 160);
    simpl; (reflexivity || lia).
Qed.

Lemma string_forallb_impl (P Q : ascii -> bool) s :
  (forall c, P c = true -> Q c = true) -> string_forallb P s = true -> string_forallb Q s = true.
Proof.
  intros HPQ. induction s as [|c s IH]; [done|]. simpl.
  intros [Hc Hs]%andb_true_iff. by rewrite HPQ, IH.
Qed.

Lemma string_forallb_app P x y :
  string_forallb P (x +:+ y) = string_forallb P x && string_forallb P y.
Proof. induction x as [|c x IH]; [done|]. simpl. by rewrite IH, andb_assoc. Qed.

(** [trim] leaves a string without white space as it is. *)
Lemma trim_id s :
  string_forallb (fun c => negb (is_js_space c)) s = true -> trim s = s.
Proof.
  intros H. unfold trim.
  assert (trim_start s = s) as ->.
  { destruct s as [|c s]; [done|]. simpl in *. apply andb_true_iff in H as [Hc _].
    by apply negb_true_iff in Hc as ->. }
  induction s as [|c s IH]; [done|]. simpl in *. apply andb_true_iff in H as [Hc Hs].
  apply negb_true_iff in Hc. rewrite IH by done. destruct s; [|done]. by rewrite Hc.
Qed.

Lemma trim_no_space s :
  string_forallb is_dec_digit s = true -> trim s = s.
Proof.
  intros H. apply trim_id. eapply string_forallb_impl; [|exact H].
  intros c Hc. by rewrite is_dec_digit_not_space.
Qed.

Lemma digits_no_sep sep s :
  is_dec_digit sep = false -> string_forallb is_dec_digit s = true ->
  includes_char sep s = false.
Proof.
  intros Hsep. induction s as [|c s IH]; intros H; [done|]. simpl in *.
  apply andb_true_iff in H as [Hc Hs]. rewrite IH by done.
  destruct (Ascii.eqb_spec c sep); [congruence | done].
Qed.

(** *** Round trips *)

(** The proof of the property below, shared with the lemmas that use it. *)
Lemma parseInt_pretty n : parseInt (num_to_string n) = JNum (Z.of_N n).
Proof.
  unfold num_to_string, pretty, pretty_N. case_decide as Hn; [by subst|].
  assert (0 < n)%N as Hpos by (destruct n; [done | apply N.lt_0_succ || lia]).
  destruct (pretty_N_go_lead n "" Hpos) as (d & r & Hd & Heq).
  destruct (digits_prefix_pretty_N_go n "") as (ds & Hds & Hv & Hne).
  rewrite Heq, parseInt_lead_digit by done. rewrite <- Heq, Hds, app_nil_r.
  destruct ds as [|? ?]; [by destruct (Hne Hpos)|]. by rewrite <- Hv, Z.mul_1_l.
Qed.

(** Printing a non-negative integer in decimal and reading it back
    with [parseInt] gives the integer. *)
Theorem parseInt_num_to_string n : parseInt (num_to_string n) = JNum (Z.of_N n).
Proof. apply parseInt_pretty. Qed.

(** Joining the pieces of [s.split(sep)] with [sep] gives [s] back. *)
Theorem split_char_join sep s : join_char sep (split_char sep s) = s.
Proof.
  induction s as [|c s IH]; [done|]. simpl.
  destruct (Ascii.eqb_spec c sep) as [->|Hc].
  - rewrite join_char_cons_ne by apply split_char_not_nil. by rewrite IH.
  - destruct (split_char sep s) as [|h t] eqn:Hs; [by destruct (split_char_not_nil sep s)|].
    by rewrite join_char_cons_String, IH.
Qed.

(** The proof of the property below, shared with the lemmas that use it. *)
Lemma split_join_pieces sep l :
  l <> [] -> Forall (fun p => includes_char sep p = false) l ->
  split_char sep (join_char sep l) = l.
Proof.
  induction l as [|x l IH]; intros Hne Hl; [done|]. inversion Hl as [|? ? Hx Hl']; subst.
  destruct l as [|y l].
  - by apply split_char_no_sep.
  - rewrite join_char_cons_ne by done. rewrite split_char_app_sep by done.
    by rewrite IH.
Qed.

(** Splitting a join of separator-free pieces gives the pieces back. *)
Theorem join_char_split sep l :
  l <> [] -> Forall (fun p => includes_char sep p = false) l ->
  split_char sep (join_char sep l) = l.
Proof. intros. by apply split_join_pieces. Qed.

(** ** Exceptions

    The exceptions the handlers can meet, with the [message] the catch
    blocks of the handlers send back. *)
Inductive js_error : Type :=
| ENOENT (syscall : string) (path : string)  (** fs: no such file or directory *)
| PdfParseError                             (** pdf-lib: the bytes are not a PDF *)
| TypeError (message : string)              (** a property read on [undefined] *)
| LibError (message : string).              (** an [Error] a library throws, with its message *)

Definition error_message (e : js_error) : string :=
  match e with
  | ENOENT sc p => "ENOENT: no such file or directory, " +:+ sc +:+ " '" +:+ p +:+ "'"
  | PdfParseError => "Failed to parse PDF document"
  | TypeError m => m
  | LibError m => m
  end.

Lemma includes_char_app c x y :
  includes_char c (x +:+ y) = includes_char c x || includes_char c y.
Proof. induction x as [|c' x IH]; [done|]. simpl. by rewrite IH, orb_assoc. Qed.

Lemma append_inv_l s x y : s +:+ x = s +:+ y -> x = y.
Proof. induction s as [|c s IH]; [done|]. simpl. intros H. injection H. apply IH. Qed.

(** Two strings free of [c], each followed by [c], are equal when the
    whole strings are. *)
Lemma append_sep_inj c x y r1 r2 :
  includes_char c x = false -> includes_char c y = false ->
  x +:+ String c r1 = y +:+ String c r2 -> x = y.
Proof.
  revert y. induction x as [|a x IH]; intros [|b y] Hx Hy H; simpl in *.
  - done.
  - injection H as -> _. by rewrite Ascii.eqb_refl in Hy.
  - injection H as -> _. by rewrite Ascii.eqb_refl in Hx.
  - apply orb_false_iff in Hx as [_ Hx], Hy as [_ Hy].
    injection H as -> H. f_equal. by apply IH.
Qed.

Lemma join_char_split_witness :
  split_char ","%char (join_char ","%char ["1-3"; "5"]) = ["1-3"; "5"].
Proof. apply join_char_split; [discriminate | repeat constructor]. Defined.
