(* ===== verification/PdfLib.v ===== *)
(** * The external document libraries: pdf-lib and archiver

    [src/server.js] calls pdf-lib's [PDFDocument] ([create], [load],
    [getPageCount], [getPageIndices], [copyPages], [addPage], [save]) and
    archiver's zip writer.  They are not part of the repository: their
    behaviour is stated here as two type classes with laws, [PdfLib] and
    [Archiver], against which the handlers and their theorems are
    written.  [ListModel] gives an instance: a document is its list of
    pages and a file is a tree of PDF, zip and raw contents.

    The derived operations [getPageCount], [getPageIndices], [copyPages]
    and [load_doc] are pdf-lib's methods as the handlers use them:
    [copyPages(src, [i])] reads [src.getPages()[i]] and then its [node]
    field, so an index outside the document throws a [TypeError]. *)

From S2P Require Import Prelude Js.

Class PdfLib (Bytes Doc Page : Type) := {
  pdf_create : Doc;                       (** [PDFDocument.create()] *)
  pdf_load : Bytes -> option Doc;         (** [PDFDocument.load(bytes)]; [None]: not a PDF *)
  pdf_save : Doc -> Bytes;                (** [doc.save()] *)
  pdf_pages : Doc -> list Page;           (** [doc.getPages()] *)
  pdf_add_page : Doc -> Page -> Doc       (** [doc.addPage(page)] *)
}.

Class PdfLibLaws (Bytes Doc Page : Type) `{!PdfLib Bytes Doc Page} := {
  pdf_pages_create : pdf_pages pdf_create = [];
  pdf_pages_add_page d p : pdf_pages (pdf_add_page d p) = pdf_pages d ++ [p];
  pdf_load_save d : exists d', pdf_load (pdf_save d) = Some d' /\ pdf_pages d' = pdf_pages d
}.

Class Archiver (Bytes : Type) := {
  zip_pack : list (string * Bytes) -> Bytes;           (** [archive.file(..); archive.finalize()] *)
  zip_entries : Bytes -> option (list (string * Bytes)) (** what an unzip of the bytes lists *)
}.

Class ArchiverLaws (Bytes : Type) `{!Archiver Bytes} := {
  zip_entries_pack l : zip_entries (zip_pack l) = Some l
}.

#[export] Hint Rewrite @pdf_pages_create @pdf_pages_add_page @zip_entries_pack : pdfrw.

Section Derived.
  Context {Bytes Doc Page : Type} `{!PdfLib Bytes Doc Page}.

  (** [doc.getPageCount()] *)
Definition getPageCount (d : Doc) : Z := Z.of_nat (length (pdf_pages d)).

  (** [doc.getPageIndices()] *)
Definition getPageIndices (d : Doc) : list Z := zseq 0 (length (pdf_pages d)).

  (** [array[i]] for a JavaScript number [i]: [undefined] off the array. *)
Definition js_index {A} (l : list A) (i : Z) : option A :=
    if (i <? 0)%Z then None else l !! Z.to_nat i.

  (** One iteration of pdf-lib's [copyPages] loop: [srcPages[i].node]. *)
Definition copy_page (src : Doc) (i : Z) : outcome js_error Page :=
    match js_index (pdf_pages src) i with
    | Some p => Ok p
    | None => Throw (TypeError "Cannot read properties of undefined (reading 'node')")
    end.

  (** [await dst.copyPages(src, indices)] *)
Fixpoint copyPages (src : Doc) (indices : list Z) : outcome js_error (list Page) :=
    match indices with
    | [] => Ok []
    | i :: rest =>
        let? p := copy_page src i in
        let? ps := copyPages src rest in
        Ok (p :: ps)
    end.

  (** [await PDFDocument.load(bytes)] *)
Definition load_doc (b : Bytes) : outcome js_error Doc :=
    match pdf_load b with Some d => Ok d | None => Throw PdfParseError end.

  (** [pages.forEach(p => doc.addPage(p))] *)
Definition add_pages (d : Doc) (ps : list Page) : Doc := fold_left pdf_add_page ps d.
End Derived.

Section DerivedLemmas.
  Context {Bytes Doc Page : Type} `{!PdfLib Bytes Doc Page, !PdfLibLaws Bytes Doc Page}.

Lemma copy_page_in src (i : Z) p :
    pdf_pages src !! Z.to_nat i = Some p -> (0 <= i)%Z -> copy_page src i = Ok p.
  Proof.
    intros Hp Hi. unfold copy_page, js_index.
    destruct (Z.ltb_spec i 0); [lia|]. by rewrite Hp.
  Qed.

Lemma copy_page_ok src (i : Z) :
    (0 <= i < getPageCount src)%Z ->
    exists p, pdf_pages src !! Z.to_nat i = Some p /\ copy_page src i = Ok p.
  Proof.
    unfold getPageCount. intros Hi.
    destruct (lookup_lt_is_Some_2 (pdf_pages src) (Z.to_nat i)) as [p Hp]; [lia|].
    exists p. split; [done|]. apply copy_page_in; [done | lia].
  Qed.

Lemma copy_page_negative src (i : Z) :
    (i < 0)%Z -> exists m, copy_page src i = Throw (TypeError m).
  Proof.
    intros Hi. unfold copy_page, js_index. destruct (Z.ltb_spec i 0); [|lia]. by eexists.
  Qed.

Lemma copyPages_zseq src (a : Z) n :
    (0 <= a)%Z -> (a + Z.of_nat n <= getPageCount src)%Z ->
    copyPages src (zseq a n) = Ok (take n (drop (Z.to_nat a) (pdf_pages src))).
  Proof.
    unfold getPageCount. revert a. induction n as [|n IH]; intros a Ha Hn; [done|].
    rewrite zseq_S. simpl.
    assert (Z.to_nat a < length (pdf_pages src)) as Hlt by lia.
    destruct (lookup_lt_is_Some_2 (pdf_pages src) (Z.to_nat a) Hlt) as [p Hp].
    rewrite (copy_page_in src a p Hp Ha). simpl. rewrite IH by lia.
    rewrite (drop_S _ _ _ Hp). simpl. by replace (Z.to_nat (a + 1)) with (S (Z.to_nat a)) by lia.
  Qed.

Lemma copyPages_all src : copyPages src (getPageIndices src) = Ok (pdf_pages src).
  Proof.
    unfold getPageIndices. rewrite copyPages_zseq; unfold getPageCount; [|lia..].
    by rewrite drop_0, take_ge.
  Qed.

Lemma add_pages_pages d ps : pdf_pages (add_pages d ps) = pdf_pages d ++ ps.
  Proof.
    unfold add_pages. revert d. induction ps as [|p ps IH]; intros d; simpl.
    - by rewrite app_nil_r.
    - by rewrite IH, pdf_pages_add_page, <- app_assoc.
  Qed.

Lemma load_doc_save d :
    exists d', load_doc (pdf_save d) = Ok d' /\ pdf_pages d' = pdf_pages d.
  Proof.
    destruct (pdf_load_save d) as (d' & Hl & Hp). exists d'. unfold load_doc. by rewrite Hl.
  Qed.
End DerivedLemmas.

#[export] Hint Rewrite @add_pages_pages @copyPages_all : pdfrw.



(** ** A model of the libraries: documents as lists of pages *)

Module ListModel.
  Section Blob.
    Context {Page : Type}.

    (** The contents of a file: a PDF, a zip archive, or other data. *)
Inductive blob : Type :=
    | BPdf (pages : list Page)
    | BZip (entries : list (string * blob))
    | BRaw (data : string).

#[export] Instance list_pdf : PdfLib blob (list Page) Page := {
      pdf_create := [];
      pdf_load b := match b with BPdf ps => Some ps | _ => None end;
      pdf_save d := BPdf d;
      pdf_pages d := d;
      pdf_add_page d p := d ++ [p]
    }.

#[export] Instance list_pdf_laws : PdfLibLaws blob (list Page) Page.
    Proof. split; [done | done | intros d; by exists d]. Qed.

#[export] Instance blob_zip : Archiver blob := {
      zip_pack l := BZip l;
      zip_entries b := match b with BZip l => Some l | _ => None end
    }.

#[export] Instance blob_zip_laws : ArchiverLaws blob.
    Proof. split. done. Qed.
  End Blob.
  Arguments blob : clear implicits.
End ListModel.
