(* ===== verification/Store.v ===== *)
(** * The world of the handlers: files, directories and the clock

    The handlers of [src/server.js] act on the file system through
    [fs.promises] and read the clock with [Date.now()].  A [world] holds
    - [files]: the files, by directory and name ([uploads/<name>],
      [downloads/<name>]), each with its contents and modification time;
    - [dirs]: the directories that exist (the handlers create [downloads]
      with [fs.mkdir(.., {recursive: true})], multer creates [uploads]);
    - [clock]: the value [Date.now()] returns.
    The clock only moves between requests (see [tick]): a handler reads
    one instant, which is one of the schedules the real server can take
    (all of a request within one millisecond).

    The operations are actions of the monad [M] = [St world js_error]:
    [writeFile], [readFile], [unlink], [mkdir], [readdir], [stat] and
    [date_now] follow Node's semantics for the cases the handlers meet:
    writing into a directory that does not exist, reading or unlinking a
    missing file throw [ENOENT].

    The request and response shapes of Express and multer are here too:
    [uploaded] is multer's [req.file], [response] is what [res.status(..)
    .json(..)] sends, and [multer_store] is the [diskStorage] of lines
    21-37. *)

From S2P Require Import Prelude Js PdfLib.

Record file (Bytes : Type) := mkFile { contents : Bytes; mtime : N }.
Arguments mkFile {Bytes} contents mtime.
Arguments contents {Bytes} _.
Arguments mtime {Bytes} _.

Record world (Bytes : Type) := mkWorld {
  files : gmap (string * string) (file Bytes);
  dirs : gset string;
  clock : N
}.
Arguments mkWorld {Bytes} files dirs clock.
Arguments files {Bytes} _.
Arguments dirs {Bytes} _.
Arguments clock {Bytes} _.

Abbreviation M Bytes A := (St (world Bytes) js_error A).

(** [path.join(dir, name)] for a name without a slash. *)
Definition path_join (dir name : string) : string := dir +:+ "/" +:+ name.

(** multer's [req.file]: [path] is [up_dir/up_name]. *)
Record uploaded := mkUploaded { up_dir : string; up_name : string; originalname : string }.

(** The form fields of [req.body] are strings, a missing one is [None].
    [field === value]: *)
Definition field_is (o : option string) (v : string) : bool :=
  match o with Some s => String.eqb s v | None => false end.

(** A field used as a condition: a non-empty string is truthy. *)
Definition truthy (o : option string) : bool :=
  match o with Some s => negb (String.eqb s "") | None => false end.

(** [`${x}`] of a field, [undefined] when absent. *)
Definition js_str (x : option string) : string := match x with Some s => s | None => "undefined" end.

(** The JSON body of a response. *)
Inductive body : Type :=
| BSuccess (fileName : string) (downloadUrl : string) (message : string)
| BSuccessSize (fileName : string) (downloadUrl : string) (message : string) (size : string)
| BError (error : string)
| BStatus (st : string) (message : string).

Record response := mkResponse { status : Z; rbody : body }.

(** [res.json({ success: true, fileName, downloadUrl: `/downloads/${fileName}`, message })] *)
Definition success (fileName message : string) : response :=
  mkResponse 200 (BSuccess fileName ("/downloads/" +:+ fileName) message).

(** [res.json({ success: true, fileName, downloadUrl, message, size })] *)
Definition success_size (fileName message size : string) : response :=
  mkResponse 200 (BSuccessSize fileName ("/downloads/" +:+ fileName) message size).

(** [res.status(code).json({ error: msg })] *)
Definition failure (code : Z) (msg : string) : response := mkResponse code (BError msg).

Section Fs.
  Context {Bytes : Type}.

Definition with_files (w : world Bytes) (fs : gmap (string * string) (file Bytes)) : world Bytes :=
    mkWorld fs (dirs w) (clock w).

  (** [Date.now()] *)
Definition date_now : M Bytes N := fun w => (Ok (clock w), w).

  (** [await fs.mkdir(dir, { recursive: true })] *)
Definition mkdir (dir : string) : M Bytes unit :=
    fun w => (Ok tt, mkWorld (files w) ({[dir]} ∪ dirs w) (clock w)).

  (** [await fs.writeFile(path.join(dir, name), bytes)] *)
Definition writeFile (dir name : string) (b : Bytes) : M Bytes unit :=
    fun w =>
      if decide (dir ∈ dirs w)
      then (Ok tt, with_files w (<[(dir, name) := mkFile b (clock w)]> (files w)))
      else (Throw (ENOENT "open" (path_join dir name)), w).

  (** [await fs.readFile(path.join(dir, name))] *)
Definition readFile (dir name : string) : M Bytes Bytes :=
    fun w =>
      match files w !! (dir, name) with
      | Some f => (Ok (contents f), w)
      | None => (Throw (ENOENT "open" (path_join dir name)), w)
      end.

  (** [await fs.unlink(path.join(dir, name))] *)
Definition unlink (dir name : string) : M Bytes unit :=
    fun w =>
      match files w !! (dir, name) with
      | Some _ => (Ok tt, with_files w (delete (dir, name) (files w)))
      | None => (Throw (ENOENT "unlink" (path_join dir name)), w)
      end.

  (** [await fs.stat(path.join(dir, name))]: the file's stats, of which
      the code reads [mtimeMs] ([mtime]) and [size]. *)
Definition stat (dir name : string) : M Bytes (file Bytes) :=
    fun w =>
      match files w !! (dir, name) with
      | Some f => (Ok f, w)
      | None => (Throw (ENOENT "stat" (path_join dir name)), w)
      end.

  (** [await fs.readdir(dir)]: the names of the files of [dir]. *)
Definition readdir (dir : string) : M Bytes (list string) :=
    fun w =>
      if decide (dir ∈ dirs w)
      then (Ok (map (fun kv => kv.1.2) (filter (fun kv => kv.1.1 = dir) (map_to_list (files w)))), w)
      else (Throw (ENOENT "scandir" dir), w).

  (** The clock advancing by [d] milliseconds between two requests. *)
Definition tick (d : N) (w : world Bytes) : world Bytes :=
    mkWorld (files w) (dirs w) (clock w + d)%N.

  (** multer's [diskStorage] (lines 21-32) storing one uploaded file:
      [destination] creates [uploads] and ignores any error, [filename]
      is [Date.now() + '-' + file.originalname]. *)
Definition multer_store (orig : string) (b : Bytes) : M Bytes uploaded :=
    do! mkdir "uploads" in
    let! now := date_now in
    let name := num_to_string now +:+ "-" +:+ orig in
    do! writeFile "uploads" name b in
    st_ret (mkUploaded "uploads" name orig).

  (** The [catch (error)] block every handler ends with:
      [res.status(500).json({ error: error.message })]. *)
Definition catch_500 (m : M Bytes response) : M Bytes response :=
    st_catch m (fun e => st_ret (failure 500 (error_message e))).
End Fs.

(** ** Running the fs actions *)

Section FsLemmas.
  Context {Bytes : Type}.
  Implicit Types (w : world Bytes).

Lemma with_files_files w fs : files (with_files w fs) = fs.
  Proof. done. Qed.
Lemma with_files_dirs w fs : dirs (with_files w fs) = dirs w.
  Proof. done. Qed.
Lemma with_files_clock w fs : clock (with_files w fs) = clock w.
  Proof. done. Qed.
Lemma with_files_twice w fs fs' : with_files (with_files w fs) fs' = with_files w fs'.
  Proof. done. Qed.
Lemma with_files_id w : with_files w (files w) = w.
  Proof. by destruct w. Qed.

Lemma writeFile_ok w dir name b :
    dir ∈ dirs w ->
    writeFile dir name b w = (Ok tt, with_files w (<[(dir, name) := mkFile b (clock w)]> (files w))).
  Proof. intros H. unfold writeFile. by rewrite decide_True. Qed.

Lemma writeFile_no_dir w dir name b :
    dir ∉ dirs w -> writeFile dir name b w = (Throw (ENOENT "open" (path_join dir name)), w).
  Proof. intros H. unfold writeFile. by rewrite decide_False. Qed.

Lemma readFile_ok w dir name f :
    files w !! (dir, name) = Some f -> readFile dir name w = (Ok (contents f), w).
  Proof. intros H. unfold readFile. by rewrite H. Qed.

Lemma readFile_missing w dir name :
    files w !! (dir, name) = None -> readFile dir name w = (Throw (ENOENT "open" (path_join dir name)), w).
  Proof. intros H. unfold readFile. by rewrite H. Qed.

Lemma unlink_ok w dir name f :
    files w !! (dir, name) = Some f -> unlink dir name w = (Ok tt, with_files w (delete (dir, name) (files w))).
  Proof. intros H. unfold unlink. by rewrite H. Qed.

Lemma stat_ok w dir name f : files w !! (dir, name) = Some f -> stat dir name w = (Ok f, w).
  Proof. intros H. unfold stat. by rewrite H. Qed.

Lemma date_now_run w : date_now w = (Ok (clock w), w).
  Proof. done. Qed.
End FsLemmas.

#[export] Hint Rewrite @with_files_files @with_files_dirs @with_files_clock @with_files_twice
  @date_now_run : pdfrw.

Section CatchLemmas.
  Context {Bytes : Type}.

Lemma catch_500_ok (m : M Bytes response) w r w' :
    m w = (Ok r, w') -> catch_500 m w = (Ok r, w').
  Proof. intros H. unfold catch_500, st_catch. by rewrite H. Qed.

Lemma catch_500_throw (m : M Bytes response) w e w' :
    m w = (Throw e, w') -> catch_500 m w = (Ok (failure 500 (error_message e)), w').
  Proof. intros H. unfold catch_500, st_catch. by rewrite H. Qed.
End CatchLemmas.

(** ** The frame every action keeps

    No action of the handlers moves the clock or removes a directory. *)

Definition frame {Bytes} (c : N) (ds : gset string) (w : world Bytes) : Prop :=
  clock w = c /\ ds ⊆ dirs w.

Section Frame.
  Context {Bytes : Type} (c : N) (ds : gset string).

Lemma frame_date_now : st_preserves (frame c ds) (@date_now Bytes).
  Proof. by intros w Hw. Qed.
Lemma frame_mkdir dir : st_preserves (frame c ds) (@mkdir Bytes dir).
  Proof. intros w [Hc Hd]. split; [done|]. simpl. set_solver. Qed.
Lemma frame_writeFile dir name b : st_preserves (frame c ds) (@writeFile Bytes dir name b).
  Proof. intros w Hw. unfold writeFile. by case_decide. Qed.
Lemma frame_readFile dir name : st_preserves (frame c ds) (@readFile Bytes dir name).
  Proof. intros w Hw. unfold readFile. by destruct (files w !! _). Qed.
Lemma frame_unlink dir name : st_preserves (frame c ds) (@unlink Bytes dir name).
  Proof. intros w Hw. unfold unlink. by destruct (files w !! _). Qed.
Lemma frame_stat dir name : st_preserves (frame c ds) (@stat Bytes dir name).
  Proof. intros w Hw. unfold stat. by destruct (files w !! _). Qed.
Lemma frame_readdir dir : st_preserves (frame c ds) (@readdir Bytes dir).
  Proof. intros w Hw. unfold readdir. by case_decide. Qed.
Lemma frame_catch_500 (m : M Bytes response) :
    st_preserves (frame c ds) m -> st_preserves (frame c ds) (catch_500 m).
  Proof. intros Hm. unfold catch_500. apply st_preserves_catch; [done|]. intros e. apply st_preserves_ret. Qed.
End Frame.

#[export] Hint Resolve frame_date_now frame_mkdir frame_writeFile frame_readFile frame_unlink
  frame_stat frame_readdir frame_catch_500 : pdftool.

(** ** Invariants kept by every fs action

    A predicate on worlds that each primitive action keeps is kept by
    every program built from them.  The handlers prove this once, for
    any [FsInv]; [frame] (the clock and the directories are kept) is
    the instance the split handler's frame theorem uses. *)
Class FsInv {Bytes} (P : world Bytes -> Prop) := {
  inv_date_now : st_preserves P (@date_now Bytes);
  inv_mkdir dir : st_preserves P (@mkdir Bytes dir);
  inv_writeFile dir name b : st_preserves P (@writeFile Bytes dir name b);
  inv_readFile dir name : st_preserves P (@readFile Bytes dir name);
  inv_unlink dir name : st_preserves P (@unlink Bytes dir name);
  inv_stat dir name : st_preserves P (@stat Bytes dir name);
  inv_readdir dir : st_preserves P (@readdir Bytes dir)
}.

#[export] Instance frame_inv {Bytes} c ds : FsInv (@frame Bytes c ds).
Proof. split; auto with pdftool. Qed.

Lemma inv_catch_500 {Bytes} (P : world Bytes -> Prop) `{!FsInv P} (m : M Bytes response) :
  st_preserves P m -> st_preserves P (catch_500 m).
Proof. intros Hm. unfold catch_500. apply st_preserves_catch; [done|]. intros e. apply st_preserves_ret. Qed.

#[export] Hint Resolve inv_date_now inv_mkdir inv_writeFile inv_readFile inv_unlink inv_stat
  inv_readdir inv_catch_500 : pdftool.

(** Prove [st_preserves] of a program built from binds, branches and
    the primitive actions. *)
Ltac preserves_tac :=
  repeat first
    [ progress eauto with pdftool
    | apply st_preserves_bind; [|intros ?]
    | match goal with
      | |- st_preserves _ (match ?x with _ => _ end) => destruct x
      | |- st_preserves _ (if ?b then _ else _) => destruct b
      end ].

(** Inverting a bind that returned a value. *)
Lemma st_bind_Ok_inv {S E A B} (m : St S E A) (k : A -> St S E B) s b s' :
  st_bind m k s = (Ok b, s') -> exists a s1, m s = (Ok a, s1) /\ k a s1 = (Ok b, s').
Proof.
  unfold st_bind. destruct (m s) as [[a|e] s1]; [|done]. intros H. by exists a, s1.
Qed.

Lemma frame_clock {Bytes A} (m : M Bytes A) (w w' : world Bytes) o :
  (forall c ds, st_preserves (frame c ds) m) -> m w = (o, w') -> clock w' = clock w.
Proof.
  intros Hm Hrun. destruct (Hm (clock w) (dirs w) w) as [Hc _]; [done|]. by rewrite Hrun in Hc.
Qed.

(** multer's name for an upload stored at instant [now]. *)
Definition multer_name (now : N) (orig : string) : string := num_to_string now +:+ "-" +:+ orig.

(** What storing one file does: [uploads] exists, the file is written
    under [<now>-<orig>]. *)
Lemma multer_store_run {Bytes} orig (b : Bytes) (w : world Bytes) :
  multer_store orig b w =
    (Ok (mkUploaded "uploads" (multer_name (clock w) orig) orig),
     mkWorld (<[("uploads", multer_name (clock w) orig) := mkFile b (clock w)]> (files w))
             ({["uploads"]} ∪ dirs w) (clock w)).
Proof.
  unfold multer_store, st_bind, st_ret, mkdir. rewrite date_now_run.
  rewrite writeFile_ok by (cbn; set_solver). reflexivity.
Qed.

(** [C38] Two uploads with the same original name stored in the same
    millisecond get the same [req.file] record: the second overwrites
    the first on disk, so both records name the second file's bytes. *)
Theorem multer_same_instant {Bytes} orig (b1 b2 : Bytes) (w : world Bytes) :
  exists w1 w2,
    multer_store orig b1 w = (Ok (mkUploaded "uploads" (multer_name (clock w) orig) orig), w1) /\
    multer_store orig b2 w1 = (Ok (mkUploaded "uploads" (multer_name (clock w) orig) orig), w2) /\
    files w2 !! ("uploads", multer_name (clock w) orig) = Some (mkFile b2 (clock w)).
Proof.
  eexists _, _. rewrite multer_store_run. split_and!; [reflexivity | |].
  - rewrite multer_store_run. reflexivity.
  - cbn. apply lookup_insert_eq.
Qed.
