(* ===== verification/RangeParser.v ===== *)
(** * Page-range parsing and the per-token page loops of [/api/split]

    Lines 210-231 of [src/server.js]:
    - [range_tokens] is [pageRanges.split(',').map(r => r.trim())];
    - [parse_range] classifies one token as the code does: a token with a
      ['-'] is an [Interval] of [parseInt(n.trim()) - 1] of its first two
      ['-']-pieces, any other token is a [Single] [parseInt(range) - 1];
      both are 0-based and may be [NaN];
    - [interval_loop] is the loop
      [for (let p = start; p <= end && p < totalPages; p++)] copying page
      [p] into the new document, with a fuel argument; [loop_fuel] is
      enough fuel for the loop to stop by its own condition;
    - [range_part] builds the document of one token from
      [PDFDocument.create()].
    The reference [range_indices] lists the page indices the code copies
    for a token; the first theorem below proves the loops equal to copying
    exactly those indices, which gives the behaviour of each kind of
    token: in range, out of range, reversed, and below page 1 (where the
    code throws instead of producing an empty part). *)

From S2P Require Import Prelude Js PdfLib.

(** [pageRanges.split(',').map(r => r.trim())] *)
Definition range_tokens (pageRanges : string) : list string :=
  map trim (split_char ","%char pageRanges).

(** A parsed token, with its 0-based bounds as the code computes them. *)
Inductive range_spec : Type :=
| Interval (start end_ : jsnum)
| Single (pageNum : jsnum).

(** [if (range.includes('-')) { const [start, end] = range.split('-').map(
    n => parseInt(n.trim()) - 1); .. } else { const pageNum = parseInt(range) - 1; .. }];
    a missing array element is [undefined], which compares like [NaN]. *)
Definition parse_range (range : string) : range_spec :=
  if includes_char "-"%char range then
    let bounds := map (fun n => num_sub (parseInt (trim n)) 1) (split_char "-"%char range) in
    Interval (nth 0 bounds JNaN) (nth 1 bounds JNaN)
  else Single (num_sub (parseInt range) 1).

Section Loops.
  Context {Bytes Doc Page : Type} `{!PdfLib Bytes Doc Page}.

  (** [const [copiedPage] = await newPdf.copyPages(pdfDoc, [p])] for a
      number [p]; [srcPages[NaN]] is [undefined] like any index off the
      array. *)
Definition copy_page_num (src : Doc) (p : jsnum) : outcome js_error Page :=
    match p with
    | JNum z => copy_page src z
    | JNaN => copy_page src (-1)
    end.

  (** [for (let p = start; p <= end && p < totalPages; p++) {
         const [copiedPage] = await newPdf.copyPages(pdfDoc, [p]);
         newPdf.addPage(copiedPage); }] *)
Fixpoint interval_loop (fuel : nat) (src : Doc) (totalPages : Z)
           (p end_ : jsnum) (newPdf : Doc) : outcome js_error Doc :=
    match fuel with
    | O => Ok newPdf
    | S fuel' =>
        if num_le p end_ && num_lt p (JNum totalPages) then
          let? copiedPage := copy_page_num src p in
          interval_loop fuel' src totalPages (num_add p 1) end_ (pdf_add_page newPdf copiedPage)
        else Ok newPdf
    end.

  (** The loop runs at most [totalPages - start] times. *)
Definition loop_fuel (start : jsnum) (totalPages : Z) : nat :=
    match start with JNum s => Z.to_nat (totalPages - s) | JNaN => O end.

  (** The body of the token loop (lines 215-230) up to the save: the
      document built for one token. *)
Definition range_part (src : Doc) (totalPages : Z) (range : string) : outcome js_error Doc :=
    let newPdf := pdf_create in
    match parse_range range with
    | Interval start end_ =>
        interval_loop (loop_fuel start totalPages) src totalPages start end_ newPdf
    | Single pageNum =>
        if num_lt pageNum (JNum totalPages) then
          let? copiedPage := copy_page_num src pageNum in
          Ok (pdf_add_page newPdf copiedPage)
        else Ok newPdf
    end.
End Loops.

(** The page indices the code copies for a parsed token, in order. *)
Definition range_indices (totalPages : Z) (r : range_spec) : list Z :=
  match r with
  | Interval (JNum s) (JNum e) => zseq s (Z.to_nat (Z.min e (totalPages - 1) - s + 1))
  | Interval _ _ => []
  | Single (JNum n) => if (n <? totalPages)%Z then [n] else []
  | Single JNaN => []
  end.

(** ** The loops against the reference indices *)

Section LoopLemmas.
  Context {Bytes Doc Page : Type} `{!PdfLib Bytes Doc Page, !PdfLibLaws Bytes Doc Page}.

Lemma copyPages_cons (src : Doc) i rest :
    copyPages src (i :: rest) =
      let? p := copy_page src i in let? ps := copyPages src rest in Ok (p :: ps).
  Proof. done. Qed.

Lemma add_pages_cons (d : Doc) p ps : add_pages d (p :: ps) = add_pages (pdf_add_page d p) ps.
  Proof. done. Qed.

  (** With enough fuel, the interval loop copies exactly the pages of
      [zseq s n], [n] the number of [p] with [s <= p <= e] and [p < T]. *)
Lemma interval_loop_spec fuel (src : Doc) T s e acc :
    (Z.to_nat (T - s) <= fuel)%nat ->
    interval_loop fuel src T (JNum s) (JNum e) acc =
      let? ps := copyPages src (zseq s (Z.to_nat (Z.min e (T - 1) - s + 1))) in
      Ok (add_pages acc ps).
  Proof.
    revert s acc. induction fuel as [|fuel IH]; intros s acc Hfuel.
    - replace (Z.to_nat (Z.min e (T - 1) - s + 1)) with O by lia. done.
    - simpl. destruct (Z.leb_spec s e), (Z.ltb_spec s T); simpl;
        [|replace (Z.to_nat (Z.min e (T - 1) - s + 1)) with O by lia; done..].
      replace (Z.to_nat (Z.min e (T - 1) - s + 1))
        with (S (Z.to_nat (Z.min e (T - 1) - (s + 1) + 1))) by lia.
      rewrite zseq_S, copyPages_cons.
      destruct (copy_page src s) as [p|err]; simpl; [|done].
      rewrite IH by lia. by destruct (copyPages src _).
  Qed.

Lemma interval_loop_nan_start fuel (src : Doc) T e acc :
    interval_loop fuel src T JNaN e acc = Ok acc.
  Proof. by destruct fuel. Qed.

Lemma interval_loop_nan_end fuel (src : Doc) T p acc :
    interval_loop fuel src T p JNaN acc = Ok acc.
  Proof. destruct fuel; [done|]. by destruct p. Qed.
End LoopLemmas.

(** [C35] Termination of the interval loop: the loop
    [for (p = start; p <= end && p < totalPages; p++)] stops by its own
    condition within [loop_fuel start totalPages] iterations, so running
    it with any more fuel gives the same document or the same exception. *)
Theorem interval_loop_terminates {Bytes Doc Page : Type}
  `{!PdfLib Bytes Doc Page, !PdfLibLaws Bytes Doc Page}
  fuel (src : Doc) T start end_ acc :
  (loop_fuel start T <= fuel)%nat ->
  interval_loop fuel src T start end_ acc = interval_loop (loop_fuel start T) src T start end_ acc.
Proof.
  intros Hfuel. destruct start as [s|]; [|by rewrite !interval_loop_nan_start].
  destruct end_ as [e|]; [|by rewrite !interval_loop_nan_end].
  simpl in Hfuel. rewrite !interval_loop_spec by (simpl; lia). done.
Qed.

(** The proof of the property below, shared with the lemmas that use it. *)
Lemma range_part_copies {Bytes Doc Page : Type}
  `{!PdfLib Bytes Doc Page, !PdfLibLaws Bytes Doc Page}
  (src : Doc) T range :
  range_part src T range =
    let? ps := copyPages src (range_indices T (parse_range range)) in
    Ok (add_pages pdf_create ps).
Proof.
  unfold range_part. destruct (parse_range range) as [[s|] [e|]|[n|]]; simpl.
  - rewrite interval_loop_spec by lia. done.
  - by rewrite interval_loop_nan_end.
  - done.
  - done.
  - destruct (n <? T)%Z; simpl; [|done]. by destruct (copy_page src n).
  - done.
Qed.

(** [C2] The document the code builds for one token is exactly the new
    document with the pages at [range_indices] copied in order, and it
    throws exactly when copying one of those indices throws. *)
Theorem range_part_indices {Bytes Doc Page : Type}
  `{!PdfLib Bytes Doc Page, !PdfLibLaws Bytes Doc Page}
  (src : Doc) T range :
  range_part src T range =
    let? ps := copyPages src (range_indices T (parse_range range)) in
    Ok (add_pages pdf_create ps).
Proof. intros. apply range_part_copies. Qed.

(** The indices of a token whose first index is a page of the document
    are a run of consecutive pages inside the document. *)
Lemma range_indices_zseq T r :
  exists s n, range_indices T r = zseq s n /\ (n = O \/ (s + Z.of_nat n <= T)%Z).
Proof.
  destruct r as [[s|] [e|]|[n|]]; cbn [range_indices].
  - exists s, (Z.to_nat (Z.min e (T - 1) - s + 1)). split; [done|].
    destruct (decide (Z.min e (T - 1) - s + 1 <= 0)%Z); [left | right]; lia.
  - exists 0%Z, O; split; [done | by left].
  - exists 0%Z, O; split; [done | by left].
  - exists 0%Z, O; split; [done | by left].
  - destruct (Z.ltb_spec n T).
    + exists n, 1%nat. split; [unfold zseq; simpl; by rewrite Z.add_0_r|]. right; lia.
    + exists 0%Z, O; split; [done | by left].
  - exists 0%Z, O; split; [done | by left].
Qed.

Section TokenLemmas.
  Context {Bytes Doc Page : Type} `{!PdfLib Bytes Doc Page, !PdfLibLaws Bytes Doc Page}.

  (** The pages at a list of indices, [undefined] ones dropped. *)
Fixpoint pages_at (src : Doc) (idx : list Z) : list Page :=
    match idx with
    | [] => []
    | i :: idx' =>
        match js_index (pdf_pages src) i with
        | Some p => p :: pages_at src idx'
        | None => pages_at src idx'
        end
    end.

Lemma js_index_nonneg {A} (l : list A) (i : Z) :
    (0 <= i)%Z -> js_index l i = l !! Z.to_nat i.
  Proof. intros Hi. unfold js_index. by destruct (Z.ltb_spec i 0); [lia|]. Qed.

Lemma copyPages_in_range (src : Doc) idx :
    Forall (fun i => 0 <= i < getPageCount src)%Z idx ->
    copyPages src idx = Ok (pages_at src idx).
  Proof.
    induction idx as [|i idx IH]; intros Hidx; [done|]. inversion Hidx as [|? ? Hi Hrest]; subst.
    destruct (copy_page_ok src i Hi) as (p & Hp & Hc).
    rewrite copyPages_cons, Hc, IH by done. cbn [o_bind pages_at].
    by rewrite js_index_nonneg, Hp by lia.
  Qed.

Lemma range_indices_lt T r : Forall (fun i => i < T)%Z (range_indices T r).
  Proof.
    apply Forall_forall. intros i Hi.
    destruct r as [[s|] [e|]|[n|]]; cbn [range_indices] in Hi;
      try by apply elem_of_nil in Hi.
    - apply elem_of_zseq in Hi. lia.
    - destruct (Z.ltb_spec n T); [apply list_elem_of_singleton in Hi; lia|].
      by apply elem_of_nil in Hi.
  Qed.

Lemma range_part_ok_gen (src : Doc) range :
    Forall (fun i => 0 <= i)%Z (range_indices (getPageCount src) (parse_range range)) ->
    exists d, range_part src (getPageCount src) range = Ok d /\
      pdf_pages d = pages_at src (range_indices (getPageCount src) (parse_range range)).
  Proof.
    intros Hnn. rewrite range_part_copies, copyPages_in_range.
    - simpl. eexists; split; [done|]. by rewrite add_pages_pages, pdf_pages_create.
    - pose proof (range_indices_lt (getPageCount src) (parse_range range)) as Hlt.
      rewrite Forall_forall in Hnn, Hlt |- *. intros i Hi. split; auto.
  Qed.

Lemma pages_at_zseq (src : Doc) s n :
    (0 <= s)%Z -> pages_at src (zseq s n) = take n (drop (Z.to_nat s) (pdf_pages src)).
  Proof.
    revert s. induction n as [|n IH]; intros s Hs; [done|].
    rewrite zseq_S. cbn [pages_at]. rewrite js_index_nonneg, IH by lia.
    destruct (pdf_pages src !! Z.to_nat s) as [p|] eqn:Hp.
    - rewrite (drop_S _ _ _ Hp). by replace (Z.to_nat (s + 1)) with (S (Z.to_nat s)) by lia.
    - apply lookup_ge_None in Hp. rewrite !drop_ge by lia. by rewrite !take_nil.
  Qed.
End TokenLemmas.

Section TokenTheorems.
  Context {Bytes Doc Page : Type} `{!PdfLib Bytes Doc Page, !PdfLibLaws Bytes Doc Page}.

(** [C4] A token naming one page [n] with [1 <= n <= totalPages] gives a
      document holding exactly page [n] (index [n - 1]). *)
Theorem range_single_in_range (src : Doc) range n :
    parse_range range = Single (JNum (n - 1)) -> (1 <= n <= getPageCount src)%Z ->
    exists d p, range_part src (getPageCount src) range = Ok d /\
      pdf_pages src !! Z.to_nat (n - 1) = Some p /\ pdf_pages d = [p].
  Proof.
    intros Hparse Hn.
    destruct (range_part_ok_gen src range) as (d & Hd & Hpages).
    { rewrite Hparse. cbn [range_indices]. destruct (Z.ltb_spec (n - 1) (getPageCount src)); repeat constructor; lia. }
    destruct (copy_page_ok src (n - 1)) as (p & Hp & _); [lia|].
    exists d, p. split_and!; [done | done |]. rewrite Hpages, Hparse. cbn [range_indices].
    destruct (Z.ltb_spec (n - 1) (getPageCount src)); [|lia]. simpl.
    by rewrite js_index_nonneg, Hp by lia.
  Qed.

  (** The proof of the property below, shared with the lemmas that use it. *)
Lemma range_interval_slice (src : Doc) range a b :
    parse_range range = Interval (JNum (a - 1)) (JNum (b - 1)) -> (1 <= a)%Z ->
    exists d, range_part src (getPageCount src) range = Ok d /\
      pdf_pages d = take (Z.to_nat (Z.min b (getPageCount src) - a + 1))
                         (drop (Z.to_nat (a - 1)) (pdf_pages src)).
  Proof.
    intros Hparse Ha.
    destruct (range_part_ok_gen src range) as (d & Hd & Hpages).
    { rewrite Hparse. cbn [range_indices]. apply Forall_forall. intros i Hi%elem_of_zseq. lia. }
    exists d. split; [done|]. rewrite Hpages, Hparse. cbn [range_indices].
    rewrite pages_at_zseq by lia. do 2 f_equal. lia.
  Qed.

(** [C3] An interval token ["a-b"] with [1 <= a] gives the pages
      [a .. min(b, totalPages)], in order: empty when [a > b] or when
      [a > totalPages], clamped at the last page otherwise. *)
Theorem range_interval_pages (src : Doc) range a b :
    parse_range range = Interval (JNum (a - 1)) (JNum (b - 1)) -> (1 <= a)%Z ->
    exists d, range_part src (getPageCount src) range = Ok d /\
      pdf_pages d = take (Z.to_nat (Z.min b (getPageCount src) - a + 1))
                         (drop (Z.to_nat (a - 1)) (pdf_pages src)).
  Proof. intros. by apply range_interval_slice. Qed.

(** A single-page token past the last page, or with no number at
      all, gives an empty document (no error). *)
Theorem range_single_past_end (src : Doc) range pageNum :
    parse_range range = Single pageNum -> num_lt pageNum (JNum (getPageCount src)) = false ->
    exists d, range_part src (getPageCount src) range = Ok d /\ pdf_pages d = [].
  Proof.
    intros Hparse Hlt. unfold range_part. rewrite Hparse, Hlt.
    exists pdf_create. split; [done|]. apply pdf_pages_create.
  Qed.

(** [C26] A token whose first page is below 1 — the single page ["0"]
      (a token with a [-] is an interval, so ["-3"] is the interval
      from [NaN] and gives an empty part), or an interval such as
      ["0-3"] that is not reversed — makes [copyPages] read index [-1],
      which throws a [TypeError]: the whole request fails instead of
      giving an empty part. *)
Theorem range_below_first_page (src : Doc) range :
    (exists k, parse_range range = Single (JNum k) /\ (k < 0)%Z) \/
    (exists s e, parse_range range = Interval (JNum s) (JNum e) /\ (s < 0)%Z /\ (s <= e)%Z) ->
    exists m, range_part src (getPageCount src) range = Throw (TypeError m).
  Proof.
    assert (0 <= getPageCount src)%Z by (unfold getPageCount; lia).
    intros [(k & Hparse & Hk) | (s & e & Hparse & Hs & Hse)];
      rewrite range_part_copies, Hparse; cbn [range_indices].
    - destruct (Z.ltb_spec k (getPageCount src)); [|lia].
      destruct (copy_page_negative src k Hk) as [m Hm].
      exists m. by rewrite copyPages_cons, Hm.
    - replace (Z.to_nat (Z.min e (getPageCount src - 1) - s + 1))
        with (S (Z.to_nat (Z.min e (getPageCount src - 1) - (s + 1) + 1))) by lia.
      destruct (copy_page_negative src s Hs) as [m Hm].
      exists m. by rewrite zseq_S, copyPages_cons, Hm.
  Qed.
End TokenTheorems.

(** ** Tokens written as decimal numbers *)

Lemma num_to_string_no_sep sep n :
  is_dec_digit sep = false -> includes_char sep (num_to_string n) = false.
Proof. intros Hsep. apply digits_no_sep; [done | apply num_to_string_digits]. Qed.

(** The proof of the property below, shared with the lemmas that use it. *)
Lemma parse_range_printed_eq (a b : N) :
  parse_range (num_to_string a) = Single (JNum (Z.of_N a - 1)) /\
  parse_range (num_to_string a +:+ "-" +:+ num_to_string b) =
    Interval (JNum (Z.of_N a - 1)) (JNum (Z.of_N b - 1)).
Proof.
  split; unfold parse_range.
  - by rewrite num_to_string_no_sep, parseInt_pretty.
  - rewrite includes_char_app. simpl.
    change ("-" +:+ num_to_string b) with (String "-"%char (num_to_string b)).
    rewrite orb_true_r, (split_char_app_sep _ _ _ (num_to_string_no_sep "-"%char _ eq_refl)).
    rewrite split_char_no_sep by (apply num_to_string_no_sep; done). simpl.
    by rewrite !trim_no_space, !parseInt_pretty by apply num_to_string_digits.
Qed.

(** A token ["n"] printed in decimal parses as the single page
    index [n - 1], and a token ["a-b"] as the interval [a - 1 .. b - 1]. *)
Theorem parse_range_printed (a b : N) :
  parse_range (num_to_string a) = Single (JNum (Z.of_N a - 1)) /\
  parse_range (num_to_string a +:+ "-" +:+ num_to_string b) =
    Interval (JNum (Z.of_N a - 1)) (JNum (Z.of_N b - 1)).
Proof. apply parse_range_printed_eq. Qed.

(** ** Witnesses: the theorems at concrete documents of the list model *)

Import ListModel.

Definition doc10 : list nat := seq 1 10.

Lemma interval_loop_terminates_witness :
  (loop_fuel (JNum 6) 10 <= 7)%nat /\
  interval_loop (Bytes:=blob nat) 7 doc10 10 (JNum 6) (JNum 11) [] =
  interval_loop (Bytes:=blob nat) (loop_fuel (JNum 6) 10) doc10 10 (JNum 6) (JNum 11) [].
Proof. split; [simpl; lia | apply interval_loop_terminates; simpl; lia]. Defined.

Lemma range_single_in_range_witness :
  parse_range "5" = Single (JNum (5 - 1)) /\ (1 <= 5 <= getPageCount (Bytes:=blob nat) doc10)%Z /\
  exists d p, range_part (Bytes:=blob nat) doc10 (getPageCount (Bytes:=blob nat) doc10) "5" = Ok d /\
    pdf_pages (Bytes:=blob nat) doc10 !! Z.to_nat (5 - 1) = Some p /\ pdf_pages (Bytes:=blob nat) d = [p].
Proof.
  split; [reflexivity|]. split; [vm_compute; split; discriminate|].
  apply range_single_in_range; [reflexivity | vm_compute; split; discriminate].
Defined.

Lemma range_interval_pages_witness :
  parse_range "9-12" = Interval (JNum (9 - 1)) (JNum (12 - 1)) /\ (1 <= 9)%Z /\
  exists d, range_part (Bytes:=blob nat) doc10 (getPageCount (Bytes:=blob nat) doc10) "9-12" = Ok d /\
    pdf_pages (Bytes:=blob nat) d =
      take (Z.to_nat (Z.min 12 (getPageCount (Bytes:=blob nat) doc10) - 9 + 1))
           (drop (Z.to_nat (9 - 1)) (pdf_pages (Bytes:=blob nat) doc10)).
Proof.
  split; [reflexivity|]. split; [lia|].
  apply range_interval_pages; [reflexivity | lia].
Defined.

Lemma range_single_past_end_witness :
  parse_range "11" = Single (JNum 10) /\
  num_lt (JNum 10) (JNum (getPageCount (Bytes:=blob nat) doc10)) = false /\
  exists d, range_part (Bytes:=blob nat) doc10 (getPageCount (Bytes:=blob nat) doc10) "11" = Ok d /\
    pdf_pages (Bytes:=blob nat) d = [].
Proof.
  split; [reflexivity|]. split; [reflexivity|].
  apply (range_single_past_end doc10 "11" (JNum 10)); reflexivity.
Defined.

Lemma range_below_first_page_witness :
  parse_range "0-3" = Interval (JNum (-1)) (JNum 2) /\
  exists m, range_part (Bytes:=blob nat) doc10 (getPageCount (Bytes:=blob nat) doc10) "0-3" = Throw (TypeError m).
Proof.
  split; [reflexivity|]. apply range_below_first_page. right.
  exists (-1)%Z, 2%Z. split; [reflexivity | lia].
Defined.

Lemma range_part_indices_witness :
  range_indices 10 (parse_range "3-5") = [2; 3; 4]%Z /\
  range_part (Bytes:=blob nat) doc10 10 "3-5" =
    (let? ps := copyPages (Bytes:=blob nat) doc10 (range_indices 10 (parse_range "3-5")) in
     Ok (add_pages (Bytes:=blob nat) pdf_create ps)).
Proof. split; [vm_compute; reflexivity | apply range_part_indices]. Defined.
