(* ===== verification/Split.v ===== *)
(** * The [/api/split] handler (lines 195-287 of [src/server.js])

    [split_handler] follows the handler line by line: the missing-file
    guard, [readFile] and [PDFDocument.load] of the upload, the two
    modes, the [unlink] of the upload, and the zip of the parts; every
    exception ends in the [catch] block and a 500 response.
    - In both modes the code builds one part, saves it under
      [downloads/split-part<i+1>-<now>.pdf] and pushes its name, then
      goes on with the next one; [save_parts] is that loop, given the
      parts as pure computations that may throw ([range_part] for
      [splitOption = 'pages'], [size_part] for [splitOption = 'size']),
      so a part that throws stops the loop after the earlier parts were
      written.
    - [size_part] is the inner loop of the size mode,
      [for (p = startPage; p < endPage; p++)], which runs
      [endPage - startPage] times.
    - [write_zip] is the archiver block (lines 264-274): every part file
      is read back and packed under its name into
      [downloads/split-files-<now>.zip]. *)

From S2P Require Import Prelude Js PdfLib Store RangeParser.

(** The form fields of the request ([req.body]); a missing field is [None]. *)
Record split_body := mkSplitBody {
  splitOption : option string;
  pageRanges : option string;
  numParts : option string
}.

(** [`split-part${i + 1}-${Date.now()}.pdf`] *)
Definition part_name (i : nat) (now : N) : string :=
  "split-part" +:+ num_to_string (N.of_nat (S i)) +:+ "-" +:+ num_to_string now +:+ ".pdf".

(** [`split-files-${Date.now()}.zip`] *)
Definition zip_name (now : N) : string := "split-files-" +:+ num_to_string now +:+ ".zip".

(** [Math.ceil(totalPages / parts)] for [parts > 0]. *)
Definition pages_per_part (totalPages parts : Z) : Z := ((totalPages + parts - 1) / parts)%Z.

Section Handler.
  Context {Bytes Doc Page : Type} `{!PdfLib Bytes Doc Page, !Archiver Bytes}.

  (** Lines 244-252: part [i] of the size mode,
      [startPage = i * pagesPerPart], [endPage = Math.min(startPage +
      pagesPerPart, totalPages)], pages [startPage .. endPage - 1]. *)
Fixpoint copy_run (n : nat) (src : Doc) (p : Z) (newPdf : Doc) : outcome js_error Doc :=
    match n with
    | O => Ok newPdf
    | S n' =>
        let? copiedPage := copy_page src p in
        copy_run n' src (p + 1) (pdf_add_page newPdf copiedPage)
    end.

Definition size_part (src : Doc) (totalPages pagesPerPart : Z) (i : nat) : outcome js_error Doc :=
    let startPage := (Z.of_nat i * pagesPerPart)%Z in
    let endPage := Z.min (startPage + pagesPerPart) totalPages in
    copy_run (Z.to_nat (endPage - startPage)) src startPage pdf_create.

  (** Lines 232-236 (and 253-257): name, save and write one part. *)
Definition save_part (i : nat) (newPdf : Doc) : M Bytes string :=
    let! now := date_now in
    let filename := part_name i now in
    do! writeFile "downloads" filename (pdf_save newPdf) in
    st_ret filename.

  (** The part loops of both modes: build part [i], save it, push its
      name, go on. *)
Fixpoint save_parts (i : nat) (parts : list (outcome js_error Doc)) : M Bytes (list string) :=
    match parts with
    | [] => st_ret []
    | part :: rest =>
        let! newPdf := st_lift part in
        let! filename := save_part i newPdf in
        let! outputFiles := save_parts (S i) rest in
        st_ret (filename :: outputFiles)
    end.

  (** Lines 239-243: [const parts = parseInt(numParts)]; the loop
      [for (let i = 0; i < parts; i++)] runs [parts] times, none when
      [parts] is [NaN] or not positive. *)
Definition size_parts (src : Doc) (totalPages : Z) (numParts : string) : list (outcome js_error Doc) :=
    match parseInt numParts with
    | JNum parts =>
        map (size_part src totalPages (pages_per_part totalPages parts)) (seq 0 (Z.to_nat parts))
    | JNaN => []
    end.

  (** Lines 264-274: read every part back and pack it in the zip. *)
Fixpoint read_parts (names : list string) : M Bytes (list (string * Bytes)) :=
    match names with
    | [] => st_ret []
    | n :: rest =>
        let! b := readFile "downloads" n in
        let! entries := read_parts rest in
        st_ret ((n, b) :: entries)
    end.

Definition write_zip (zipFilename : string) (outputFiles : list string) : M Bytes unit :=
    let! entries := read_parts outputFiles in
    writeFile "downloads" zipFilename (zip_pack entries).

  (** Lines 208-259: the part files of the chosen mode, none when
      neither mode is selected with its parameter. *)
Definition split_outputs (body : split_body) (pdfDoc : Doc) : M Bytes (list string) :=
    let totalPages := getPageCount pdfDoc in
    if field_is (splitOption body) "pages" && truthy (pageRanges body) then
      save_parts 0 (map (range_part pdfDoc totalPages) (range_tokens (default "" (pageRanges body))))
    else if field_is (splitOption body) "size" && truthy (numParts body) then
      save_parts 0 (size_parts pdfDoc totalPages (default "" (numParts body)))
    else st_ret [].

  (** Lines 261-280: remove the upload, zip the parts, answer. *)
Definition finish_split (f : uploaded) (outputFiles : list string) : M Bytes response :=
    do! unlink (up_dir f) (up_name f) in
    let! now := date_now in
    let zipFilename := zip_name now in
    do! write_zip zipFilename outputFiles in
    st_ret (success zipFilename
              ("Split into " +:+ num_to_string (N.of_nat (length outputFiles)) +:+ " files")).

  (** The handler, lines 195-287. *)
Definition split_handler (body : split_body) (file : option uploaded) : M Bytes response :=
    catch_500 (
      match file with
      | None => st_ret (failure 400 "No file uploaded")
      | Some f =>
          let! pdfBytes := readFile (up_dir f) (up_name f) in
          let! pdfDoc := st_lift (load_doc pdfBytes) in
          let! outputFiles := split_outputs body pdfDoc in
          finish_split f outputFiles
      end).
End Handler.

(** ** Names of the part files *)

Lemma part_name_inj i j now : part_name i now = part_name j now -> i = j.
Proof.
  unfold part_name. intros H. apply (append_inv_l "split-part") in H.
  apply (append_sep_inj "-"%char) in H; [|by apply num_to_string_no_sep..].
  apply (inj pretty) in H. lia.
Qed.

(** [part_names i now n]: the names the part loop pushes, from part [i]. *)
Definition part_names (i : nat) (now : N) (n : nat) : list string :=
  map (fun k => part_name k now) (seq i n).

Section SaveParts.
  Context {Bytes Doc Page : Type} `{!PdfLib Bytes Doc Page, !Archiver Bytes}.

  (** The files map after the part loop wrote [docs] from part [i]. *)
Fixpoint write_parts (i : nat) (now : N) (docs : list Doc)
           (fs : gmap (string * string) (file Bytes)) : gmap (string * string) (file Bytes) :=
    match docs with
    | [] => fs
    | d :: ds => write_parts (S i) now ds (<[("downloads", part_name i now) := mkFile (pdf_save d) now]> fs)
    end.

Lemma save_parts_ok i (docs : list Doc) (w : world Bytes) :
    "downloads" ∈ dirs w ->
    save_parts i (map Ok docs) w =
      (Ok (part_names i (clock w) (length docs)), with_files w (write_parts i (clock w) docs (files w))).
  Proof.
    revert i w. induction docs as [|d docs IH]; intros i w Hdir.
    - simpl. by rewrite with_files_id.
    - cbn [save_parts map]. unfold save_part, st_bind, st_lift, st_ret. fold (@st_ret (world Bytes) js_error).
      rewrite date_now_run, writeFile_ok by done.
      rewrite IH by done. by autorewrite with pdfrw.
  Qed.

Lemma write_parts_other i now docs fs key :
    (forall k, i <= k -> k < i + length docs -> key <> ("downloads", part_name k now)) ->
    write_parts i now docs fs !! key = fs !! key.
  Proof.
    revert i fs. induction docs as [|d docs IH]; intros i fs Hkey; [done|]. simpl.
    rewrite IH by (intros k ? ?; apply Hkey; simpl; lia).
    rewrite lookup_insert_ne; [done|]. intros Heq. by apply (Hkey i); [lia | simpl; lia |].
  Qed.

Lemma write_parts_lookup i now docs fs k d :
    docs !! k = Some d ->
    write_parts i now docs fs !! ("downloads", part_name (i + k) now) = Some (mkFile (pdf_save d) now).
  Proof.
    revert i k fs. induction docs as [|d' docs IH]; intros i k fs Hk; [done|].
    destruct k as [|k]; simpl in *.
    - injection Hk as ->. rewrite write_parts_other.
      + rewrite Nat.add_0_r. apply lookup_insert_eq.
      + intros k ? ? Heq. assert (part_name (i + 0) now = part_name k now) as Hpn by congruence.
        apply part_name_inj in Hpn. lia.
    - rewrite <- Nat.add_succ_comm. by apply IH.
  Qed.

  (** Reading back files that are all present. *)
Lemma read_parts_ok names (bs : list Bytes) (w : world Bytes) :
    Forall2 (fun n b => exists t, files w !! ("downloads", n) = Some (mkFile b t)) names bs ->
    read_parts names w = (Ok (zip names bs), w).
  Proof.
    induction 1 as [|n b names bs [t Hn] _ IH]; [done|].
    cbn [read_parts]. unfold st_bind, st_ret. rewrite (readFile_ok _ _ _ _ Hn), IH. done.
  Qed.

Lemma write_parts_present i now docs fs :
    Forall2 (fun n b => exists t, write_parts i now docs fs !! ("downloads", n) = Some (mkFile b t))
      (part_names i now (length docs)) (map pdf_save docs).
  Proof.
    apply Forall2_lookup. intros k. unfold part_names.
    rewrite list_lookup_fmap, list_lookup_fmap.
    destruct (docs !! k) as [d|] eqn:Hk.
    - rewrite lookup_seq_lt by (by apply lookup_lt_Some in Hk). constructor.
      exists now. by apply write_parts_lookup.
    - rewrite lookup_seq_ge by (by apply lookup_ge_None in Hk). constructor.
  Qed.
End SaveParts.

(** ** Running the handler *)

Section HandlerLemmas.
  Context {Bytes Doc Page : Type} `{!PdfLib Bytes Doc Page, !PdfLibLaws Bytes Doc Page,
           !Archiver Bytes}.

Lemma map_outcomes_ok {A} (f : A -> outcome js_error Doc) xs docs :
    Forall2 (fun x d => f x = Ok d) xs docs -> map f xs = map Ok docs.
  Proof. induction 1; simpl; congruence. Qed.

  (** Once the upload is read and parses, the handler is the mode's part
      loop followed by [finish_split], inside the catch block. *)
Lemma split_handler_loaded body f uf (src : Doc) (w : world Bytes) :
    files w !! (up_dir f, up_name f) = Some uf -> load_doc (contents uf) = Ok src ->
    split_handler body (Some f) w =
      catch_500 (let! outs := split_outputs body src in finish_split f outs) w.
  Proof.
    intros Hf Hload. unfold split_handler, catch_500, st_catch, st_bind at 1 2, st_lift.
    rewrite (readFile_ok _ _ _ _ Hf). simpl. by rewrite Hload.
  Qed.

Lemma finish_split_ok f uf names (bs : list Bytes) (w : world Bytes) :
    files w !! (up_dir f, up_name f) = Some uf -> up_dir f <> "downloads" ->
    "downloads" ∈ dirs w ->
    Forall2 (fun n b => exists t, files w !! ("downloads", n) = Some (mkFile b t)) names bs ->
    finish_split f names w =
      (Ok (success (zip_name (clock w))
             ("Split into " +:+ num_to_string (N.of_nat (length names)) +:+ " files")),
       with_files w (<[("downloads", zip_name (clock w)) := mkFile (zip_pack (zip names bs)) (clock w)]>
                       (delete (up_dir f, up_name f) (files w)))).
  Proof.
    intros Hf Hdir Hdl Hparts. unfold finish_split, write_zip, st_bind, st_ret.
    rewrite (unlink_ok _ _ _ _ Hf), date_now_run.
    rewrite (read_parts_ok names bs).
    - rewrite writeFile_ok by done. by autorewrite with pdfrw.
    - eapply Forall2_impl; [exact Hparts|]. intros n b [t Ht]. exists t.
      simpl. rewrite lookup_delete_ne; [done|]. intros Heq. by injection Heq.
  Qed.
End HandlerLemmas.

(** ** The size mode *)

Lemma take_min_length {A} (l : list A) a : take (Nat.min a (length l)) l = take a l.
Proof.
  destruct (Nat.le_ge_cases a (length l)).
  - by rewrite Nat.min_l.
  - rewrite Nat.min_r by done. rewrite !take_ge by lia. done.
Qed.

(** The parts of a size split, laid end to end, are the first
    [n * k] pages. *)
Lemma concat_chunks {A} (l : list A) k n :
  concat (map (fun i => take k (drop (i * k) l)) (seq 0 n)) = take (n * k) l.
Proof.
  induction n as [|n IH]; [done|].
  rewrite seq_S, map_app, concat_app, IH. simpl. rewrite app_nil_r.
  rewrite take_take_drop. f_equal. lia.
Qed.

Section SizeLemmas.
  Context {Bytes Doc Page : Type} `{!PdfLib Bytes Doc Page, !PdfLibLaws Bytes Doc Page}.

Lemma copy_run_spec n (src : Doc) p acc :
    copy_run n src p acc = let? ps := copyPages src (zseq p n) in Ok (add_pages acc ps).
  Proof.
    revert p acc. induction n as [|n IH]; intros p acc; [done|].
    rewrite zseq_S. cbn [copy_run]. rewrite copyPages_cons.
    destruct (copy_page src p) as [pg|e]; [|done]. cbn [o_bind]. rewrite IH.
    by destruct (copyPages src _).
  Qed.

  (** Part [i] of a size split holds the pages
      [i * pagesPerPart .. (i + 1) * pagesPerPart - 1] that exist. *)
Lemma size_part_ok (src : Doc) ppp i :
    (0 <= ppp)%Z ->
    exists d, size_part src (getPageCount src) ppp i = Ok d /\
      pdf_pages d = take (Z.to_nat ppp) (drop (i * Z.to_nat ppp) (pdf_pages src)).
  Proof.
    intros Hppp. unfold size_part. rewrite copy_run_spec.
    assert (Z.to_nat (Z.of_nat i * ppp) = i * Z.to_nat ppp) as Hs
      by (rewrite Z2Nat.inj_mul, Nat2Z.id by lia; done).
    destruct (Z.le_gt_cases (getPageCount src) (Z.of_nat i * ppp)) as [Hge|Hlt].
    - replace (Z.to_nat (Z.min (Z.of_nat i * ppp + ppp) (getPageCount src) - Z.of_nat i * ppp))
        with O by lia.
      eexists; split; [done|]. rewrite add_pages_pages, pdf_pages_create.
      rewrite drop_ge; [by rewrite take_nil|]. unfold getPageCount in Hge. lia.
    - rewrite copyPages_zseq by lia. eexists; split; [done|].
      rewrite add_pages_pages, pdf_pages_create. simpl. rewrite Hs.
      rewrite <- (take_min_length (drop _ _) (Z.to_nat ppp)), length_drop.
      f_equal. unfold getPageCount in *. lia.
  Qed.
End SizeLemmas.

(** The common end of both modes: once the part loop wrote [docs], the
    handler removes the upload and writes the zip of the parts. *)
Lemma split_handler_parts {Bytes Doc Page : Type}
  `{!PdfLib Bytes Doc Page, !PdfLibLaws Bytes Doc Page, !Archiver Bytes}
  body f uf (src : Doc) (docs : list Doc) (w : world Bytes) :
  files w !! (up_dir f, up_name f) = Some uf -> up_dir f <> "downloads" ->
  load_doc (contents uf) = Ok src -> "downloads" ∈ dirs w ->
  split_outputs body src w =
    (Ok (part_names 0 (clock w) (length docs)), with_files w (write_parts 0 (clock w) docs (files w))) ->
  split_handler body (Some f) w =
    (Ok (success (zip_name (clock w))
           ("Split into " +:+ num_to_string (N.of_nat (length docs)) +:+ " files")),
     with_files w
       (<[("downloads", zip_name (clock w)) :=
            mkFile (zip_pack (zip (part_names 0 (clock w) (length docs)) (map pdf_save docs))) (clock w)]>
        (delete (up_dir f, up_name f) (write_parts 0 (clock w) docs (files w))))).
Proof.
  intros Hf Hdir Hload Hdl Hout.
  rewrite (split_handler_loaded _ _ _ _ _ Hf Hload). apply catch_500_ok.
  unfold st_bind at 1. rewrite Hout.
  rewrite (finish_split_ok _ uf _ (map pdf_save docs)); autorewrite with pdfrw; try done.
  - unfold part_names. by rewrite length_map, length_seq.
  - rewrite write_parts_other; [done|]. intros k _ _ Heq. by injection Heq.
  - apply write_parts_present.
Qed.

(** [C1] Split by ranges, end to end: when the upload is a PDF, the
    [downloads] directory exists and no token throws, the handler writes
    one part per comma-separated token, [split-part<k>-<now>.pdf] holding
    the document of token [k], removes the upload, writes the zip of all
    parts in token order, and answers with the zip's name and the number
    of tokens; this is the whole final file system. *)
Theorem split_pages_ok {Bytes Doc Page : Type}
  `{!PdfLib Bytes Doc Page, !PdfLibLaws Bytes Doc Page, !Archiver Bytes}
  body f uf pr (src : Doc) (docs : list Doc) (w : world Bytes) :
  field_is (splitOption body) "pages" = true -> pageRanges body = Some pr -> pr <> "" ->
  files w !! (up_dir f, up_name f) = Some uf -> up_dir f <> "downloads" ->
  load_doc (contents uf) = Ok src -> "downloads" ∈ dirs w ->
  Forall2 (fun r d => range_part src (getPageCount src) r = Ok d) (range_tokens pr) docs ->
  split_handler body (Some f) w =
    (Ok (success (zip_name (clock w))
           ("Split into " +:+ num_to_string (N.of_nat (length (range_tokens pr))) +:+ " files")),
     with_files w
       (<[("downloads", zip_name (clock w)) :=
            mkFile (zip_pack (zip (part_names 0 (clock w) (length docs)) (map pdf_save docs))) (clock w)]>
        (delete (up_dir f, up_name f) (write_parts 0 (clock w) docs (files w))))).
Proof.
  intros Hopt Hpr Hne Hf Hdir Hload Hdl Hdocs.
  rewrite (Forall2_length _ _ _ Hdocs). apply (split_handler_parts _ _ uf src); try done.
  unfold split_outputs. rewrite Hopt, Hpr. simpl. destruct (String.eqb_spec pr ""); [done|].
  rewrite (map_outcomes_ok _ _ _ Hdocs). by apply save_parts_ok.
Qed.


Lemma pages_per_part_bounds T P :
  (0 <= T)%Z -> (1 <= P)%Z -> (0 <= pages_per_part T P /\ T <= P * pages_per_part T P)%Z.
Proof.
  intros HT HP. unfold pages_per_part.
  pose proof (Z.div_mod (T + P - 1) P ltac:(lia)).
  pose proof (Z.mod_pos_bound (T + P - 1) P ltac:(lia)).
  split; [apply Z.div_pos; lia | lia].
Qed.

Lemma map_ok_exists {A Doc : Type} (f : A -> outcome js_error Doc) (R : A -> Doc -> Prop) xs :
  (forall x, exists d, f x = Ok d /\ R x d) ->
  exists docs, map f xs = map Ok docs /\ Forall2 R xs docs.
Proof.
  intros Hf. induction xs as [|x xs IH]; [by exists []|].
  destruct (Hf x) as (d & Hd & HR), IH as (docs & Hdocs & Hall).
  exists (d :: docs). simpl. rewrite Hd, Hdocs. split; [done | by constructor].
Qed.

Section SizeMode.
  Context {Bytes Doc Page : Type} `{!PdfLib Bytes Doc Page, !PdfLibLaws Bytes Doc Page}.

  (** The parts of a size split with [P >= 1] parts: part [i] holds the
      [i]-th chunk of [pages_per_part] pages. *)
Lemma size_parts_docs (src : Doc) np P :
    parseInt np = JNum P -> (1 <= P)%Z ->
    exists docs, size_parts src (getPageCount src) np = map Ok docs /\
      Forall2 (fun i d => pdf_pages d =
                 take (Z.to_nat (pages_per_part (getPageCount src) P))
                      (drop (i * Z.to_nat (pages_per_part (getPageCount src) P)) (pdf_pages src)))
        (seq 0 (Z.to_nat P)) docs.
  Proof.
    intros Hnp HP. unfold size_parts. rewrite Hnp.
    apply map_ok_exists. intros i. apply size_part_ok.
    apply pages_per_part_bounds; [unfold getPageCount; lia | done].
  Qed.

  (** The chunks of a size split, laid end to end, are the document. *)
Lemma size_chunks_concat (src : Doc) P (docs : list Doc) :
    (1 <= P)%Z ->
    Forall2 (fun i d => pdf_pages d =
               take (Z.to_nat (pages_per_part (getPageCount src) P))
                    (drop (i * Z.to_nat (pages_per_part (getPageCount src) P)) (pdf_pages src)))
      (seq 0 (Z.to_nat P)) docs ->
    concat (map pdf_pages docs) = pdf_pages src.
  Proof.
    intros HP Hall.
    assert (map pdf_pages docs =
            map (fun i => take (Z.to_nat (pages_per_part (getPageCount src) P))
                            (drop (i * Z.to_nat (pages_per_part (getPageCount src) P)) (pdf_pages src)))
                (seq 0 (Z.to_nat P))) as ->.
    { induction Hall; simpl; congruence. }
    rewrite concat_chunks. apply take_ge.
    destruct (pages_per_part_bounds (getPageCount src) P) as [H0 H1]; [unfold getPageCount; lia | done |].
    unfold getPageCount in *. nia.
  Qed.
End SizeMode.

(** [C23] Split by size, end to end: with [numParts] parsing to [P >= 1],
    an uploaded PDF and an existing [downloads] directory, the handler
    writes exactly [P] parts, part [i] holding the pages
    [i * ceil(T/P) .. (i+1) * ceil(T/P) - 1] that exist, the parts laid
    end to end are the whole document, and the final file system is the
    parts, the zip of them in order, and the upload removed. *)
Theorem split_size_ok {Bytes Doc Page : Type}
  `{!PdfLib Bytes Doc Page, !PdfLibLaws Bytes Doc Page, !Archiver Bytes}
  body f uf np P (src : Doc) (w : world Bytes) :
  field_is (splitOption body) "pages" = false -> field_is (splitOption body) "size" = true ->
  numParts body = Some np -> parseInt np = JNum P -> (1 <= P)%Z ->
  files w !! (up_dir f, up_name f) = Some uf -> up_dir f <> "downloads" ->
  load_doc (contents uf) = Ok src -> "downloads" ∈ dirs w ->
  exists docs,
    length docs = Z.to_nat P /\
    concat (map pdf_pages docs) = pdf_pages src /\
    Forall2 (fun i d => pdf_pages d =
               take (Z.to_nat (pages_per_part (getPageCount src) P))
                    (drop (i * Z.to_nat (pages_per_part (getPageCount src) P)) (pdf_pages src)))
      (seq 0 (Z.to_nat P)) docs /\
    split_handler body (Some f) w =
      (Ok (success (zip_name (clock w))
             ("Split into " +:+ num_to_string (N.of_nat (Z.to_nat P)) +:+ " files")),
       with_files w
         (<[("downloads", zip_name (clock w)) :=
              mkFile (zip_pack (zip (part_names 0 (clock w) (length docs)) (map pdf_save docs))) (clock w)]>
          (delete (up_dir f, up_name f) (write_parts 0 (clock w) docs (files w))))).
Proof.
  intros Hpages Hsize Hnp Hparse HP Hf Hdir Hload Hdl.
  destruct (size_parts_docs src np P Hparse HP) as (docs & Hdocs & Hall).
  assert (length docs = Z.to_nat P) as Hlen
    by (rewrite <- (Forall2_length _ _ _ Hall); apply length_seq).
  exists docs. split_and!; [done | by apply (size_chunks_concat src P) | done |].
  rewrite <- Hlen. apply (split_handler_parts _ _ uf src); try done.
  unfold split_outputs. rewrite Hpages, Hsize, Hnp. simpl.
  assert (np <> "") as Hne by (intros ->; discriminate Hparse).
  destruct (String.eqb_spec np ""); [done|]. rewrite Hdocs. by apply save_parts_ok.
Qed.

(** [C39] The spec (section 8) says every part of a size split has
    [ceil(T/P)] pages "except possibly the last".  The code gives part
    [i] (from 0) [min(ceil(T/P), T - i * ceil(T/P))] pages: every part
    that starts at or past the end of the document is empty, so when
    [(P - 1) * ceil(T/P) >= T] (7 parts of 10 pages: 2, 2, 2, 2, 2, 0, 0)
    more than one part is short, and the zip holds empty PDFs. *)
Theorem split_size_part_lengths {Bytes Doc Page : Type}
  `{!PdfLib Bytes Doc Page, !PdfLibLaws Bytes Doc Page, !Archiver Bytes}
  body f uf np P (src : Doc) (w : world Bytes) :
  let T := length (pdf_pages src) in
  let c := Z.to_nat (pages_per_part (getPageCount src) P) in
  field_is (splitOption body) "pages" = false -> field_is (splitOption body) "size" = true ->
  numParts body = Some np -> parseInt np = JNum P -> (1 <= P)%Z ->
  files w !! (up_dir f, up_name f) = Some uf -> up_dir f <> "downloads" ->
  load_doc (contents uf) = Ok src -> "downloads" ∈ dirs w ->
  exists docs,
    length docs = Z.to_nat P /\
    (forall i d, docs !! i = Some d -> length (pdf_pages d) = Nat.min c (T - i * c)) /\
    split_handler body (Some f) w =
      (Ok (success (zip_name (clock w))
             ("Split into " +:+ num_to_string (N.of_nat (Z.to_nat P)) +:+ " files")),
       with_files w
         (<[("downloads", zip_name (clock w)) :=
              mkFile (zip_pack (zip (part_names 0 (clock w) (length docs)) (map pdf_save docs))) (clock w)]>
          (delete (up_dir f, up_name f) (write_parts 0 (clock w) docs (files w))))).
Proof.
  intros T c Hpages Hsize Hnp Hparse HP Hf Hdir Hload Hdl.
  destruct (split_size_ok body f uf np P src w Hpages Hsize Hnp Hparse HP Hf Hdir Hload Hdl)
    as (docs & Hlen & _ & Hall & Hrun).
  exists docs. split_and!; [done | | done].
  intros i d Hd. destruct (Forall2_lookup_r _ _ _ _ _ Hall Hd) as (j & Hj & Hpd).
  apply lookup_seq in Hj as [-> _]. rewrite Hpd, length_take, length_drop. fold c T. lia.
Qed.

(** [C40] [numParts] is only tested for truthiness: a non-empty value
    that [parseInt] reads as [NaN] or as a number not above 0 ("0",
    "-2", "abc") selects the size mode, whose loop then makes no part.
    The handler answers success "Split into 0 files" with a zip of no
    entry, and removes the upload, instead of rejecting the request. *)
Theorem split_size_no_parts {Bytes Doc Page : Type}
  `{!PdfLib Bytes Doc Page, !PdfLibLaws Bytes Doc Page, !Archiver Bytes}
  body f uf np (src : Doc) (w : world Bytes) :
  field_is (splitOption body) "pages" = false -> field_is (splitOption body) "size" = true ->
  numParts body = Some np -> np <> "" ->
  (parseInt np = JNaN \/ exists P, parseInt np = JNum P /\ (P <= 0)%Z) ->
  files w !! (up_dir f, up_name f) = Some uf -> up_dir f <> "downloads" ->
  load_doc (contents uf) = Ok src -> "downloads" ∈ dirs w ->
  split_handler body (Some f) w =
    (Ok (success (zip_name (clock w)) "Split into 0 files"),
     with_files w
       (<[("downloads", zip_name (clock w)) := mkFile (zip_pack []) (clock w)]>
        (delete (up_dir f, up_name f) (files w)))).
Proof.
  intros Hpages Hsize Hnp Hne Hparse Hf Hdir Hload Hdl.
  apply (split_handler_parts body f uf src [] w); try done.
  unfold split_outputs. rewrite Hpages, Hsize, Hnp. simpl.
  destruct (String.eqb_spec np ""); [done|]. simpl. unfold size_parts.
  destruct Hparse as [-> | (P & -> & HP)]; [|rewrite (Z2Nat.nonpos P) by lia];
    simpl; by rewrite with_files_id.
Qed.

(** ** The frame, and what a successful answer names *)

Section SplitInv.
  Context {Bytes Doc Page : Type} `{!PdfLib Bytes Doc Page, !Archiver Bytes}.
  Context (P : world Bytes -> Prop) `{!FsInv P}.

Lemma inv_save_parts i parts : st_preserves P (save_parts (Bytes:=Bytes) (Doc:=Doc) i parts).
  Proof.
    revert i. induction parts as [|o parts IH]; intros i; simpl; [by apply st_preserves_ret|].
    unfold save_part. preserves_tac.
  Qed.

Lemma inv_read_parts names : st_preserves P (@read_parts Bytes names).
  Proof. induction names; simpl; preserves_tac. Qed.

Lemma inv_split_outputs body (src : Doc) : st_preserves P (split_outputs body src).
  Proof. unfold split_outputs. destruct (_ && _); [|destruct (_ && _)]; eauto using inv_save_parts with pdftool. Qed.

Lemma inv_finish_split f outs : st_preserves P (finish_split (Bytes:=Bytes) f outs).
  Proof. unfold finish_split, write_zip. preserves_tac. apply inv_read_parts. Qed.

  (** Every invariant of the fs actions is kept by the split handler. *)
Lemma inv_split_handler body file :
    st_preserves P (split_handler (Bytes:=Bytes) (Doc:=Doc) (Page:=Page) body file).
  Proof.
    unfold split_handler. apply (inv_catch_500 P). preserves_tac.
    - apply inv_split_outputs.
    - apply inv_read_parts.
  Qed.
End SplitInv.

#[export] Hint Resolve inv_save_parts inv_read_parts inv_split_outputs inv_finish_split
  inv_split_handler : pdftool.

(** The proof of the property below, shared with the lemmas that use it. *)
Lemma frame_split_handler {Bytes Doc Page : Type}
  `{!PdfLib Bytes Doc Page, !Archiver Bytes} c ds body file :
  st_preserves (frame c ds) (split_handler (Bytes:=Bytes) (Doc:=Doc) (Page:=Page) body file).
Proof. apply inv_split_handler, _. Qed.

(** ** Error paths *)

Section SplitErrors.
  Context {Bytes Doc Page : Type} `{!PdfLib Bytes Doc Page, !PdfLibLaws Bytes Doc Page, !Archiver Bytes}.

  (** A part that throws stops the loop; the parts before it stay written. *)
Lemma save_parts_throw i (docs : list Doc) e rest (w : world Bytes) :
    "downloads" ∈ dirs w ->
    save_parts i (map Ok docs ++ Throw e :: rest) w =
      (Throw e, with_files w (write_parts i (clock w) docs (files w))).
  Proof.
    revert i w. induction docs as [|d docs IH]; intros i w Hdir.
    - simpl. unfold st_bind, st_lift. by rewrite with_files_id.
    - cbn [save_parts map app]. unfold save_part, st_bind, st_lift, st_ret.
      fold (@st_ret (world Bytes) js_error).
      rewrite date_now_run, writeFile_ok by done.
      rewrite IH by done. by autorewrite with pdfrw.
  Qed.

  (** The part list of the ranges mode, once the mode is chosen. *)
Lemma split_outputs_pages body pr (src : Doc) :
    field_is (splitOption body) "pages" = true -> pageRanges body = Some pr -> pr <> "" ->
    split_outputs (Bytes:=Bytes) body src =
      save_parts 0 (map (range_part src (getPageCount src)) (range_tokens pr)).
  Proof.
    intros Hopt Hpr Hne. unfold split_outputs. rewrite Hopt, Hpr. simpl.
    by destruct (String.eqb_spec pr "").
  Qed.
End SplitErrors.

(** [C27] A token that throws in the middle of a split by ranges makes
    the request answer 500 with the error's message, but the parts of
    the tokens before it stay in [downloads] and the upload is not
    removed: the final file system is exactly the first parts written
    over the initial one, against the "no partial artifacts" rule of the
    spec (4.2). *)
Theorem split_pages_error_keeps_parts {Bytes Doc Page : Type}
  `{!PdfLib Bytes Doc Page, !PdfLibLaws Bytes Doc Page, !Archiver Bytes}
  body f uf pr (src : Doc) pre r rest (docs : list Doc) e (w : world Bytes) :
  field_is (splitOption body) "pages" = true -> pageRanges body = Some pr -> pr <> "" ->
  files w !! (up_dir f, up_name f) = Some uf -> load_doc (contents uf) = Ok src ->
  "downloads" ∈ dirs w ->
  range_tokens pr = pre ++ r :: rest ->
  Forall2 (fun r d => range_part src (getPageCount src) r = Ok d) pre docs ->
  range_part src (getPageCount src) r = Throw e ->
  split_handler body (Some f) w =
    (Ok (failure 500 (error_message e)), with_files w (write_parts 0 (clock w) docs (files w))).
Proof.
  intros Hopt Hpr Hne Hf Hload Hdl Htok Hpre Hr.
  rewrite (split_handler_loaded _ _ _ _ _ Hf Hload). apply catch_500_throw.
  unfold st_bind at 1. rewrite (split_outputs_pages _ pr) by done.
  rewrite Htok, map_app, (map_outcomes_ok _ _ _ Hpre). simpl. rewrite Hr.
  by rewrite save_parts_throw.
Qed.

(** [C28] The split handler never creates [downloads] (unlike merge,
    convert, compress and image): on a server where no other endpoint
    has created it, a split whose first part builds fails with ENOENT on
    its first [writeFile], answers 500 and leaves the world unchanged. *)
Theorem split_no_downloads_dir {Bytes Doc Page : Type}
  `{!PdfLib Bytes Doc Page, !PdfLibLaws Bytes Doc Page, !Archiver Bytes}
  body f uf pr (src : Doc) r rest (d : Doc) (w : world Bytes) :
  field_is (splitOption body) "pages" = true -> pageRanges body = Some pr -> pr <> "" ->
  files w !! (up_dir f, up_name f) = Some uf -> load_doc (contents uf) = Ok src ->
  "downloads" ∉ dirs w ->
  range_tokens pr = r :: rest -> range_part src (getPageCount src) r = Ok d ->
  split_handler body (Some f) w =
    (Ok (failure 500 (error_message (ENOENT "open" (path_join "downloads" (part_name 0 (clock w)))))), w).
Proof.
  intros Hopt Hpr Hne Hf Hload Hdl Htok Hr.
  rewrite (split_handler_loaded _ _ _ _ _ Hf Hload). apply catch_500_throw.
  unfold st_bind at 1. rewrite (split_outputs_pages _ pr) by done.
  rewrite Htok. cbn [map save_parts]. rewrite Hr.
  unfold save_part, st_bind, st_lift. rewrite date_now_run, writeFile_no_dir by done. done.
Qed.

(** The answer to a request without a file. *)
Lemma split_no_file {Bytes Doc Page : Type}
  `{!PdfLib Bytes Doc Page, !Archiver Bytes} body (w : world Bytes) :
  split_handler (Doc:=Doc) (Page:=Page) body None w = (Ok (failure 400 "No file uploaded"), w).
Proof. done. Qed.

(** A successful answer of the split handler names the zip of the
    instant the request started. *)
Lemma split_success_name {Bytes Doc Page : Type}
  `{!PdfLib Bytes Doc Page, !Archiver Bytes} body file (w w' : world Bytes) r :
  split_handler (Doc:=Doc) (Page:=Page) body file w = (Ok r, w') -> status r = 200%Z ->
  exists msg, r = success (zip_name (clock w)) msg.
Proof.
  intros Hrun Hst. destruct file as [f|]; [|injection Hrun as <- _; done].
  unfold split_handler, catch_500, st_catch in Hrun.
  destruct (st_bind _ _ w) as [[r'|e] w''] eqn:Hin; [|injection Hrun as <- _; done].
  injection Hrun as -> _.
  apply st_bind_Ok_inv in Hin as (b & w1 & H1 & Hin).
  apply st_bind_Ok_inv in Hin as (src & w2 & H2 & Hin).
  apply st_bind_Ok_inv in Hin as (outs & w3 & H3 & Hin).
  unfold st_lift in H2. destruct (load_doc b); [|done]. injection H2 as -> <-.
  pose proof (frame_clock _ _ _ _ (fun c ds => frame_readFile c ds _ _) H1) as Hc1.
  pose proof (frame_clock _ _ _ _ (fun c ds => inv_split_outputs (frame c ds) _ _) H3) as Hc3.
  unfold finish_split in Hin.
  apply st_bind_Ok_inv in Hin as (u & w4 & H4 & Hin).
  apply st_bind_Ok_inv in Hin as (now & w5 & H5 & Hin).
  apply st_bind_Ok_inv in Hin as (u' & w6 & H6 & Hin).
  pose proof (frame_clock _ _ _ _ (fun c ds => frame_unlink c ds _ _) H4) as Hc4.
  rewrite date_now_run in H5. injection H5 as <- <-.
  injection Hin as <- _. eexists. by rewrite Hc4, Hc3, Hc1.
Qed.

(** [C37] Two split requests served in the same millisecond answer the
    same [fileName] and [downloadUrl]: the zip name only depends on
    [Date.now()], so the second request's archive replaces the first's
    under the URL the first client was given. *)
Theorem split_same_instant_same_url {Bytes Doc Page : Type}
  `{!PdfLib Bytes Doc Page, !Archiver Bytes} b1 f1 b2 f2 (w w1 w2 : world Bytes) r1 r2 :
  split_handler (Doc:=Doc) (Page:=Page) b1 f1 w = (Ok r1, w1) ->
  split_handler (Doc:=Doc) (Page:=Page) b2 f2 w1 = (Ok r2, w2) ->
  status r1 = 200%Z -> status r2 = 200%Z ->
  exists m1 m2, r1 = success (zip_name (clock w)) m1 /\ r2 = success (zip_name (clock w)) m2.
Proof.
  intros H1 H2 Hs1 Hs2.
  destruct (split_success_name _ _ _ _ _ H1 Hs1) as [m1 ->].
  destruct (split_success_name _ _ _ _ _ H2 Hs2) as [m2 ->].
  rewrite (frame_clock _ _ _ _ (fun c ds => frame_split_handler c ds b1 f1) H1).
  by exists m1, m2.
Qed.

(** ** Witnesses: the theorems on the list model *)

Import ListModel.

(** A world with one uploaded 10-page PDF, [downloads] created, at 5 ms. *)
Definition up_a : uploaded := mkUploaded "uploads" "1-a.pdf" "a.pdf".
Definition upfile_a : file (blob nat) := mkFile (BPdf doc10) 1.
Definition w_split : world (blob nat) :=
  mkWorld {[("uploads", "1-a.pdf") := upfile_a]} {["uploads"; "downloads"]} 5.
Definition pages_body (pr : string) : split_body := mkSplitBody (Some "pages") (Some pr) None.
Definition size_body (np : string) : split_body := mkSplitBody (Some "size") None (Some np).

Lemma split_pages_ok_witness :
  exists w', split_handler (pages_body "1-3, 5, 7-10") (Some up_a) w_split =
               (Ok (success (zip_name 5) "Split into 3 files"), w').
Proof.
  eexists. erewrite (split_pages_ok (pages_body "1-3, 5, 7-10") up_a upfile_a "1-3, 5, 7-10" doc10
                       [[1; 2; 3]; [5]; [7; 8; 9; 10]] w_split);
    [reflexivity | reflexivity | reflexivity | discriminate | reflexivity | discriminate
    | reflexivity | by_eval | repeat constructor].
Defined.

Lemma split_size_ok_witness :
  exists docs : list (list nat), length docs = 4%nat /\ concat (map pdf_pages docs) = doc10.
Proof.
  destruct (split_size_ok (Bytes:=blob nat) (size_body "4") up_a upfile_a "4" 4 doc10 w_split)
    as (docs & Hlen & Hcat & _ & _);
    [reflexivity | reflexivity | reflexivity | reflexivity | lia | reflexivity | discriminate
    | reflexivity | by_eval |].
  by exists docs.
Defined.

(** Seven parts of the 10-page document: the last two are empty. *)
Lemma split_size_part_lengths_witness :
  exists docs : list (list nat), length docs = 7%nat /\
    forall i d, docs !! i = Some d -> length (pdf_pages d) = Nat.min 2 (10 - i * 2).
Proof.
  destruct (split_size_part_lengths (Bytes:=blob nat) (size_body "7") up_a upfile_a "7" 7 doc10 w_split)
    as (docs & Hlen & Hparts & _);
    [reflexivity | reflexivity | reflexivity | reflexivity | lia | reflexivity | discriminate
    | reflexivity | by_eval |].
  by exists docs.
Defined.

Lemma split_size_no_parts_witness :
  split_handler (size_body "0") (Some up_a) w_split =
    (Ok (success (zip_name 5) "Split into 0 files"),
     with_files w_split
       (<[("downloads", zip_name 5) := mkFile (zip_pack []) 5]> (delete ("uploads", "1-a.pdf") (files w_split)))).
Proof.
  apply (split_size_no_parts (Bytes:=blob nat) (size_body "0") up_a upfile_a "0" doc10 w_split);
    [reflexivity | reflexivity | reflexivity | discriminate | right; exists 0%Z; split; [reflexivity | lia]
    | reflexivity | discriminate | reflexivity | by_eval].
Defined.

Lemma split_pages_error_keeps_parts_witness :
  split_handler (pages_body "2,0") (Some up_a) w_split =
    (Ok (failure 500 "Cannot read properties of undefined (reading 'node')"),
     with_files w_split (write_parts 0 5 [[2]] (files w_split))).
Proof.
  apply (split_pages_error_keeps_parts (pages_body "2,0") up_a upfile_a "2,0" doc10 ["2"] "0" [] [[2]]
           (TypeError "Cannot read properties of undefined (reading 'node')") w_split);
    [reflexivity | reflexivity | discriminate | reflexivity | reflexivity | by_eval | reflexivity
    | repeat constructor | reflexivity].
Defined.

Definition w_fresh : world (blob nat) :=
  mkWorld {[("uploads", "1-a.pdf") := upfile_a]} {["uploads"]} 5.

Lemma split_no_downloads_dir_witness :
  split_handler (pages_body "1-3") (Some up_a) w_fresh =
    (Ok (failure 500 (error_message (ENOENT "open" (path_join "downloads" (part_name 0 5))))), w_fresh).
Proof.
  apply (split_no_downloads_dir (pages_body "1-3") up_a upfile_a "1-3" doc10 "1-3" [] [1; 2; 3] w_fresh);
    [reflexivity | reflexivity | discriminate | reflexivity | reflexivity | by_eval | reflexivity
    | reflexivity].
Defined.

(** Two uploads and two split requests in the same millisecond. *)
Definition w_two : world (blob nat) :=
  mkWorld {[("uploads", "1-a.pdf") := upfile_a; ("uploads", "1-b.pdf") := mkFile (BPdf [7; 8]) 1]}
          {["uploads"; "downloads"]} 5.
Definition up_b : uploaded := mkUploaded "uploads" "1-b.pdf" "b.pdf".

Lemma split_same_instant_same_url_witness :
  exists m1 m2,
    success (zip_name 5) "Split into 1 files" = success (zip_name (clock w_two)) m1 /\
    success (zip_name 5) "Split into 2 files" = success (zip_name (clock w_two)) m2.
Proof.
  apply (split_same_instant_same_url (pages_body "2") (Some up_a) (pages_body "1,2") (Some up_b)
           w_two (snd (split_handler (pages_body "2") (Some up_a) w_two))
           (snd (split_handler (pages_body "1,2") (Some up_b)
                   (snd (split_handler (pages_body "2") (Some up_a) w_two)))));
    [vm_compute; reflexivity | vm_compute; reflexivity | reflexivity | reflexivity].
Defined.
