(* ===== verification/Merge.v ===== *)
(** * The [/api/merge] handler (lines 154-192 of [src/server.js])

    [merge_handler] follows the handler: the guard on fewer than two
    files, the loop that reads, loads and copies every page of each
    upload in order into one new document and unlinks the upload, then
    the name [merged-<now>.pdf], the [mkdir] of [downloads], the save
    and the answer; every exception ends in the [catch] block.

    The loop ([merge_loop]) unlinks each upload right after copying it,
    so an upload that fails to load leaves the earlier uploads removed
    and the later ones in place, and writes no output. *)

From S2P Require Import Prelude Js PdfLib Store.

(** [`merged-${Date.now()}.pdf`] *)
Definition merged_name (now : N) : string := "merged-" +:+ num_to_string now +:+ ".pdf".

Section Handler.
  Context {Bytes Doc Page : Type} `{!PdfLib Bytes Doc Page}.

  (** Lines 164-172: [for (const file of files) { .. }]. *)
Fixpoint merge_loop (fs : list uploaded) (mergedPdf : Doc) : M Bytes Doc :=
    match fs with
    | [] => st_ret mergedPdf
    | file :: rest =>
        let! pdfBytes := readFile (up_dir file) (up_name file) in
        let! pdf := st_lift (load_doc pdfBytes) in
        let! copiedPages := st_lift (copyPages pdf (getPageIndices pdf)) in
        let mergedPdf' := add_pages mergedPdf copiedPages in
        do! unlink (up_dir file) (up_name file) in
        merge_loop rest mergedPdf'
    end.

  (** The handler, lines 154-192; [req.files] is [None] when multer
      gives no array. *)
Definition merge_handler (files : option (list uploaded)) : M Bytes response :=
    catch_500 (
      match files with
      | Some fs =>
          if (2 <=? length fs)%nat then
            let! mergedPdf := merge_loop fs pdf_create in
            let! now := date_now in
            let outputFilename := merged_name now in
            do! mkdir "downloads" in
            do! writeFile "downloads" outputFilename (pdf_save mergedPdf) in
            st_ret (success outputFilename
                      ("Merged " +:+ num_to_string (N.of_nat (length fs)) +:+ " PDFs successfully"))
          else st_ret (failure 400 "At least 2 files required for merging")
      | None => st_ret (failure 400 "At least 2 files required for merging")
      end).
End Handler.

(** ** The merge loop *)

(** [file.path] *)
Definition up_path (f : uploaded) : string * string := (up_dir f, up_name f).

(** The files left once the loop unlinked [ps] in order. *)
Fixpoint unlink_all {V} (ps : list (string * string)) (m : gmap (string * string) V) :=
  match ps with
  | [] => m
  | p :: ps' => unlink_all ps' (delete p m)
  end.

Section MergeLemmas.
  Context {Bytes Doc Page : Type} `{!PdfLib Bytes Doc Page, !PdfLibLaws Bytes Doc Page}.

  (** The uploads [fs] are present and load as [srcs]. *)
Definition uploads_load (w : world Bytes) (fs : list uploaded) (srcs : list Doc) : Prop :=
    Forall2 (fun f src => exists uf, files w !! up_path f = Some uf /\ load_doc (contents uf) = Ok src)
      fs srcs.

  (** The document the loop builds from [acc] and [srcs]. *)
Definition merge_docs (acc : Doc) (srcs : list Doc) : Doc :=
    fold_left (fun d src => add_pages d (pdf_pages src)) srcs acc.

Lemma merge_docs_pages acc srcs :
    pdf_pages (merge_docs acc srcs) = pdf_pages acc ++ concat (map pdf_pages srcs).
  Proof.
    revert acc. induction srcs as [|s srcs IH]; intros acc; simpl.
    - by rewrite app_nil_r.
    - rewrite IH, add_pages_pages. by rewrite app_assoc.
  Qed.

Lemma lookup_unlink_all_ne {V} (ps : list (string * string)) (m : gmap (string * string) V) (k : string * string) :
    k ∉ ps -> unlink_all ps m !! k = m !! k.
  Proof.
    revert m. induction ps as [|p ps IH]; intros m Hk; [done|]. simpl.
    apply not_elem_of_cons in Hk as [Hkp Hk]. rewrite IH by done.
    apply lookup_delete_ne. congruence.
  Qed.

Lemma uploads_load_delete w fs srcs p :
    p ∉ map up_path fs -> uploads_load w fs srcs ->
    uploads_load (with_files w (delete p (files w))) fs srcs.
  Proof.
    intros Hp Hl. induction Hl as [|f src fs srcs (uf & Huf & Hload) _ IH]; constructor.
    - exists uf. simpl. rewrite lookup_delete_ne; [done|].
      intros ->. apply Hp. by left.
    - apply IH. intros Hin. apply Hp. by right.
  Qed.

Lemma merge_loop_ok fs srcs acc (w : world Bytes) :
    NoDup (map up_path fs) -> uploads_load w fs srcs ->
    merge_loop fs acc w =
      (Ok (merge_docs acc srcs), with_files w (unlink_all (map up_path fs) (files w))).
  Proof.
    revert srcs acc w. induction fs as [|f fs IH]; intros srcs acc w Hnd Hl.
    - inversion Hl; subst. simpl. by rewrite with_files_id.
    - inversion Hl as [|? src ? srcs' (uf & Huf & Hload) Hrest]; subst.
      apply NoDup_cons in Hnd as [Hnotin Hnd].
      cbn [merge_loop]. unfold st_bind at 1. rewrite (readFile_ok _ _ _ _ Huf).
      unfold st_bind at 1, st_lift at 1. rewrite Hload.
      unfold st_bind at 1, st_lift at 1. rewrite copyPages_all.
      unfold st_bind at 1. rewrite (unlink_ok _ _ _ _ Huf).
      rewrite (IH _ _ _ Hnd (uploads_load_delete w fs srcs' (up_path f) Hnotin Hrest)). by autorewrite with pdfrw.
  Qed.
End MergeLemmas.

(** The proof of the property below, shared with the lemmas that use it. *)
Lemma merge_handler_run {Bytes Doc Page : Type} `{!PdfLib Bytes Doc Page, !PdfLibLaws Bytes Doc Page}
  (fs : list uploaded) (srcs : list Doc) (w : world Bytes) :
  (2 <= length fs)%nat -> NoDup (map up_path fs) -> uploads_load w fs srcs ->
  pdf_pages (merge_docs pdf_create srcs) = concat (map pdf_pages srcs) /\
  merge_handler (Some fs) w =
    (Ok (success (merged_name (clock w))
           ("Merged " +:+ num_to_string (N.of_nat (length fs)) +:+ " PDFs successfully")),
     mkWorld (<[("downloads", merged_name (clock w)) :=
                  mkFile (pdf_save (merge_docs pdf_create srcs)) (clock w)]>
                (unlink_all (map up_path fs) (files w)))
             ({["downloads"]} ∪ dirs w) (clock w)).
Proof.
  intros Hlen Hnd Hl. split; [by rewrite merge_docs_pages, pdf_pages_create|].
  unfold merge_handler. apply catch_500_ok.
  destruct (Nat.leb_spec 2 (length fs)); [|lia].
  unfold st_bind at 1. rewrite (merge_loop_ok _ _ _ _ Hnd Hl).
  unfold st_bind, mkdir, st_ret. rewrite date_now_run. cbn.
  rewrite writeFile_ok by (simpl; set_solver). done.
Qed.

(** [C25] Merge, end to end: two or more distinct uploads that all load
    as PDFs give one document whose pages are all the pages of the
    uploads, in upload order and each upload's own order; the uploads
    are removed, [downloads] is created, and [merged-<now>.pdf] holds
    the saved document; this is the whole final world. *)
Theorem merge_ok {Bytes Doc Page : Type} `{!PdfLib Bytes Doc Page, !PdfLibLaws Bytes Doc Page}
  (fs : list uploaded) (srcs : list Doc) (w : world Bytes) :
  (2 <= length fs)%nat -> NoDup (map up_path fs) -> uploads_load w fs srcs ->
  pdf_pages (merge_docs pdf_create srcs) = concat (map pdf_pages srcs) /\
  merge_handler (Some fs) w =
    (Ok (success (merged_name (clock w))
           ("Merged " +:+ num_to_string (N.of_nat (length fs)) +:+ " PDFs successfully")),
     mkWorld (<[("downloads", merged_name (clock w)) :=
                  mkFile (pdf_save (merge_docs pdf_create srcs)) (clock w)]>
                (unlink_all (map up_path fs) (files w)))
             ({["downloads"]} ∪ dirs w) (clock w)).
Proof. intros. by apply merge_handler_run. Qed.

(** Fewer than two files: the answer is 400 and nothing changes. *)
Theorem merge_too_few {Bytes Doc Page : Type} `{!PdfLib Bytes Doc Page}
  (files : option (list uploaded)) (w : world Bytes) :
  (length (default [] files) < 2)%nat ->
  merge_handler (Doc:=Doc) (Page:=Page) files w =
    (Ok (failure 400 "At least 2 files required for merging"), w).
Proof.
  intros Hlen. destruct files as [fs|]; [|done]. simpl in Hlen.
  unfold merge_handler. apply catch_500_ok. by destruct (Nat.leb_spec 2 (length fs)); [lia|].
Qed.

Section MergeErrors.
  Context {Bytes Doc Page : Type} `{!PdfLib Bytes Doc Page, !PdfLibLaws Bytes Doc Page}.

Lemma merge_loop_bad fs f rest srcs uf acc (w : world Bytes) :
    NoDup (map up_path (fs ++ [f])) -> uploads_load w fs srcs ->
    files w !! up_path f = Some uf -> pdf_load (contents uf) = None ->
    merge_loop (fs ++ f :: rest) acc w =
      (Throw PdfParseError, with_files w (unlink_all (map up_path fs) (files w))).
  Proof.
    revert srcs acc w. induction fs as [|g fs IH]; intros srcs acc w Hnd Hl Huf Hbad.
    - inversion Hl; subst. cbn [app merge_loop]. unfold st_bind, st_lift.
      rewrite (readFile_ok _ _ _ _ Huf). unfold load_doc. rewrite Hbad. cbn [unlink_all map]. by rewrite with_files_id.
    - inversion Hl as [|? src ? srcs' (ug & Hug & Hload) Hrest]; subst.
      cbn [map app] in Hnd. apply NoDup_cons in Hnd as [Hnotin Hnd].
      cbn [app merge_loop]. unfold st_bind at 1. rewrite (readFile_ok _ _ _ _ Hug).
      unfold st_bind at 1, st_lift at 1. rewrite Hload.
      unfold st_bind at 1, st_lift at 1. rewrite copyPages_all.
      unfold st_bind at 1. rewrite (unlink_ok _ _ _ _ Hug).
      rewrite (IH srcs' _ _ Hnd).
      + by autorewrite with pdfrw.
      + apply uploads_load_delete; [|done]. intros Hin. apply Hnotin. rewrite map_app. set_solver.
      + simpl. rewrite lookup_delete_ne; [done|]. intros Heq. apply Hnotin.
        rewrite map_app, elem_of_app. right. simpl. apply list_elem_of_singleton. exact Heq.
      + done.
  Qed.
End MergeErrors.

(** [C36] An upload that is not a PDF makes the merge answer 500 with
    pdf-lib's parse error; no output is written, the uploads before it
    are already removed and the ones from it on stay in [uploads]. *)
Theorem merge_bad_pdf {Bytes Doc Page : Type} `{!PdfLib Bytes Doc Page, !PdfLibLaws Bytes Doc Page}
  fs f rest (srcs : list Doc) uf (w : world Bytes) :
  (2 <= length (fs ++ f :: rest))%nat -> NoDup (map up_path (fs ++ [f])) ->
  uploads_load w fs srcs -> files w !! up_path f = Some uf -> pdf_load (contents uf) = None ->
  merge_handler (Some (fs ++ f :: rest)) w =
    (Ok (failure 500 "Failed to parse PDF document"),
     with_files w (unlink_all (map up_path fs) (files w))).
Proof.
  intros Hlen Hnd Hl Huf Hbad. unfold merge_handler.
  apply (catch_500_throw _ _ PdfParseError).
  destruct (Nat.leb_spec 2 (length (fs ++ f :: rest))); [|lia].
  unfold st_bind at 1. by rewrite (merge_loop_bad _ _ _ _ uf _ _ Hnd Hl Huf Hbad).
Qed.

(** The same upload path twice in one merge (what multer gives for
    two files of the same name stored in the same millisecond, see
    [Store]) fails: the first pass unlinks the file, the
    second [readFile] throws ENOENT, and the answer is 500. *)
Theorem merge_duplicate_path {Bytes Doc Page : Type} `{!PdfLib Bytes Doc Page, !PdfLibLaws Bytes Doc Page}
  f (src : Doc) uf (w : world Bytes) :
  files w !! up_path f = Some uf -> load_doc (contents uf) = Ok src ->
  merge_handler (Doc:=Doc) (Some [f; f]) w =
    (Ok (failure 500 (error_message (ENOENT "open" (path_join (up_dir f) (up_name f))))),
     with_files w (delete (up_path f) (files w))).
Proof.
  intros Huf Hload. unfold merge_handler. eapply catch_500_throw. simpl.
  unfold st_bind at 1. cbn [merge_loop].
  unfold st_bind at 1. rewrite (readFile_ok _ _ _ _ Huf).
  unfold st_bind at 1, st_lift at 1. rewrite Hload.
  unfold st_bind at 1, st_lift at 1. rewrite copyPages_all.
  unfold st_bind at 1. rewrite (unlink_ok _ _ _ _ Huf).
  unfold st_bind at 1. rewrite readFile_missing by (simpl; apply lookup_delete_eq). done.
Qed.

(** ** Invariants of the fs actions are kept by the merge handler *)

Section MergeInv.
  Context {Bytes Doc Page : Type} `{!PdfLib Bytes Doc Page}.
  Context (P : world Bytes -> Prop) `{!FsInv P}.

Lemma inv_merge_loop fs (acc : Doc) : st_preserves P (merge_loop fs acc).
  Proof. revert acc. induction fs; intros acc; simpl; preserves_tac. Qed.

Lemma inv_merge_handler files : st_preserves P (merge_handler (Bytes:=Bytes) (Doc:=Doc) (Page:=Page) files).
  Proof. unfold merge_handler. apply (inv_catch_500 P). preserves_tac. apply inv_merge_loop. Qed.
End MergeInv.

#[export] Hint Resolve inv_merge_loop inv_merge_handler : pdftool.

(** ** Witnesses: the theorems on the list model *)

Import ListModel.

Definition up_m1 : uploaded := mkUploaded "uploads" "1-a.pdf" "a.pdf".
Definition up_m2 : uploaded := mkUploaded "uploads" "1-b.pdf" "b.pdf".
Definition up_bad : uploaded := mkUploaded "uploads" "1-c.txt" "c.txt".
Definition w_merge : world (blob nat) :=
  mkWorld {[("uploads", "1-a.pdf") := mkFile (BPdf [1; 2]) 1;
            ("uploads", "1-b.pdf") := mkFile (BPdf [3; 4; 5]) 1;
            ("uploads", "1-c.txt") := mkFile (BRaw "hello") 1]}
          {["uploads"]} 9.

Lemma merge_ok_witness :
  pdf_pages (Bytes:=blob nat) (merge_docs (Bytes:=blob nat) pdf_create [[1; 2]; [3; 4; 5]])
    = [1; 2; 3; 4; 5].
Proof.
  destruct (merge_ok [up_m1; up_m2] [[1; 2]; [3; 4; 5]] w_merge) as [Hp _];
    [simpl; lia | by_eval | |].
  - repeat constructor; eexists; split; reflexivity.
  - exact Hp.
Defined.

Lemma merge_too_few_witness :
  merge_handler (Doc:=list nat) (Page:=nat) (Some [up_m1]) w_merge =
    (Ok (failure 400 "At least 2 files required for merging"), w_merge).
Proof. apply merge_too_few. simpl. lia. Defined.

Lemma merge_bad_pdf_witness :
  merge_handler (Doc:=list nat) (Some [up_m1; up_bad; up_m2]) w_merge =
    (Ok (failure 500 "Failed to parse PDF document"),
     with_files w_merge (unlink_all [up_path up_m1] (files w_merge))).
Proof.
  apply (merge_bad_pdf [up_m1] up_bad [up_m2] [[1; 2]] (mkFile (BRaw "hello") 1) w_merge);
    [simpl; lia | by_eval | repeat constructor; eexists; split; reflexivity | reflexivity | reflexivity].
Defined.

Lemma merge_duplicate_path_witness :
  merge_handler (Doc:=list nat) (Some [up_m1; up_m1]) w_merge =
    (Ok (failure 500 (error_message (ENOENT "open" "uploads/1-a.pdf"))),
     with_files w_merge (delete (up_path up_m1) (files w_merge))).
Proof. apply (merge_duplicate_path up_m1 [1; 2] (mkFile (BPdf [1; 2]) 1)); reflexivity. Defined.
