(* ===== verification/Cleanup.v ===== *)
(** * The sweep of old files (lines 39-59 of [src/server.js])

    [cleanupOldFiles] lists [uploads] then [downloads], [stat]s each
    file and unlinks it when [Date.now() - mtimeMs > maxAge] (one hour);
    any exception (a missing directory, a file gone between [readdir]
    and [stat]) ends the sweep of that directory, silently.
    [setInterval] runs it every 30 minutes.

    - [cleanupOldFiles] is the function as written, in the monad [M];
    - [sweep_step] cuts it at its [await]s, so that requests can run
      between two steps (the sweep is asynchronous); [sweep_run] with
      enough fuel is [cleanupOldFiles] when nothing interleaves;
    - [scheduled] is the [setInterval] schedule: the clock advances by
      the period, the sweep runs, and again. *)

From S2P Require Import Prelude Js PdfLib Store.

(** [const maxAge = 3600000;] *)
Definition maxAge : Z := 3600000.

(** [setInterval(cleanupOldFiles, 1800000)] *)
Definition sweep_period : N := 1800000.

(** [const dirs = ['uploads', 'downloads'];] *)
Definition cleanup_dirs : list string := ["uploads"; "downloads"].

(** [Date.now() - stats.mtimeMs > maxAge] *)
Definition is_old {Bytes} (now : N) (f : file Bytes) : bool :=
  (maxAge <? Z.of_N now - Z.of_N (mtime f))%Z.

Section Sweep.
  Context {Bytes : Type}.

  (** Lines 48-52: one file of the listing. *)
Definition sweep_file (dir file : string) : M Bytes unit :=
    let! stats := stat dir file in
    let! now := date_now in
    if (maxAge <? Z.of_N now - Z.of_N (mtime stats))%Z then unlink dir file else st_ret tt.

  (** Lines 47-53: [for (const file of files) { .. }]. *)
Fixpoint sweep_files (dir : string) (files : list string) : M Bytes unit :=
    match files with
    | [] => st_ret tt
    | file :: rest => do! sweep_file dir file in sweep_files dir rest
    end.

  (** Lines 45-54: the [try { .. } catch (err) {}] around one directory. *)
Definition sweep_dir (dir : string) : M Bytes unit :=
    st_catch (let! files := readdir dir in sweep_files dir files) (fun _ => st_ret tt).

  (** Line 44: [for (const dir of dirs) { .. }]. *)
Fixpoint sweep_dirs (ds : list string) : M Bytes unit :=
    match ds with
    | [] => st_ret tt
    | dir :: rest => do! sweep_dir dir in sweep_dirs rest
    end.

  (** Lines 40-56. *)
Definition cleanupOldFiles : M Bytes unit := sweep_dirs cleanup_dirs.
End Sweep.

(** ** The sweep cut at its [await]s

    Where the sweep waits: before the [readdir] of a directory, before
    the [stat] of a file, before the [unlink] of an old file. *)
Inductive sweep_pc : Type :=
| AtDir (ds : list string)
| AtFile (dir : string) (files : list string) (ds : list string)
| AtUnlink (dir file : string) (files : list string) (ds : list string)
| Done.

Section Steps.
  Context {Bytes : Type}.

  (** Run one action; an exception goes to the [catch] of the directory,
      that is to the next directory. *)
Definition resume {A} (m : M Bytes A) (k : A -> sweep_pc) (ds : list string)
    (w : world Bytes) : sweep_pc * world Bytes :=
    match m w with
    | (Ok a, w') => (k a, w')
    | (Throw _, w') => (AtDir ds, w')
    end.

Definition sweep_step (pc : sweep_pc) (w : world Bytes) : sweep_pc * world Bytes :=
    match pc with
    | AtDir [] => (Done, w)
    | AtDir (dir :: ds) => resume (readdir dir) (fun files => AtFile dir files ds) ds w
    | AtFile _ [] ds => (AtDir ds, w)
    | AtFile dir (file :: files) ds =>
        resume (let! stats := stat dir file in
                let! now := date_now in
                st_ret (if (maxAge <? Z.of_N now - Z.of_N (mtime stats))%Z
                        then AtUnlink dir file files ds else AtFile dir files ds))
               id ds w
    | AtUnlink dir file files ds => resume (unlink dir file) (fun _ => AtFile dir files ds) ds w
    | Done => (Done, w)
    end.

Fixpoint sweep_run (fuel : nat) (pc : sweep_pc) (w : world Bytes) : sweep_pc * world Bytes :=
    match fuel with
    | O => (pc, w)
    | S fuel' => let '(pc', w') := sweep_step pc w in sweep_run fuel' pc' w'
    end.

  (** Enough steps for a whole sweep: per directory a [readdir], the
      end of its listing and at most a [stat] and an [unlink] per file;
      one more for the end. *)
Definition sweep_fuel (w : world Bytes) : nat :=
    length cleanup_dirs * (2 + 2 * size (files w)) + 1.
End Steps.

(** [setInterval(cleanupOldFiles, 1800000)] with nothing else running:
    [k] periods later. *)
Fixpoint scheduled {Bytes} (k : nat) (w : world Bytes) : world Bytes :=
  match k with
  | O => w
  | S k' => scheduled k' (snd (cleanupOldFiles (tick sweep_period w)))
  end.

(** ** The listing of a directory *)

(** The names [readdir] returns from a list of entries. *)
Definition listing {V} (dir : string) (l : list ((string * string) * V)) : list string :=
  map (fun kv => kv.1.2) (filter (fun kv => kv.1.1 = dir) l).

Lemma readdir_ok {Bytes} (w : world Bytes) dir :
  dir ∈ dirs w -> readdir dir w = (Ok (listing dir (map_to_list (files w))), w).
Proof. intros H. unfold readdir. by rewrite decide_True. Qed.

Lemma readdir_no_dir {Bytes} (w : world Bytes) dir :
  dir ∉ dirs w -> readdir dir w = (Throw (ENOENT "scandir" dir), w).
Proof. intros H. unfold readdir. by rewrite decide_False. Qed.

Lemma elem_of_listing {V} dir (l : list ((string * string) * V)) n :
  n ∈ listing dir l <-> exists v, ((dir, n), v) ∈ l.
Proof.
  unfold listing. induction l as [|[[d n'] v] l IH]; simpl.
  - split; [intros []%elem_of_nil | intros [v []%elem_of_nil]].
  - rewrite filter_cons. setoid_rewrite elem_of_cons.
    case_decide as Hd; simpl in *; [rewrite elem_of_cons|]; rewrite IH; naive_solver.
Qed.

Lemma listing_NoDup {V} dir (l : list ((string * string) * V)) :
  NoDup l.*1 -> NoDup (listing dir l).
Proof.
  induction l as [|[[d n] v] l IH]; simpl; [constructor|].
  intros [Hn Hl]%NoDup_cons. unfold listing. rewrite filter_cons.
  case_decide as Hd; simpl in *; [|by apply IH].
  constructor; [|by apply IH]. subst d. intros [v' Hv']%elem_of_listing.
  apply Hn. exact (list_elem_of_fmap_2 fst l _ Hv').
Qed.

Lemma listing_files {Bytes} (dir : string) (m : gmap (string * string) (file Bytes)) n :
  n ∈ listing dir (map_to_list m) <-> is_Some (m !! (dir, n)).
Proof.
  rewrite elem_of_listing. setoid_rewrite elem_of_map_to_list. unfold is_Some. done.
Qed.

(** ** The sweep run without interruption *)

(** The entries the sweep of [names] in [dir] at instant [now] removes. *)
Definition swept_by {Bytes} (dir : string) (names : list string) (now : N)
  (kv : (string * string) * file Bytes) : Prop :=
  kv.1.1 = dir /\ kv.1.2 ∈ names /\ is_old now kv.2 = true.

Section SweepRun.
  Context {Bytes : Type}.
  Implicit Types (w : world Bytes) (m : gmap (string * string) (file Bytes)).

Lemma filter_swept_nil m dir now : filter (fun kv => ¬ swept_by dir [] now kv) m = m.
  Proof. apply map_filter_id. intros i x _ (_ & []%elem_of_nil & _). Qed.

Lemma filter_swept_cons m dir n names now f :
    m !! (dir, n) = Some f -> n ∉ names ->
    filter (fun kv => ¬ swept_by dir (n :: names) now kv) m =
    filter (fun kv => ¬ swept_by dir names now kv) (if is_old now f then delete (dir, n) m else m).
  Proof.
    intros Hf Hn. apply map_eq. intros [d n']. rewrite !map_lookup_filter. unfold swept_by; simpl.
    destruct (decide ((d, n') = (dir, n))) as [Heq|Hne].
    - injection Heq as -> ->.
      destruct (is_old now f) eqn:Ho; rewrite ?lookup_delete_eq, ?Hf; simpl;
        repeat case_guard; simplify_eq; try done; exfalso; rewrite ?elem_of_cons in *; intuition (auto || congruence).
    - assert (delete (dir, n) m !! (d, n') = m !! (d, n')) as Hd by (apply lookup_delete_ne; congruence).
      destruct (is_old now f); rewrite ?Hd; destruct (m !! (d, n')) as [x|]; simpl; try done;
        repeat case_guard; try done; exfalso; rewrite ?elem_of_cons in *; intuition (auto || congruence).
  Qed.

  (** The loop over a listing of distinct present names removes exactly
      the old ones. *)
Lemma sweep_files_run dir names w :
    NoDup names -> Forall (fun n => is_Some (files w !! (dir, n))) names ->
    sweep_files dir names w =
      (Ok tt, with_files w (filter (fun kv => ¬ swept_by dir names (clock w) kv) (files w))).
  Proof.
    revert w. induction names as [|n names IH]; intros w Hnd Hin.
    - simpl. by rewrite filter_swept_nil, with_files_id.
    - apply NoDup_cons in Hnd as [Hn Hnd]. apply Forall_cons in Hin as [[f Hf] Hin].
      rewrite (filter_swept_cons _ _ _ _ _ f) by done.
      cbn [sweep_files]. unfold sweep_file, st_bind at 1 2 3, stat. rewrite Hf, date_now_run.
      fold (is_old (clock w) f). destruct (is_old (clock w) f).
      + unfold unlink. rewrite Hf. rewrite IH; [by autorewrite with pdfrw | done |].
        rewrite Forall_forall in Hin |- *. intros n' Hn'. simpl.
        rewrite lookup_delete_ne; [by apply Hin|]. by intros [= <-].
      + unfold st_ret. rewrite IH by done. done.
  Qed.

  (** One directory: its old files go, when it exists. *)
Lemma sweep_dir_run dir w :
    sweep_dir dir w =
      (Ok tt, with_files w (filter (fun kv => ¬ (kv.1.1 = dir /\ dir ∈ dirs w /\ is_old (clock w) kv.2 = true))
                                   (files w))).
  Proof.
    unfold sweep_dir, st_catch, st_bind at 1. destruct (decide (dir ∈ dirs w)) as [Hd|Hd].
    - rewrite readdir_ok by done. rewrite sweep_files_run.
      + do 3 f_equal. apply map_filter_ext. intros [d n] f Hf. unfold swept_by. simpl.
        rewrite listing_files. naive_solver.
      + apply listing_NoDup, NoDup_fst_map_to_list.
      + apply Forall_forall. intros n Hn. by apply listing_files.
    - rewrite readdir_no_dir by done. unfold st_ret.
      rewrite map_filter_id; [by rewrite with_files_id | naive_solver].
  Qed.

Lemma sweep_dirs_run ds w :
    sweep_dirs ds w =
      (Ok tt, with_files w (filter (fun kv => ¬ (kv.1.1 ∈ ds /\ kv.1.1 ∈ dirs w /\ is_old (clock w) kv.2 = true))
                                   (files w))).
  Proof.
    revert w. induction ds as [|dir ds IH]; intros w; simpl.
    - unfold st_ret. rewrite map_filter_id; [by rewrite with_files_id|]. intros i x _ (?%elem_of_nil & _). done.
    - unfold st_bind at 1. rewrite sweep_dir_run, IH. autorewrite with pdfrw.
      rewrite map_filter_filter. do 2 f_equal. apply map_filter_ext. intros [d n] f _. simpl.
      rewrite elem_of_cons. naive_solver.
  Qed.
End SweepRun.

(** ** The steps of the sweep, run without interruption *)

Section StepRun.
  Context {Bytes : Type}.
  Implicit Types (w : world Bytes).

Lemma sweep_run_add n m pc w :
    sweep_run (n + m) pc w = let '(pc', w') := sweep_run n pc w in sweep_run m pc' w'.
  Proof.
    revert pc w. induction n as [|n IH]; intros pc w; [done|].
    simpl. destruct (sweep_step pc w) as [pc' w']. apply IH.
  Qed.

Lemma sweep_run_done n w : sweep_run n Done w = (Done, w).
  Proof. induction n; simpl; done. Qed.

  (** Once the sweep is done, more fuel changes nothing. *)
Lemma sweep_run_mono n m pc w w' :
    sweep_run n pc w = (Done, w') -> n <= m -> sweep_run m pc w = (Done, w').
  Proof.
    intros Hn Hle. replace m with (n + (m - n)) by lia.
    rewrite sweep_run_add, Hn. apply sweep_run_done.
  Qed.

  (** The step at a file: its [stat], and the choice. *)
Lemma sweep_step_file dir x names ds w :
    sweep_step (AtFile dir (x :: names) ds) w =
      match files w !! (dir, x) with
      | Some f => (if is_old (clock w) f then AtUnlink dir x names ds else AtFile dir names ds, w)
      | None => (AtDir ds, w)
      end.
  Proof. unfold sweep_step, resume, st_bind, stat. by destruct (files w !! _). Qed.

Lemma sweep_step_unlink dir x names ds w :
    sweep_step (AtUnlink dir x names ds) w =
      match files w !! (dir, x) with
      | Some _ => (AtFile dir names ds, with_files w (delete (dir, x) (files w)))
      | None => (AtDir ds, w)
      end.
  Proof. unfold sweep_step, resume, unlink. by destruct (files w !! _). Qed.

Lemma sweep_file_run dir x w :
    sweep_file dir x w =
      match files w !! (dir, x) with
      | Some f => if is_old (clock w) f then (Ok tt, with_files w (delete (dir, x) (files w))) else (Ok tt, w)
      | None => (Throw (ENOENT "stat" (path_join dir x)), w)
      end.
  Proof.
    unfold sweep_file, st_bind, stat. destruct (files w !! _) as [f|] eqn:Hf; [|done].
    rewrite date_now_run. fold (is_old (clock w) f). destruct (is_old _ _); [|done].
    unfold unlink. by rewrite Hf.
  Qed.

  (** The loop over a listing, as steps: at most two per name and one
      for the end, to the next directory with the world the loop leaves,
      on every path (an exception ends the directory in both). *)
Lemma sweep_files_steps dir names ds w :
    exists n, n <= 2 * length names + 1 /\
      sweep_run n (AtFile dir names ds) w = (AtDir ds, snd (sweep_files dir names w)).
  Proof.
    revert w. induction names as [|x names IH]; intros w; [by exists 1|].
    cbn [sweep_files length]. unfold st_bind at 1. rewrite sweep_file_run.
    destruct (files w !! (dir, x)) as [f|] eqn:Hf.
    - destruct (is_old (clock w) f) eqn:Hold.
      + destruct (IH (with_files w (delete (dir, x) (files w)))) as (n & Hn & Hrun).
        exists (2 + n). split; [lia|]. rewrite sweep_run_add. cbn [sweep_run].
        rewrite sweep_step_file, Hf, Hold, sweep_step_unlink, Hf. done.
      + destruct (IH w) as (n & Hn & Hrun). exists (1 + n). split; [lia|].
        rewrite sweep_run_add. cbn [sweep_run]. rewrite sweep_step_file, Hf, Hold. done.
    - exists 1. split; [lia|]. cbn [sweep_run]. by rewrite sweep_step_file, Hf.
  Qed.

Lemma length_listing {V} (dir : string) (m : gmap (string * string) V) :
    length (listing dir (map_to_list m)) <= size m.
  Proof. unfold listing. rewrite length_map, <- length_map_to_list. apply length_filter. Qed.

  (** The steps of one directory, then of the rest. *)
Lemma sweep_dirs_steps ds w :
    exists n, n <= length ds * (2 + 2 * size (files w)) + 1 /\
      sweep_run n (AtDir ds) w = (Done, snd (sweep_dirs ds w)).
  Proof.
    revert w. induction ds as [|dir ds IH]; intros w; [by exists 1|].
    cbn [sweep_dirs]. unfold st_bind at 1.
    destruct (sweep_dir dir w) as [o w1] eqn:Hdir.
    pose proof (sweep_dir_run dir w) as Hrun. rewrite Hdir in Hrun. injection Hrun as -> Hw1.
    assert (size (files w1) <= size (files w)) as Hsz by (rewrite Hw1; apply map_size_filter).
    destruct (IH w1) as (n2 & Hn2 & Hrun2).
    assert (length ds * size (files w1) <= length ds * size (files w)) by (apply Nat.mul_le_mono_l; lia).
    destruct (decide (dir ∈ dirs w)) as [Hd|Hd].
    - set (names := listing dir (map_to_list (files w))).
      destruct (sweep_files_steps dir names ds w) as (n1 & Hn1 & Hrun1).
      assert (snd (sweep_files dir names w) = w1) as Hsnd.
      { unfold sweep_dir, st_catch, st_bind in Hdir. rewrite readdir_ok in Hdir by done.
        fold names in Hdir. destruct (sweep_files dir names w) as [[]]; by injection Hdir. }
      pose proof (length_listing dir (files w)) as Hl. fold names in Hl.
      exists (1 + n1 + n2). split; [simpl; nia|].
      rewrite !sweep_run_add. cbn [sweep_run]. unfold sweep_step, resume.
      rewrite readdir_ok by done. fold names. rewrite Hrun1, Hsnd. done.
    - assert (w1 = w) as ->.
      { unfold sweep_dir, st_catch, st_bind in Hdir. rewrite readdir_no_dir in Hdir by done.
        by injection Hdir. }
      exists (1 + n2). split; [simpl; nia|].
      rewrite sweep_run_add. cbn [sweep_run]. unfold sweep_step, resume.
      rewrite readdir_no_dir by done. done.
  Qed.
End StepRun.


(** ** One sweep, file by file, and the schedule *)

Section Schedule.
  Context {Bytes : Type}.
  Implicit Types (w : world Bytes).

Lemma cleanup_world w :
    snd (cleanupOldFiles w) =
      with_files w (filter (fun kv => ¬ (kv.1.1 ∈ cleanup_dirs /\ kv.1.1 ∈ dirs w /\ is_old (clock w) kv.2 = true))
                           (files w)).
  Proof. unfold cleanupOldFiles. by rewrite sweep_dirs_run. Qed.

Lemma cleanup_lookup w d n :
    files (snd (cleanupOldFiles w)) !! (d, n) =
      match files w !! (d, n) with
      | Some f => if bool_decide (d ∈ cleanup_dirs /\ d ∈ dirs w) && is_old (clock w) f then None else Some f
      | None => None
      end.
  Proof.
    rewrite cleanup_world, with_files_files, map_lookup_filter.
    destruct (files w !! (d, n)) as [f|]; [simpl|done].
    case_bool_decide; destruct (is_old (clock w) f) eqn:Ho; simpl; case_guard; naive_solver.
  Qed.

Lemma cleanup_dirs_clock w : dirs (snd (cleanupOldFiles w)) = dirs w /\ clock (snd (cleanupOldFiles w)) = clock w.
  Proof. by rewrite cleanup_world. Qed.

Lemma is_old_mono (f : file Bytes) t t' : (t <= t')%N -> is_old t f = true -> is_old t' f = true.
  Proof. unfold is_old. rewrite !Z.ltb_lt. lia. Qed.

Lemma scheduled_clock k w : clock (scheduled k w) = (clock w + N.of_nat k * sweep_period)%N.
  Proof.
    revert w. induction k as [|k IH]; intros w; simpl; [lia|].
    rewrite IH, (proj2 (cleanup_dirs_clock _)). simpl. lia.
  Qed.

Lemma scheduled_none k w key : files w !! key = None -> files (scheduled k w) !! key = None.
  Proof.
    revert w. induction k as [|k IH]; intros w Hk; [done|]. simpl. apply IH.
    destruct key as [d n]. rewrite cleanup_lookup. simpl. by rewrite Hk.
  Qed.

Lemma scheduled_dirs k w : dirs (scheduled k w) = dirs w.
  Proof.
    revert w. induction k as [|k IH]; intros w; simpl; [done|].
    by rewrite IH, (proj1 (cleanup_dirs_clock _)).
  Qed.
End Schedule.

(** [C20] The [setInterval] schedule: a file of [uploads] or [downloads]
    (an existing directory) is removed by the first sweep at which it is
    more than one hour old, and is there, unchanged, before.  After
    [k+1] periods the file is gone exactly when its age then exceeds
    [maxAge]. *)
Theorem scheduled_lifetime {Bytes} (w : world Bytes) d n f k :
  d ∈ cleanup_dirs -> d ∈ dirs w -> files w !! (d, n) = Some f ->
  files (scheduled (S k) w) !! (d, n) =
    if is_old (clock w + N.of_nat (S k) * sweep_period) f then None else Some f.
Proof.
  revert w. induction k as [|k IH]; intros w Hd Hdw Hf.
  - cbn [scheduled]. rewrite cleanup_lookup. cbn [files dirs clock tick]. rewrite Hf.
    rewrite bool_decide_true by done. simpl. by replace (1 * sweep_period)%N with sweep_period by lia.
  - change (scheduled (S (S k)) w) with (scheduled (S k) (snd (cleanupOldFiles (tick sweep_period w)))).
    set (w1 := snd (cleanupOldFiles (tick sweep_period w))).
    assert (files w1 !! (d, n) = if is_old (clock w + sweep_period) f then None else Some f) as Hw1.
    { unfold w1. rewrite cleanup_lookup. cbn [files dirs clock tick]. rewrite Hf, bool_decide_true by done. done. }
    destruct (is_old (clock w + sweep_period) f) eqn:Hold.
    + rewrite (scheduled_none _ _ _ Hw1).
      rewrite (is_old_mono f (clock w + sweep_period)); [done | lia | done].
    + rewrite IH; [| done | unfold w1; by rewrite (proj1 (cleanup_dirs_clock _)) | done].
      unfold w1. rewrite (proj2 (cleanup_dirs_clock _)). cbn [clock tick].
      by replace (clock w + sweep_period + N.of_nat (S k) * sweep_period)%N
        with (clock w + N.of_nat (S (S k)) * sweep_period)%N by lia.
Qed.

(** [C18] One run of [cleanupOldFiles] with nothing interleaved never
    fails and removes exactly the files of [uploads] and [downloads]
    (those of the two that exist) more than one hour old; every other
    file, the directories and the clock stay. *)
Theorem cleanup_removes_old {Bytes} (w : world Bytes) :
  cleanupOldFiles w =
    (Ok tt, with_files w (filter (fun kv => ¬ (kv.1.1 ∈ cleanup_dirs /\ kv.1.1 ∈ dirs w /\
                                               is_old (clock w) kv.2 = true))
                                 (files w))).
Proof. unfold cleanupOldFiles. apply sweep_dirs_run. Qed.

(** ** Witnesses *)

(** An upload and an output written at instant 0. *)
Definition w_sweep : world unit :=
  mkWorld (<[("uploads", "0-a.pdf") := mkFile tt 0]> (<[("downloads", "merged-0.pdf") := mkFile tt 0]> ∅))
          {["uploads"; "downloads"]} 0.


Lemma scheduled_lifetime_witness :
  files (scheduled 3 w_sweep) !! ("uploads", "0-a.pdf") = None /\
  files (scheduled 2 w_sweep) !! ("uploads", "0-a.pdf") = Some (mkFile tt 0).
Proof.
  split.
  - rewrite (scheduled_lifetime w_sweep "uploads" "0-a.pdf" (mkFile tt 0) 2); [reflexivity | by_eval | by_eval | vm_compute; reflexivity].
  - rewrite (scheduled_lifetime w_sweep "uploads" "0-a.pdf" (mkFile tt 0) 1); [reflexivity | by_eval | by_eval | vm_compute; reflexivity].
Defined.
