(* ===== verification/Media.v ===== *)
(** * The other libraries the handlers call

    - Node's [path.extname] and the [String] methods [slice],
      [toLowerCase], [toUpperCase], as the convert, compress and image
      handlers apply them to [file.originalname] (lines 77, 299, 429);
    - sharp's builder: [sharp(path)], [rotate], [resize], [extract],
      [grayscale], [jpeg], [png], [webp], [toFormat] only record what to
      do, [toFile] runs it.  The builder is data here ([sharp]) and its
      methods follow sharp's documented behaviour: every format method
      forces the output format, so the last one called wins, and an
      option left [undefined] keeps the previous value.  [toFile] picks
      the format as sharp's [pipeline.cc] does ([sharp_output_format]):
      the forced one, else the output name's suffix (all lower or all
      upper case, the spellings sharp lists),
      else the input's own format when the suffix is none sharp knows;
    - the rest is stated as type classes with laws: [Sharp] (the
      encoder run by [toFile]), [TextLibs] (UTF-8 text, mammoth, docx),
      [PdfDraw] (pdf-lib's [addPage([w, h])], [getSize], [drawText],
      which throws on a UTF-16 unit outside WinAnsi: [draw_text]) and
      [Sized] (the [size] of [fs.stat] and [bytes.length]);
    - [MediaModel] is an instance of all of them, for the witnesses.

    The extension the handlers compute never holds a dot or a slash
    ([file_ext_clean]), proved by an invariant of the reverse scan of
    [path.extname] ([extname_loop_inv]).

    Names are sequences of 8-bit code units: multer decodes
    [originalname] as Latin-1, so every code unit of the JavaScript
    string is one [ascii] here.  Texts that are drawn (the watermark,
    a decoded text file) are lists of UTF-16 code units ([jstr]). *)

From Stdlib Require Import QArith.
From S2P Require Import Prelude Js PdfLib Store.

(** ** Node's [path.extname] (POSIX) *)

(** The state of the scan from the end of the path. *)
Record ext_state := mkExtState {
  startDot : Z; startPart : Z; end_pos : Z; matchedSlash : bool; preDotState : Z
}.

(** The loop [for (let i = path.length - 1; i >= 0; --i)], on the
    characters in reverse: the head has index [length rest]. *)
Fixpoint extname_loop (rcs : list ascii) (st : ext_state) : ext_state :=
  match rcs with
  | [] => st
  | code :: rest =>
      let i := Z.of_nat (length rest) in
      if Ascii.eqb code "/"%char then
        if matchedSlash st then extname_loop rest st
        else mkExtState (startDot st) (i + 1) (end_pos st) (matchedSlash st) (preDotState st)
      else
        let st1 := if (end_pos st =? -1)%Z
                   then mkExtState (startDot st) (startPart st) (i + 1) false (preDotState st)
                   else st in
        let st2 :=
          if Ascii.eqb code "."%char then
            if (startDot st1 =? -1)%Z
            then mkExtState i (startPart st1) (end_pos st1) (matchedSlash st1) (preDotState st1)
            else if negb (preDotState st1 =? 1)%Z
            then mkExtState (startDot st1) (startPart st1) (end_pos st1) (matchedSlash st1) 1
            else st1
          else if negb (startDot st1 =? -1)%Z
          then mkExtState (startDot st1) (startPart st1) (end_pos st1) (matchedSlash st1) (-1)
          else st1 in
        extname_loop rest st2
  end.

Definition extname (path : string) : string :=
  let st := extname_loop (rev (String.list_ascii_of_string path)) (mkExtState (-1) 0 (-1) true 0) in
  if (startDot st =? -1)%Z || (end_pos st =? -1)%Z || (preDotState st =? 0)%Z ||
     ((preDotState st =? 1)%Z && (startDot st =? end_pos st - 1)%Z && (startDot st =? startPart st + 1)%Z)
  then ""
  else String.substring (Z.to_nat (startDot st)) (Z.to_nat (end_pos st - startDot st)) path.

(** [s.slice(1)] *)
Definition slice1 (s : string) : string := match s with EmptyString => "" | String _ r => r end.

Fixpoint string_map (f : ascii -> ascii) (s : string) : string :=
  match s with EmptyString => EmptyString | String c r => String (f c) (string_map f r) end.

(** [toLowerCase] on Latin-1 code units: [A-Z] and [À-Þ] but [×]. *)
Definition lower_char (c : ascii) : ascii :=
  let n := nat_of_ascii c in
  if ((65 <=? n) && (n <=? 90)) || ((192 <=? n) && (n <=? 222) && negb (n =? 215))
  then ascii_of_nat (n + 32) else c.

Definition toLowerCase (s : string) : string := string_map lower_char s.

(** [toUpperCase] on ASCII letters; the handler applies it to a format
    name of the lists it accepts, all ASCII. *)
Definition upper_char (c : ascii) : ascii :=
  let n := nat_of_ascii c in
  if (97 <=? n) && (n <=? 122) then ascii_of_nat (n - 32) else c.

Definition toUpperCase (s : string) : string := string_map upper_char s.

(** [path.extname(file.originalname).slice(1).toLowerCase()] *)
Definition file_ext (originalname : string) : string := toLowerCase (slice1 (extname originalname)).

(** [[..].includes(x)] on a list of strings. *)
Definition is_one_of (x : string) (l : list string) : bool := existsb (String.eqb x) l.

(** ** sharp's builder *)

Inductive sharp_op : Type :=
| Rotate (angle : jsnum)
| Resize (width height : jsnum)
| Extract (left top width height : jsnum)
| Grayscale.

Record sharp := mkSharp {
  sh_input : string * string;          (** the file [sharp(path)] reads *)
  sh_ops : list sharp_op;              (** the operations, in call order *)
  sh_format : option string;           (** [formatOut], [None]: from the output's extension *)
  sh_jpeg_quality : option Z;
  sh_png_quality : option Z;
  sh_webp_quality : option Z
}.

(** [sharp(path)] *)
Definition sharp_of (dir name : string) : sharp := mkSharp (dir, name) [] None None None None.

(** [.rotate(..)], [.resize(..)], [.extract(..)], [.grayscale()] *)
Definition sharp_then (op : sharp_op) (s : sharp) : sharp :=
  mkSharp (sh_input s) (sh_ops s ++ [op]) (sh_format s) (sh_jpeg_quality s) (sh_png_quality s)
          (sh_webp_quality s).

(** [{ quality: q }] with [q] possibly [undefined]: the old value stays. *)
Definition keep_or (q old : option Z) : option Z := match q with Some _ => q | None => old end.

(** [.jpeg({ quality })], [.png({ quality })], [.webp({ quality })]:
    each forces its output format. *)
Definition sharp_jpeg (q : option Z) (s : sharp) : sharp :=
  mkSharp (sh_input s) (sh_ops s) (Some "jpeg") (keep_or q (sh_jpeg_quality s)) (sh_png_quality s)
          (sh_webp_quality s).
Definition sharp_png (q : option Z) (s : sharp) : sharp :=
  mkSharp (sh_input s) (sh_ops s) (Some "png") (sh_jpeg_quality s) (keep_or q (sh_png_quality s))
          (sh_webp_quality s).
Definition sharp_webp (q : option Z) (s : sharp) : sharp :=
  mkSharp (sh_input s) (sh_ops s) (Some "webp") (sh_jpeg_quality s) (sh_png_quality s)
          (keep_or q (sh_webp_quality s)).

(** The format names sharp knows, to the format each selects. *)
Definition sharp_formats : list (string * string) :=
  [("heic", "heif"); ("heif", "heif"); ("avif", "avif"); ("jpeg", "jpeg"); ("jpg", "jpeg");
   ("jpe", "jpeg"); ("tile", "tile"); ("dz", "tile"); ("png", "png"); ("raw", "raw");
   ("tiff", "tiff"); ("tif", "tiff"); ("webp", "webp"); ("gif", "gif"); ("jp2", "jp2")].

Definition sharp_format (name : string) : option string :=
  match list_find (fun kv => kv.1 = name) sharp_formats with Some (_, kv) => Some kv.2 | None => None end.

(** The [formatOut] the other format methods set: [tile()] sets [dz],
    [avif()] is [heif()] with the AV1 compression. *)
Definition format_out (f : string) : string :=
  if String.eqb f "tile" then "dz" else if String.eqb f "avif" then "heif" else f.

(** [.toFormat(name)]: the format method of [name], or an [Error]. *)
Definition sharp_toFormat (name : string) (s : sharp) : outcome js_error sharp :=
  match sharp_format (toLowerCase name) with
  | Some "jpeg" => Ok (sharp_jpeg None s)
  | Some "png" => Ok (sharp_png None s)
  | Some "webp" => Ok (sharp_webp None s)
  | Some f => Ok (mkSharp (sh_input s) (sh_ops s) (Some (format_out f)) (sh_jpeg_quality s)
                          (sh_png_quality s) (sh_webp_quality s))
  | None => Throw (LibError ("Expected one of: heic, heif, avif, jpeg, jpg, jpe, tile, dz, png, raw, tiff, tif, webp, gif, jp2 for format but received " +:+ name +:+ " of type string"))
  end.

(** ** The format [toFile(out)] writes

    The output branches of sharp's [pipeline.cc] (sharp 0.30): the
    format [formatOut] forces; else, when [formatOut] is ["input"], the
    format the output path's extension selects ([IsJpeg], [IsPng], ...:
    case-sensitive suffixes, lower or upper case); else, when no branch
    knows the extension ([willMatchInput]), the format of the input
    image; else ["Unsupported output format"]. *)

(** [EndsWith(str, suffix)] *)
Definition ends_with (suffix s : string) : bool :=
  let l := String.list_ascii_of_string s in
  let k := String.list_ascii_of_string suffix in
  (length k <=? length l) && bool_decide (drop (length l - length k) l = k).

(** Each branch: the format it writes, the suffixes that select it, the
    input types it matches ([SVG] input writes PNG). *)
Definition toFile_rows : list (string * list string * list string) :=
  [("jpeg", [".jpg"; ".jpeg"; ".JPG"; ".JPEG"], ["jpeg"]);
   ("jp2", [".jp2"; ".jpx"; ".j2k"; ".j2c"; ".JP2"; ".JPX"; ".J2K"; ".J2C"], ["jp2"]);
   ("png", [".png"; ".PNG"], ["png"; "svg"]);
   ("webp", [".webp"; ".WEBP"], ["webp"]);
   ("gif", [".gif"; ".GIF"], ["gif"]);
   ("tiff", [".tif"; ".tiff"; ".TIF"; ".TIFF"], ["tiff"]);
   ("heif", [".heif"; ".HEIF"; ".heic"; ".HEIC"; ".avif"; ".AVIF"], ["heif"]);
   ("dz", [".dzi"; ".DZI"; ".zip"; ".ZIP"], []);
   ("v", [".v"; ".V"], ["vips"])].

Definition has_suffix (out : string) (sufs : list string) : bool := existsb (fun suf => ends_with suf out) sufs.

(** Some branch knows the extension: [willMatchInput] is false. *)
Definition known_extension (out : string) : bool := existsb (fun r => has_suffix out r.1.2) toFile_rows.

(** The branches in order; the tile branch tests its extensions whatever
    [formatOut] is ([baton->formatOut == "dz" || isDz || isDzZip]). *)
Fixpoint pick_output (rows : list (string * list string * list string))
    (formatOut : option string) (out input : string) : option string :=
  match rows with
  | [] => None
  | (fmt, sufs, inputs) :: rest =>
      let mightMatchInput := match formatOut with None => true | Some _ => false end in
      if match formatOut with Some f => String.eqb f fmt | None => false end
         || ((String.eqb fmt "dz" || mightMatchInput) && has_suffix out sufs)
         || (mightMatchInput && negb (known_extension out) && is_one_of input inputs)
      then Some fmt else pick_output rest formatOut out input
  end.

(** The format [toFile(out)] writes for an input image of type [input]. *)
Definition sharp_output_format (s : sharp) (out input : string) : option string :=
  pick_output toFile_rows (sh_format s) out input.

(** ** The libraries as classes *)

(** sharp's [toFile]: the bytes the pipeline makes of the input's bytes,
    in the format it is asked for, or the error it reports. *)
Class Sharp (Bytes : Type) := {
  sharp_encode : sharp -> string -> Bytes -> outcome js_error Bytes;
  image_format : Bytes -> option string      (** the format a decoder recognises *)
}.

(** The quality option of a format. *)
Definition format_quality (s : sharp) (fmt : string) : option Z :=
  if String.eqb fmt "jpeg" then sh_jpeg_quality s
  else if String.eqb fmt "png" then sh_png_quality s
  else if String.eqb fmt "webp" then sh_webp_quality s else None.

(** What a file written by [toFile] is: an image of the format asked
    for, made by the operations and the options of that format only. *)
Class SharpLaws (Bytes : Type) `{!Sharp Bytes} := {
  sharp_encode_format s fmt b b' : sharp_encode s fmt b = Ok b' -> image_format b' = Some fmt;
  sharp_encode_options s s' fmt b :
    sh_ops s = sh_ops s' -> format_quality s fmt = format_quality s' fmt ->
    sharp_encode s fmt b = sharp_encode s' fmt b
}.

(** ** Texts

    A JavaScript string is a sequence of UTF-16 code units: the content
    of a text file read as ['utf-8'], the text mammoth extracts, and the
    [watermarkText] field are such strings ([jstr]); [slice] counts
    code units. *)
Notation jstr := (list N) (only parsing).

(** The code units of a string literal of the source. *)
Definition js_text (s : string) : jstr := map N_of_ascii (String.list_ascii_of_string s).

(** A text field used as a condition: a non-empty string is truthy. *)
Definition truthy_text (o : option jstr) : bool := match o with Some (_ :: _) => true | _ => false end.

(** Text files, mammoth and docx. *)
Class TextLibs (Bytes : Type) := {
  utf8_decode : Bytes -> jstr;                        (** [fs.readFile(p, 'utf-8')] *)
  utf8_encode : jstr -> Bytes;                        (** [fs.writeFile(p, string)] *)
  mammoth_extractRawText : Bytes -> outcome js_error jstr;
  docx_toBuffer : jstr -> Bytes    (** [Packer.toBuffer] of one paragraph of one [TextRun] *)
}.

(** [drawText]'s options the handlers pass. *)
Record draw_opts := mkDraw { dx : Q; dy : Q; dsize : Z; dopacity : option Q }.

(** pdf-lib's pages: a new page of a size, its size, text drawn on it.
    A page object belongs to its document: drawing on [pages[i]] changes
    page [i] of the document ([pdf_set_page]).  No font is set, so
    [drawText] embeds Helvetica, whose WinAnsi encoding knows the code
    points [winansi] accepts; [encodeText] throws on the first other
    one, with the message [winansi_error]. *)
Class PdfDraw (Doc Page : Type) := {
  blank_page : Q * Q -> Page;                         (** [doc.addPage([w, h])] adds it *)
  page_size : Page -> Q * Q;                          (** [page.getSize()] *)
  page_draw : Page -> jstr -> draw_opts -> Page;      (** the text drawn, once encoded *)
  pdf_set_page : Doc -> nat -> Page -> Doc;
  winansi : N -> bool;                                (** [WinAnsi.canEncodeUnicodeCodePoint] *)
  winansi_error : N -> string                         (** [WinAnsi cannot encode ...] *)
}.

(** What WinAnsi encodes: printable ASCII and the printable Latin-1
    letters and signs; not the C0 and C1 control characters, nor a
    surrogate (a code point above U+FFFF, or a lone surrogate). *)
Class PdfDrawLaws (Bytes Doc Page : Type) `{!PdfLib Bytes Doc Page, !PdfDraw Doc Page} := {
  page_size_blank sz : page_size (blank_page sz) = sz;
  pdf_pages_set_page d i p : pdf_pages (pdf_set_page d i p) = <[i := p]> (pdf_pages d);
  winansi_ascii u : (32 <= u <= 126)%N -> winansi u = true;
  winansi_latin1 u : (161 <= u <= 255)%N -> u <> 173%N -> winansi u = true;
  winansi_control u : (u < 32 \/ 128 <= u <= 159)%N -> winansi u = false;
  winansi_surrogate u : (55296 <= u <= 57343)%N -> winansi u = false
}.

(** [cleanText] turns a tab, U+0085, U+2028 and U+2029 into spaces and
    drops backspace and U+000B; [lineSplit] cuts at [\n], [\f], [\r]:
    [encodeText] sees every other code unit. *)
Definition line_unit (u : N) : bool := existsb (N.eqb u) [8; 9; 10; 11; 12; 13; 133; 8232; 8233]%N.

Definition encoded_units (t : jstr) : jstr := List.filter (fun u => negb (line_unit u)) t.

(** [page.drawText(text, opts)]: every line is encoded before anything
    is drawn. *)
Definition draw_text {Doc Page} `{!PdfDraw Doc Page} (p : Page) (t : jstr) (o : draw_opts)
    : outcome js_error Page :=
  match find (fun u => negb (winansi u)) (encoded_units t) with
  | Some u => Throw (LibError (winansi_error u))
  | None => Ok (page_draw p t o)
  end.

(** The [size] of a file's stats, and [bytes.length]. *)
Class Sized (Bytes : Type) := { byte_length : Bytes -> N }.

(** [await pipeline.toFile(path.join(dir, name))]: read the input, encode
    it in the output format, write the result. *)
Definition sharp_toFile {Bytes} `{!Sharp Bytes} (s : sharp) (dir name : string) : M Bytes unit :=
  fun w =>
    match files w !! sh_input s with
    | None => (Throw (LibError ("Input file is missing: " +:+ path_join (sh_input s).1 (sh_input s).2)), w)
    | Some f =>
        match image_format (contents f) with
        | None => (Throw (LibError "Input file contains unsupported image format"), w)
        | Some t =>
            match sharp_output_format s name t with
            | None => (Throw (LibError ("Unsupported output format " +:+ path_join dir name)), w)
            | Some fmt =>
                match sharp_encode s fmt (contents f) with
                | Ok b => writeFile dir name b w
                | Throw e => (Throw e, w)
                end
            end
        end
    end.

Lemma inv_sharp_toFile {Bytes} `{!Sharp Bytes} (P : world Bytes -> Prop) `{!FsInv P} s dir name :
  st_preserves P (sharp_toFile s dir name).
Proof.
  intros w Hw. unfold sharp_toFile.
  destruct (files w !! _); [|done]. destruct (image_format _); [|done].
  destruct (sharp_output_format _ _ _); [|done]. destruct (sharp_encode _ _ _); [|done].
  by apply inv_writeFile.
Qed.

#[export] Hint Resolve inv_sharp_toFile : pdftool.

Lemma sharp_toFile_ok {Bytes} `{!Sharp Bytes} (s : sharp) dir name (w : world Bytes) f t fmt b :
  files w !! sh_input s = Some f -> image_format (contents f) = Some t ->
  sharp_output_format s name t = Some fmt ->
  sharp_encode s fmt (contents f) = Ok b -> dir ∈ dirs w ->
  sharp_toFile s dir name w = (Ok tt, with_files w (<[(dir, name) := mkFile b (clock w)]> (files w))).
Proof. intros Hf Ht Hfmt Hb Hd. unfold sharp_toFile. rewrite Hf, Ht, Hfmt, Hb. by apply writeFile_ok. Qed.



Lemma sharp_toFormat_input name s s' : sharp_toFormat name s = Ok s' -> sh_input s' = sh_input s.
Proof.
  unfold sharp_toFormat. destruct (sharp_format _) as [fmt|]; [|done].
  repeat case_match; by intros [= <-].
Qed.

Lemma is_one_of_spec x l : is_one_of x l = true <-> x ∈ l.
Proof.
  unfold is_one_of. rewrite existsb_exists. setoid_rewrite String.eqb_eq.
  rewrite list_elem_of_In. naive_solver.
Qed.

(** A format method forces what [toFile] writes, whatever the output's
    name and the input. *)
Lemma output_format_forced s out t f :
  sh_format s = Some f -> is_one_of f ["jpeg"; "png"; "webp"; "gif"] = true ->
  sharp_output_format s out t = Some f.
Proof.
  intros Hs Hf. unfold sharp_output_format. rewrite Hs.
  apply is_one_of_spec in Hf. repeat (apply elem_of_cons in Hf as [->|Hf]; [reflexivity|]).
  by apply elem_of_nil in Hf.
Qed.

#[export] Hint Rewrite @page_size_blank @pdf_pages_set_page : pdfrw.

(** ** [drawText] on the texts the handlers draw *)

(** A code unit [drawText] accepts whatever the library: printable
    ASCII, printable Latin-1 but the soft hyphen, or a unit [cleanText]
    and [lineSplit] take away. *)
Definition text_safe (u : N) : bool :=
  ((32 <=? u) && (u <=? 126))%N || ((161 <=? u) && (u <=? 255) && negb (u =? 173))%N || line_unit u.

(** A code unit it refuses: a control character those do not handle, or
    a surrogate. *)
Definition text_unsafe (u : N) : bool :=
  negb (line_unit u) && ((u <? 32) || ((128 <=? u) && (u <=? 159)) || ((55296 <=? u) && (u <=? 57343)))%N.

Lemma encoded_units_cons u t :
  encoded_units (u :: t) = if line_unit u then encoded_units t else u :: encoded_units t.
Proof. unfold encoded_units. cbn [List.filter]. by destruct (line_unit u). Qed.

Section DrawText.
  Context {Bytes Doc Page : Type} `{!PdfLib Bytes Doc Page, !PdfDraw Doc Page, !PdfDrawLaws Bytes Doc Page}.

Lemma winansi_safe u : line_unit u = false -> text_safe u = true -> winansi u = true.
  Proof.
    unfold text_safe. intros Hl. rewrite Hl, orb_false_r.
    intros [[H1 H2]%andb_true_iff | [[H1 H2]%andb_true_iff H3]%andb_true_iff]%orb_true_iff.
    - apply winansi_ascii. apply N.leb_le in H1, H2. lia.
    - apply winansi_latin1; [apply N.leb_le in H1, H2; lia|]. by apply negb_true_iff, N.eqb_neq in H3.
  Qed.

Lemma winansi_unsafe u : text_unsafe u = true -> line_unit u = false /\ winansi u = false.
  Proof.
    unfold text_unsafe. intros [Hl%negb_true_iff H]%andb_true_iff. split; [done|].
    apply orb_true_iff in H as [[H|[H1 H2]%andb_true_iff]%orb_true_iff|[H1 H2]%andb_true_iff].
    - apply winansi_control. left. by apply N.ltb_lt.
    - apply winansi_control. right. apply N.leb_le in H1, H2. lia.
    - apply winansi_surrogate. apply N.leb_le in H1, H2. lia.
  Qed.

  (** A text of safe units is drawn. *)
Lemma draw_text_safe p t o : forallb text_safe t = true -> draw_text p t o = Ok (page_draw p t o).
  Proof.
    intros Ht. unfold draw_text.
    enough (find (fun u => negb (winansi u)) (encoded_units t) = None) as -> by done.
    induction t as [|u t IH]; [done|]. apply andb_true_iff in Ht as [Hu Ht].
    rewrite encoded_units_cons. destruct (line_unit u) eqn:Hl; [by apply IH|].
    cbn [find]. by rewrite (winansi_safe u Hl Hu), IH.
  Qed.

  (** A text with an unsafe unit makes [drawText] throw. *)
Lemma draw_text_unsafe p t o : existsb text_unsafe t = true -> exists msg, draw_text p t o = Throw (LibError msg).
  Proof.
    intros Ht. unfold draw_text.
    enough (is_Some (find (fun u => negb (winansi u)) (encoded_units t))) as [u ->] by by eexists.
    induction t as [|u t IH]; [done|]. apply orb_true_iff in Ht as [Hu|Ht].
    - destruct (winansi_unsafe u Hu) as [Hl Hw].
      rewrite encoded_units_cons, Hl. cbn [find]. rewrite Hw. by eexists.
    - rewrite encoded_units_cons. destruct (line_unit u); [by apply IH|].
      cbn [find]. destruct (negb (winansi u)); [by eexists | by apply IH].
  Qed.
End DrawText.

(** ** A model of the libraries *)

Module MediaModel.
  (** A page: its number in the document it came from, its size, the
      texts drawn on it. *)
Record mpage := MPage { pid : nat; psize : Q * Q; ptexts : list (jstr * draw_opts) }.

  (** The contents of a file. *)
Inductive mblob : Type :=
  | MPdf (pages : list mpage)
  | MZip (entries : list (string * mblob))
  | MText (s : jstr)
  | MImage (format : string) (quality : option Z) (ops : list sharp_op) (size : N)
  | MDocx (text : jstr).

#[export] Instance mpdf : PdfLib mblob (list mpage) mpage := {
    pdf_create := [];
    pdf_load b := match b with MPdf ps => Some ps | _ => None end;
    pdf_save d := MPdf d;
    pdf_pages d := d;
    pdf_add_page d p := d ++ [p]
  }.

#[export] Instance mpdf_laws : PdfLibLaws mblob (list mpage) mpage.
  Proof. split; [done | done | intros d; by exists d]. Qed.

#[export] Instance mzip : Archiver mblob := {
    zip_pack l := MZip l;
    zip_entries b := match b with MZip l => Some l | _ => None end
  }.

  (** The quality an encoder uses: the one set for the format, else 80. *)
Definition quality_for (s : sharp) (fmt : string) : Z :=
    match (if String.eqb fmt "jpeg" then sh_jpeg_quality s
           else if String.eqb fmt "png" then sh_png_quality s
           else if String.eqb fmt "webp" then sh_webp_quality s else None) with
    | Some q => q
    | None => 80
    end.

#[export] Instance msharp : Sharp mblob := {
    sharp_encode s fmt b :=
      match b with
      | MImage _ _ ops sz =>
          let q := quality_for s fmt in
          Ok (MImage fmt (Some q) (ops ++ sh_ops s) (sz * Z.to_N q / 100)%N)
      | _ => Throw (LibError "Input file contains unsupported image format")
      end;
    image_format b := match b with MImage f _ _ _ => Some f | _ => None end
  }.

#[export] Instance msharp_laws : SharpLaws mblob.
  Proof.
    split.
    - intros s fmt [] b'; simpl; try done. by intros [= <-].
    - intros s s' fmt [] Hops Hq; simpl; try done. unfold quality_for.
      unfold format_quality in Hq. by rewrite Hq, Hops.
  Qed.

#[export] Instance mtext : TextLibs mblob := {
    utf8_decode b := match b with MText s => s | _ => [] end;
    utf8_encode s := MText s;
    mammoth_extractRawText b :=
      match b with
      | MDocx t => Ok (t ++ [10; 10]%N)
      | _ => Throw (LibError "Can't find end of central directory : is this a zip file ?")
      end;
    docx_toBuffer s := MDocx s
  }.

  (** Windows-1252: printable ASCII, Latin-1 from U+00A0, and the
      letters and signs of 0x80-0x9F at their Unicode code points. *)
Definition cp1252_extras : list N :=
    [338; 339; 352; 353; 376; 381; 382; 402; 710; 732; 8211; 8212; 8216; 8217; 8218; 8220; 8221;
     8222; 8224; 8225; 8226; 8230; 8240; 8249; 8250; 8364; 8482]%N.

Definition mwinansi (u : N) : bool :=
    ((32 <=? u) && (u <=? 126))%N || ((160 <=? u) && (u <=? 255))%N || existsb (N.eqb u) cp1252_extras.

#[export] Instance mdraw : PdfDraw (list mpage) mpage := {
    blank_page sz := MPage 0 sz [];
    page_size := psize;
    page_draw p t o := MPage (pid p) (psize p) (ptexts p ++ [(t, o)]);
    pdf_set_page d i p := <[i := p]> d;
    winansi := mwinansi;
    winansi_error u := "WinAnsi cannot encode the code point " +:+ num_to_string u
  }.

Lemma cp1252_extras_ge u : existsb (N.eqb u) cp1252_extras = true -> (338 <= u <= 8482)%N.
  Proof.
    intros (x & Hx & Heq)%existsb_exists. apply N.eqb_eq in Heq. subst.
    repeat (destruct Hx as [<-|Hx]; [lia|]). done.
  Qed.

#[export] Instance mdraw_laws : PdfDrawLaws mblob (list mpage) mpage.
  Proof.
    split; try done; intros u; cbn [winansi mdraw]; unfold mwinansi;
      destruct (existsb _ _) eqn:He; try apply cp1252_extras_ge in He;
      destruct (N.leb_spec 32 u), (N.leb_spec u 126), (N.leb_spec 160 u), (N.leb_spec u 255);
      cbn; intros; first [done | lia].
  Qed.

#[export] Instance msized : Sized mblob := {
    byte_length b :=
      match b with
      | MPdf ps => (1000 * N.of_nat (length ps))%N
      | MZip l => (100 * N.of_nat (length l))%N
      | MText s => N.of_nat (length s)
      | MImage _ _ _ sz => sz
      | MDocx t => (5000 + N.of_nat (length t))%N
      end
  }.
End MediaModel.

(** ** [path.extname] on a name with an extension *)

Lemma list_ascii_of_string_app x y :
  String.list_ascii_of_string (x +:+ y) = String.list_ascii_of_string x ++ String.list_ascii_of_string y.
Proof. induction x as [|c x IH]; [done|]. simpl. by rewrite IH. Qed.

Lemma length_list_ascii_of_string s : length (String.list_ascii_of_string s) = String.length s.
Proof. induction s as [|c s IH]; [done|]. simpl. by rewrite IH. Qed.

Lemma substring_0_length y : String.substring 0 (String.length y) y = y.
Proof. induction y as [|c y IH]; [done|]. simpl. by rewrite IH. Qed.

Lemma substring_app x y : String.substring (String.length x) (String.length y) (x +:+ y) = y.
Proof. induction x as [|c x IH]; [apply substring_0_length | exact IH]. Qed.

(** The scan over characters before the last dot, none a slash: the
    dot, the part and the end stay; [preDotState] becomes non-zero. *)
Lemma extname_loop_base l st :
  Forall (fun c => Ascii.eqb c "/"%char = false) l -> (startDot st <> -1)%Z -> (end_pos st <> -1)%Z ->
  exists p, extname_loop l st = mkExtState (startDot st) (startPart st) (end_pos st) (matchedSlash st) p /\
    (l <> [] -> p <> 0%Z) /\ (l = [] -> p = preDotState st).
Proof.
  revert st. induction l as [|c l IH]; intros st Hl Hd He.
  - exists (preDotState st). split; [by destruct st|]. done.
  - apply Forall_cons in Hl as [Hc Hl]. cbn [extname_loop]. rewrite Hc.
    rewrite (proj2 (Z.eqb_neq _ _) He), (proj2 (Z.eqb_neq _ _) Hd). simpl negb.
    set (st2 := if Ascii.eqb c "."%char then
                  (if negb (preDotState st =? 1)%Z
                   then mkExtState (startDot st) (startPart st) (end_pos st) (matchedSlash st) 1 else st)
                else mkExtState (startDot st) (startPart st) (end_pos st) (matchedSlash st) (-1)).
    assert (startDot st2 = startDot st /\ startPart st2 = startPart st /\ end_pos st2 = end_pos st /\
            matchedSlash st2 = matchedSlash st /\ preDotState st2 <> 0%Z) as (H1 & H2 & H3 & H4 & H5).
    { unfold st2. destruct (Ascii.eqb c "."%char); [destruct (Z.eqb_spec (preDotState st) 1); simpl|];
        split_and!; try done; lia. }
    destruct (IH st2) as (p & Hrun & Hp1 & Hp2); [done | congruence | congruence |].
    exists (if decide (l = []) then preDotState st2 else p). split.
    + rewrite Hrun, H1, H2, H3, H4. by case_decide; [rewrite Hp2|].
    + split; [|done]. intros _. case_decide; [done|]. by apply Hp1.
Qed.

(** The characters of the extension, scanned first: the first one
    marks the end. *)
Lemma extname_loop_ext_rest l rest st :
  Forall (fun c => Ascii.eqb c "."%char = false /\ Ascii.eqb c "/"%char = false) l ->
  (startDot st = -1)%Z -> (end_pos st <> -1)%Z ->
  extname_loop (l ++ rest) st = extname_loop rest st.
Proof.
  revert st. induction l as [|c l IH]; intros st Hl Hd He; [done|].
  apply Forall_cons in Hl as [[Hc1 Hc2] Hl]. cbn [extname_loop app]. rewrite Hc2, Hc1.
  rewrite (proj2 (Z.eqb_neq _ _) He), Hd. simpl. by apply IH.
Qed.

Lemma extname_loop_ext c l rest sp pre :
  Forall (fun c => Ascii.eqb c "."%char = false /\ Ascii.eqb c "/"%char = false) (c :: l) ->
  extname_loop ((c :: l) ++ rest) (mkExtState (-1) sp (-1) true pre) =
    extname_loop rest (mkExtState (-1) sp (Z.of_nat (length l + length rest) + 1) false pre).
Proof.
  intros Hl. apply Forall_cons in Hl as [[Hc1 Hc2] Hl]. cbn [extname_loop app]. rewrite Hc2, Hc1.
  simpl. rewrite length_app. apply extname_loop_ext_rest; [done | done | simpl; lia].
Qed.

(** [path.extname(base + '.' + ext)] is ['.' + ext] when [base] is
    not empty and has no slash and [ext] is not empty and has neither a
    dot nor a slash. *)
Lemma extname_app base e :
  base <> "" -> includes_char "/" base = false ->
  e <> "" -> includes_char "." e = false -> includes_char "/" e = false ->
  extname (base +:+ "." +:+ e) = "." +:+ e.
Proof.
  intros Hb Hbs He Hed Hes. unfold extname.
  rewrite !list_ascii_of_string_app. cbn [String.list_ascii_of_string].
  rewrite rev_app_distr. cbn [rev]. rewrite rev_app_distr. simpl (rev [_]).
  assert (Forall (fun c => Ascii.eqb c "."%char = false /\ Ascii.eqb c "/"%char = false)
            (rev (String.list_ascii_of_string e))) as Hel.
  { apply Forall_rev. clear He. induction e as [|c e IH]; constructor; simpl in Hed, Hes;
      apply orb_false_iff in Hed as [? ?]; apply orb_false_iff in Hes as [? ?]; auto. }
  assert (Forall (fun c => Ascii.eqb c "/"%char = false) (rev (String.list_ascii_of_string base))) as Hbl.
  { apply Forall_rev. clear Hb. induction base as [|c base IH]; constructor; simpl in Hbs;
      apply orb_false_iff in Hbs as [? ?]; auto. }
  destruct (rev (String.list_ascii_of_string e)) as [|c l] eqn:Hre.
  { destruct e; [done|]. simpl in Hre. by destruct (rev _). }
  rewrite <- app_assoc, extname_loop_ext by done.
  cbn [extname_loop Ascii.eqb]. simpl.
  replace (Z.of_nat (length l + S (length (rev (String.list_ascii_of_string base)))) + 1 =? -1)%Z
    with false by (symmetry; apply Z.eqb_neq; lia).
  simpl.
  destruct (extname_loop_base (rev (String.list_ascii_of_string base))
              (mkExtState (Z.of_nat (length (rev (String.list_ascii_of_string base)))) 0
                 (Z.of_nat (length l + S (length (rev (String.list_ascii_of_string base)))) + 1) false 0))
    as (p & Hrun & Hp & _); [done | simpl; lia | simpl; lia |].
  rewrite Hrun. cbn [startDot end_pos preDotState startPart].
  assert (rev (String.list_ascii_of_string base) <> []) as Hne.
  { destruct base; [done|]. simpl. intros H. apply app_eq_nil in H as [_ ?]. done. }
  specialize (Hp Hne). rewrite length_rev, length_list_ascii_of_string in *.
  assert (length l = pred (String.length e)) as Hl.
  { assert (length (rev (String.list_ascii_of_string e)) = S (length l)) as H by (by rewrite Hre).
    rewrite length_rev, length_list_ascii_of_string in H. lia. }
  destruct (Z.eqb_spec (Z.of_nat (String.length base)) (-1)); [lia|].
  destruct (Z.eqb_spec p 0); [done|]. simpl.
  destruct e as [|ce e]; [done|]. simpl in Hl.
  replace (Z.of_nat (length l + S (String.length base)) + 1 =? -1)%Z with false
    by (symmetry; apply Z.eqb_neq; lia).
  replace (Z.of_nat (String.length base) =? Z.of_nat (length l + S (String.length base)) + 1 - 1)%Z
    with false by (symmetry; apply Z.eqb_neq; lia).
  rewrite andb_false_r. simpl.
  replace (Z.to_nat (Z.of_nat (String.length base))) with (String.length base) by lia.
  replace (Z.to_nat (Z.of_nat (length l + S (String.length base)) + 1 - Z.of_nat (String.length base)))
    with (String.length ("." +:+ String ce e)) by (simpl; lia).
  apply substring_app.
Qed.

Lemma string_app_assoc x y z : (x +:+ y) +:+ z = x +:+ (y +:+ z).
Proof.
  induction x as [|c x IH]; [done|].
  change (String c ((x +:+ y) +:+ z) = String c (x +:+ (y +:+ z))). by rewrite IH.
Qed.

Lemma lower_char_idem c : lower_char (lower_char c) = lower_char c.
Proof. destruct c as [[] [] [] [] [] [] [] []]; reflexivity. Qed.

Lemma toLowerCase_idem s : toLowerCase (toLowerCase s) = toLowerCase s.
Proof.
  induction s as [|c s IH]; [done|].
  change (String (lower_char (lower_char c)) (toLowerCase (toLowerCase s)) = String (lower_char c) (toLowerCase s)).
  by rewrite lower_char_idem, IH.
Qed.

(** The extension of [base + '.' + e], as the handlers compute it. *)
Lemma file_ext_app base e :
  base <> "" -> includes_char "/" base = false ->
  e <> "" -> includes_char "." e = false -> includes_char "/" e = false ->
  file_ext (base +:+ "." +:+ e) = toLowerCase e.
Proof. intros. unfold file_ext. by rewrite extname_app. Qed.

(** A name [<prefix><now>.<ext>] the handlers make from an extension
    they computed has that extension again. *)
Lemma file_ext_output prefix now orig :
  prefix <> "" -> includes_char "/" prefix = false ->
  let ext := file_ext orig in
  ext <> "" -> includes_char "." ext = false -> includes_char "/" ext = false ->
  file_ext (prefix +:+ num_to_string now +:+ "." +:+ ext) = ext.
Proof.
  intros Hp Hps ext He Hed Hes. rewrite <- string_app_assoc, file_ext_app; try done.
  - unfold ext, file_ext. apply toLowerCase_idem.
  - by destruct prefix.
  - rewrite includes_char_app, Hps. simpl. apply digits_no_sep; [done | apply num_to_string_digits].
Qed.

(** ** The extension has neither a dot nor a slash

    Every character [path.extname] returns after its leading dot lies
    strictly between the last dot of the last part and the end of the
    path, so it is neither a dot nor a slash: the invariant of the scan
    is [ext_inv], stated on the list of characters of the path. *)

Definition clean_char (c : ascii) : bool := negb (Ascii.eqb c "."%char) && negb (Ascii.eqb c "/"%char).

Lemma get_list_ascii s m : String.get m s = String.list_ascii_of_string s !! m.
Proof. revert m. induction s as [|c s IH]; intros [|m]; simpl; auto. Qed.

Lemma includes_char_get c s :
  (forall p d, String.get p s = Some d -> Ascii.eqb d c = false) -> includes_char c s = false.
Proof.
  induction s as [|d s IH]; intros H; [done|]. simpl.
  rewrite (H 0 d eq_refl). apply IH. intros p e Hp. exact (H (S p) e Hp).
Qed.

Section ExtClean.
  Variable l : list ascii.

Definition clean_at (m : Z) : Prop := forall c, l !! Z.to_nat m = Some c -> clean_char c = true.

Definition ext_done (st : ext_state) : Prop :=
    (startDot st <> -1 ->
     0 <= startDot st < end_pos st /\ forall m, startDot st < m < end_pos st -> clean_at m)%Z.

Definition ext_inv (j : Z) (st : ext_state) : Prop :=
    ((matchedSlash st = true -> end_pos st = -1) /\
     (end_pos st <> -1 -> j <= end_pos st) /\
     (startDot st = -1 -> forall m, j <= m < end_pos st -> clean_at m) /\
     ext_done st)%Z.

Lemma extname_loop_inv pre post st :
    pre ++ post = l -> ext_inv (Z.of_nat (length pre)) st -> ext_done (extname_loop (rev pre) st).
  Proof.
    revert post st. induction pre as [|c pre IH] using rev_ind;
      intros post st Hl (H1 & H0 & H2 & H3); [done|]; unfold ext_done in *.
    rewrite rev_unit. cbn [extname_loop]. rewrite length_rev.
    rewrite length_app in H0, H2. simpl in H0, H2.
    assert (l !! length pre = Some c) as Hc
      by (rewrite <- Hl, <- app_assoc, lookup_app_r, Nat.sub_diag by lia; done).
    assert (Hcl : forall m, m = Z.of_nat (length pre) -> clean_char c = true -> clean_at m).
    { intros m -> Hcc d Hd. rewrite Nat2Z.id, Hc in Hd. by injection Hd as <-. }
    destruct (Ascii.eqb c "/"%char) eqn:Hs.
    - destruct (matchedSlash st) eqn:Hm; [|done].
      apply (IH (c :: post)); [by rewrite <- Hl, <- app_assoc|]; unfold ext_inv, ext_done in *.
      split_and!; [by intros; apply H1 | intros He; exfalso; by apply He, H1 | | done].
      intros _ m Hm'. rewrite H1 in Hm' by done. lia.
    - apply (IH (c :: post)); [by rewrite <- Hl, <- app_assoc|]; unfold ext_inv, ext_done in *.
      (* the state after [end] is set *)
      set (st1 := if (end_pos st =? -1)%Z
                  then mkExtState (startDot st) (startPart st) (Z.of_nat (length pre) + 1) false (preDotState st)
                  else st).
      assert (matchedSlash st1 = false /\ Z.of_nat (length pre) + 1 <= end_pos st1 /\ startDot st1 = startDot st /\
              (startDot st = -1 -> forall m, Z.of_nat (length pre) + 1 <= m < end_pos st1 -> clean_at m) /\
              ext_done st1)%Z as (M1 & E1 & D1 & C1 & X1).
      { unfold st1. destruct (Z.eqb_spec (end_pos st) (-1)) as [He|He].
        - split_and!; simpl; try done; try lia.
          intros Hd. exfalso. destruct (H3 Hd). lia.
        - destruct (matchedSlash st) eqn:Hm; [by specialize (H1 eq_refl)|].
          split_and!; [done | specialize (H0 He); lia | done | | exact H3].
          intros Hd m Hm'. apply H2; [done | lia]. }
      destruct (Ascii.eqb c "."%char) eqn:Hd; destruct (Z.eqb_spec (startDot st1) (-1)) as [Hd1|Hd1]; cbn [negb].
      + split_and!; simpl; [congruence | lia | intros; lia |].
        intros _. split; [lia|]. intros m Hm. apply C1; [congruence | lia].
      + destruct (negb _);
          (split_and!; simpl; [congruence | lia | intros; exfalso; lia | intros Hsd; exact (X1 Hsd)]).
      + split_and!; [congruence | lia | | intros Hsd; exact (X1 Hsd)].
        intros _ m Hm. destruct (decide (m = Z.of_nat (length pre))%Z) as [->|Hne].
        * apply Hcl; [done|]. unfold clean_char. by rewrite Hd, Hs.
        * apply C1; [congruence | lia].
      + split_and!; simpl; [congruence | lia | intros; exfalso; lia | intros Hsd; exact (X1 Hsd)].
  Qed.

Lemma extname_loop_clean :
    ext_done (extname_loop (rev l) (mkExtState (-1) 0 (-1) true 0)).
  Proof.
    apply (extname_loop_inv l []); [apply app_nil_r|].
    split_and!; simpl; [done | intros H; by exfalso | intros _ m Hm; lia | intros H; by exfalso].
  Qed.
End ExtClean.

(** Every character of [path.extname(path)] after the dot is clean. *)
Lemma extname_clean path p d : String.get (S p) (extname path) = Some d -> clean_char d = true.
Proof.
  unfold extname. pose proof (extname_loop_clean (String.list_ascii_of_string path)) as Hdone.
  set (st := extname_loop _ _) in *. intros Hget.
  destruct (_ || _ || _ || _) eqn:Hcond; [done|].
  apply orb_false_iff in Hcond as [Hcond _]. apply orb_false_iff in Hcond as [Hcond _].
  apply orb_false_iff in Hcond as [Hsd He]. apply Z.eqb_neq in Hsd, He.
  destruct (Hdone Hsd) as [Hb Hclean].
  destruct (decide (S p < Z.to_nat (end_pos st - startDot st))) as [Hlt|Hge];
    [|by rewrite String.substring_correct2 in Hget by lia].
  rewrite String.substring_correct1 in Hget by done. rewrite get_list_ascii in Hget.
  apply (Hclean (Z.of_nat (S p) + startDot st)%Z); [lia|].
  by rewrite Z2Nat.inj_add, Nat2Z.id by lia.
Qed.

Lemma lower_char_clean c : clean_char (lower_char c) = clean_char c.
Proof. destruct c as [[] [] [] [] [] [] [] []]; reflexivity. Qed.

Lemma get_string_map f s p : String.get p (string_map f s) = f <$> String.get p s.
Proof. revert p. induction s as [|c s IH]; intros [|p]; simpl; auto. Qed.

(** The extension the handlers compute has neither a dot nor a slash. *)
Lemma file_ext_clean orig :
  includes_char "." (file_ext orig) = false /\ includes_char "/" (file_ext orig) = false.
Proof.
  assert (forall p d, String.get p (file_ext orig) = Some d -> clean_char d = true) as H.
  { intros p d. unfold file_ext, toLowerCase. rewrite get_string_map.
    destruct (String.get p (slice1 (extname orig))) as [e|] eqn:He; [|done]. intros [= <-].
    rewrite lower_char_clean. destruct (extname orig) as [|x s] eqn:Hx; [done|].
    apply (extname_clean orig p). by rewrite Hx. }
  split; apply includes_char_get; intros p d Hd; specialize (H p d Hd);
    unfold clean_char in H; apply andb_true_iff in H as [H1 H2]; by apply negb_true_iff.
Qed.
