(* ===== verification/Compress.v ===== *)
(** * The [/api/compress] handler (lines 290-363 of [src/server.js])

    [compress_handler] follows the handler: the extension of the
    original name, the name [compressed-<now>.<ext>], the [mkdir] of
    [downloads], the quality of the level (the [switch]), then

    - for [jpg], [jpeg], [png], [webp]: the sharp pipeline
      [.jpeg({quality}).png({quality}).webp({quality}).toFile(out)] with
      the quality given only to the method of the file's own format
      ([undefined] to the others), the sizes of the two files, the
      unlink of the upload and the answer with the sizes;
    - for [pdf]: load, save, write, sizes, unlink, answer;
    - otherwise: 400, with the upload left in place.

    The size report uses [Math.round] and [toFixed(0)] on quotients;
    they are computed here on exact rationals (the doubles of the code
    agree except within a rounding error of a half). *)

From S2P Require Import Prelude Js PdfLib Store Media.

(** Lines 305-312: [switch (compressionLevel) { .. }]. *)
Definition quality_of (compressionLevel : option string) : Z :=
  match compressionLevel with
  | Some "low" => 90
  | Some "medium" => 75
  | Some "high" => 60
  | Some "extreme" => 40
  | _ => 75
  end.

(** A JavaScript integer printed by [toString]. *)
Definition z_to_string (z : Z) : string :=
  if (z <? 0)%Z then "-" +:+ num_to_string (Z.to_N (- z)) else num_to_string (Z.to_N z).

(** [Math.round((1 - compressedSize / originalSize) * 100)] for
    [originalSize > 0]: [floor(x + 1/2)]. *)
Definition reduction (originalSize compressedSize : N) : Z :=
  ((200 * (Z.of_N originalSize - Z.of_N compressedSize) + Z.of_N originalSize) / (2 * Z.of_N originalSize))%Z.

(** [`${reduction}`]: [NaN] for [0/0], [-Infinity] for [1 - c/0]. *)
Definition reduction_text (o c : N) : string :=
  if (o =? 0)%N then (if (c =? 0)%N then "NaN" else "-Infinity") else z_to_string (reduction o c).

(** [(size / 1024).toFixed(0)]: the nearest integer, the larger on a tie. *)
Definition kb_text (size : N) : string := num_to_string ((size + 512) / 1024)%N.

(** Lines 332 and 353. *)
Definition size_text (o c : N) : string :=
  kb_text o +:+ " KB → " +:+ kb_text c +:+ " KB (" +:+ reduction_text o c +:+ "% reduction)".

(** Lines 315-319: the pipeline for an image of extension [ext]. *)
Definition compress_sharp (ext : string) (quality : Z) (dir name : string) : sharp :=
  sharp_webp (if String.eqb ext "webp" then Some quality else None)
    (sharp_png (if String.eqb ext "png" then Some quality else None)
      (sharp_jpeg (if String.eqb ext "jpeg" || String.eqb ext "jpg" then Some quality else None)
        (sharp_of dir name))).

(** [`compressed-${Date.now()}.${ext}`] *)
Definition compressed_name (now : N) (ext : string) : string :=
  "compressed-" +:+ num_to_string now +:+ "." +:+ ext.

Section Handler.
  Context {Bytes Doc Page : Type} `{!PdfLib Bytes Doc Page, !Sharp Bytes, !Sized Bytes}.

  (** Lines 314-333: an image. *)
Definition compress_image (f : uploaded) (level : option string) (ext outputFilename : string)
    : M Bytes response :=
    let s := compress_sharp ext (quality_of level) (up_dir f) (up_name f) in
    do! sharp_toFile s "downloads" outputFilename in
    let! original := stat (up_dir f) (up_name f) in
    let! compressed := stat "downloads" outputFilename in
    let originalSize := byte_length (contents original) in
    let compressedSize := byte_length (contents compressed) in
    do! unlink (up_dir f) (up_name f) in
    st_ret (success_size outputFilename ("Compressed with " +:+ js_str level +:+ " quality")
              (size_text originalSize compressedSize)).

  (** Lines 334-354: a PDF, saved again. *)
Definition compress_pdf (f : uploaded) (outputFilename : string) : M Bytes response :=
    let! pdfBytes := readFile (up_dir f) (up_name f) in
    let! pdfDoc := st_lift (load_doc pdfBytes) in
    let compressedBytes := pdf_save pdfDoc in
    do! writeFile "downloads" outputFilename compressedBytes in
    let! original := stat (up_dir f) (up_name f) in
    let originalSize := byte_length (contents original) in
    let compressedSize := byte_length compressedBytes in
    do! unlink (up_dir f) (up_name f) in
    st_ret (success_size outputFilename "Compressed PDF" (size_text originalSize compressedSize)).

  (** The handler, lines 290-363. *)
Definition compress_handler (compressionLevel : option string) (file : option uploaded) : M Bytes response :=
    catch_500 (
      match file with
      | None => st_ret (failure 400 "No file uploaded")
      | Some f =>
          let ext := file_ext (originalname f) in
          let! now := date_now in
          let outputFilename := compressed_name now ext in
          do! mkdir "downloads" in
          if is_one_of ext ["jpg"; "jpeg"; "png"; "webp"] then compress_image f compressionLevel ext outputFilename
          else if String.eqb ext "pdf" then compress_pdf f outputFilename
          else st_ret (failure 400 "Unsupported file format for compression")
      end).
End Handler.

(** ** The pipeline *)

(** [.webp()] is called last: whatever the extension, the pipeline
    writes WebP, and only a [.webp] upload gives its quality to the
    WebP encoder. *)
Lemma compress_sharp_format ext q dir name :
  sh_format (compress_sharp ext q dir name) = Some "webp" /\
  format_quality (compress_sharp ext q dir name) "webp" = if String.eqb ext "webp" then Some q else None.
Proof. unfold compress_sharp. split; [done|]. by destruct (String.eqb ext "webp"). Qed.

Lemma compress_sharp_ops ext q dir name : sh_ops (compress_sharp ext q dir name) = [].
Proof. done. Qed.

Lemma compress_sharp_input ext q dir name : sh_input (compress_sharp ext q dir name) = (dir, name).
Proof. done. Qed.

(** ** Running the handler *)

Lemma catch_500_snd {Bytes} (m : M Bytes response) w : snd (catch_500 m w) = snd (m w).
Proof. unfold catch_500, st_catch. by destruct (m w) as [[]]. Qed.

Section Run.
  Context {Bytes Doc Page : Type} `{!PdfLib Bytes Doc Page, !Sharp Bytes, !SharpLaws Bytes, !Sized Bytes}.
  Implicit Types (w : world Bytes).

  (** The handler up to its branch on the extension. *)
Lemma compress_handler_branch level f w :
    compress_handler (Doc:=Doc) (Page:=Page) level (Some f) w =
      catch_500 (fun w0 =>
        let ext := file_ext (originalname f) in
        let outputFilename := compressed_name (clock w) ext in
        (if is_one_of ext ["jpg"; "jpeg"; "png"; "webp"] then compress_image f level ext outputFilename
         else if String.eqb ext "pdf" then compress_pdf (Doc:=Doc) (Page:=Page) f outputFilename
         else st_ret (failure 400 "Unsupported file format for compression"))
        (mkWorld (files w) ({["downloads"]} ∪ dirs w) (clock w))) w.
  Proof. done. Qed.

  (** Two pipelines that agree on what the encoder reads write the same. *)
Lemma sharp_toFile_same s s' fmt dir name w :
    sh_input s = sh_input s' -> sh_ops s = sh_ops s' ->
    sh_format s = Some fmt -> sh_format s' = Some fmt -> is_one_of fmt ["jpeg"; "png"; "webp"; "gif"] = true ->
    format_quality s fmt = format_quality s' fmt ->
    sharp_toFile s dir name w = sharp_toFile s' dir name w.
  Proof.
    intros Hin Hops Hf Hf' Hl Hq. unfold sharp_toFile. rewrite Hin.
    destruct (files w !! _); [|done]. destruct (image_format _) as [t|]; [|done].
    rewrite (output_format_forced s name t fmt), (output_format_forced s' name t fmt) by done.
    by rewrite (sharp_encode_options s s' fmt _ Hops Hq).
  Qed.

  (** The world after [compress_image] does not depend on the level,
      when the extension is not [webp]. *)
Lemma compress_image_world f l1 l2 ext name w :
    String.eqb ext "webp" = false ->
    snd (compress_image f l1 ext name w) = snd (compress_image f l2 ext name w).
  Proof.
    intros Hw. unfold compress_image, st_bind.
    rewrite (sharp_toFile_same _ (compress_sharp ext (quality_of l2) (up_dir f) (up_name f)) "webp");
      try done; [| by rewrite !(proj2 (compress_sharp_format _ _ _ _)), Hw].
    destruct (sharp_toFile _ _ _ w) as [[]]; [|done].
    destruct (stat _ _ _) as [[]]; [|done].
    destruct (stat _ _ _) as [[]]; [|done]. by destruct (unlink _ _ _) as [[]].
  Qed.
End Run.

(** ** What the handler does *)

(** [C10] Compressing a [.jpg], [.jpeg] or [.png] upload leaves the same
    files whatever the compression level: the level's quality goes to
    the JPEG or PNG options, but the last call [.webp()] makes the
    output WebP, whose quality option stays unset. *)
Theorem compress_level_ignored {Bytes Doc Page : Type}
  `{!PdfLib Bytes Doc Page, !Sharp Bytes, !SharpLaws Bytes, !Sized Bytes} l1 l2 f (w : world Bytes) :
  is_one_of (file_ext (originalname f)) ["jpg"; "jpeg"; "png"] = true ->
  snd (compress_handler (Doc:=Doc) (Page:=Page) l1 (Some f) w) =
  snd (compress_handler (Doc:=Doc) (Page:=Page) l2 (Some f) w).
Proof.
  intros Hext. apply is_one_of_spec in Hext.
  assert (is_one_of (file_ext (originalname f)) ["jpg"; "jpeg"; "png"; "webp"] = true) as Hin
    by (apply is_one_of_spec; set_solver).
  assert (String.eqb (file_ext (originalname f)) "webp" = false) as Hw
    by (apply String.eqb_neq; intros Heq; rewrite Heq in Hext; set_solver).
  rewrite !compress_handler_branch, !catch_500_snd. cbn zeta. rewrite Hin.
  by apply compress_image_world.
Qed.

(** [C9] Compressing an image upload of an accepted extension, when the
    encoder succeeds: the answer reports both sizes, the upload is
    removed, and the file written under the name [compressed-<now>.<ext>]
    is a WebP image, whatever [<ext>] says. *)
Theorem compress_image_webp {Bytes Doc Page : Type}
  `{!PdfLib Bytes Doc Page, !Sharp Bytes, !SharpLaws Bytes, !Sized Bytes} level f uf b (w : world Bytes) :
  let ext := file_ext (originalname f) in
  let name := compressed_name (clock w) ext in
  is_one_of ext ["jpg"; "jpeg"; "png"; "webp"] = true ->
  files w !! (up_dir f, up_name f) = Some uf -> is_Some (image_format (contents uf)) ->
  (up_dir f, up_name f) <> ("downloads", name) ->
  sharp_encode (compress_sharp ext (quality_of level) (up_dir f) (up_name f)) "webp" (contents uf) = Ok b ->
  compress_handler (Doc:=Doc) (Page:=Page) level (Some f) w =
    (Ok (success_size name ("Compressed with " +:+ js_str level +:+ " quality")
           (size_text (byte_length (contents uf)) (byte_length b))),
     mkWorld (delete (up_dir f, up_name f) (<[("downloads", name) := mkFile b (clock w)]> (files w)))
             ({["downloads"]} ∪ dirs w) (clock w)) /\
  image_format b = Some "webp".
Proof.
  intros ext name Hin Huf [t Ht] Hne Hb. split; [|by eapply sharp_encode_format].
  rewrite compress_handler_branch. apply catch_500_ok. cbn zeta. fold ext name. rewrite Hin.
  unfold compress_image, st_bind.
  rewrite (sharp_toFile_ok _ _ _ _ uf t "webp" b); [| done | done | by apply output_format_forced | done
                                                   | cbn; set_solver].
  rewrite (stat_ok _ _ _ uf) by (cbn; by rewrite lookup_insert_ne by congruence).
  rewrite (stat_ok _ _ _ (mkFile b (clock w))) by (cbn; apply lookup_insert_eq).
  unfold unlink. cbn [files with_files]. rewrite lookup_insert_ne by congruence. rewrite Huf. done.
Qed.

(** An upload whose extension is neither an accepted image nor
    [pdf] is answered 400 after [downloads] was created, and the upload
    stays in [uploads] (until the sweep). *)
Theorem compress_unsupported {Bytes Doc Page : Type}
  `{!PdfLib Bytes Doc Page, !Sharp Bytes, !Sized Bytes} level f (w : world Bytes) :
  is_one_of (file_ext (originalname f)) ["jpg"; "jpeg"; "png"; "webp"] = false ->
  file_ext (originalname f) <> "pdf" ->
  compress_handler (Doc:=Doc) (Page:=Page) level (Some f) w =
    (Ok (failure 400 "Unsupported file format for compression"),
     mkWorld (files w) ({["downloads"]} ∪ dirs w) (clock w)).
Proof.
  intros Hin Hpdf. unfold compress_handler. apply catch_500_ok. cbn zeta.
  unfold st_bind. rewrite date_now_run. unfold mkdir. rewrite Hin.
  by destruct (String.eqb_spec (file_ext (originalname f)) "pdf").
Qed.

(** [C34] The reduction the answer reports is a percentage between 0 and
    100 when the output is not larger than the input, and negative once
    the output is more than half a percent larger. *)
Theorem reduction_bounds (o c : N) :
  (0 < o)%N ->
  ((c <= o)%N -> (0 <= reduction o c <= 100)%Z) /\
  ((201 * o < 200 * c)%N -> (reduction o c < 0)%Z).
Proof.
  intros Ho. unfold reduction. split.
  - intros Hc. split.
    + apply Z.div_pos; lia.
    + enough (((200 * (Z.of_N o - Z.of_N c) + Z.of_N o) / (2 * Z.of_N o)) < 101)%Z by lia.
      apply Z.div_lt_upper_bound; lia.
  - intros Hc. apply Z.div_lt_upper_bound; lia.
Qed.

(** ** Witnesses *)

Import MediaModel.

(** A photo [photo.JPG] uploaded at instant 7, a text file, and the
    world at instant 9. *)
Definition up_jpg : uploaded := mkUploaded "uploads" "7-photo.JPG" "photo.JPG".
Definition up_txt : uploaded := mkUploaded "uploads" "7-notes.txt" "notes.txt".
Definition jpg_file : file mblob := mkFile (MImage "jpeg" None [] 200000) 7.
Definition w_img : world mblob :=
  mkWorld (<[("uploads", "7-photo.JPG") := jpg_file]> (<[("uploads", "7-notes.txt") := mkFile (MText (js_text "hi")) 7]> ∅))
          {["uploads"]} 9.

Lemma compress_level_ignored_witness :
  snd (compress_handler (Doc:=list mpage) (Page:=mpage) (Some "extreme") (Some up_jpg) w_img) =
  snd (compress_handler (Doc:=list mpage) (Page:=mpage) (Some "low") (Some up_jpg) w_img).
Proof. apply compress_level_ignored. vm_compute. reflexivity. Defined.

Lemma compress_image_webp_witness :
  exists r w', compress_handler (Doc:=list mpage) (Page:=mpage) (Some "extreme") (Some up_jpg) w_img = (Ok r, w') /\
    status r = 200%Z /\ image_format (MImage "webp" (Some 80%Z) [] 160000) = Some "webp".
Proof.
  destruct (compress_image_webp (Doc:=list mpage) (Page:=mpage) (Some "extreme") up_jpg jpg_file
              (MImage "webp" (Some 80%Z) [] 160000) w_img) as [H Hfmt];
    [vm_compute; reflexivity | vm_compute; reflexivity | by eexists | by_eval | vm_compute; reflexivity |].
  eexists _, _. split; [exact H|]. split; [reflexivity | exact Hfmt].
Defined.

Lemma compress_unsupported_witness :
  compress_handler (Doc:=list mpage) (Page:=mpage) None (Some up_txt) w_img =
    (Ok (failure 400 "Unsupported file format for compression"),
     mkWorld (files w_img) ({["downloads"]} ∪ dirs w_img) (clock w_img)).
Proof. apply compress_unsupported; [vm_compute; reflexivity | by_eval]. Defined.

Lemma reduction_bounds_witness : (reduction 1000 1100 < 0)%Z /\ (0 <= reduction 1000 400 <= 100)%Z.
Proof.
  split; [apply (proj2 (reduction_bounds 1000 1100 ltac:(lia))); lia
         | apply (proj1 (reduction_bounds 1000 400 ltac:(lia))); lia].
Defined.
