(* ===== verification/Security.v ===== *)
(** * The [/api/security] handler (lines 366-417 of [src/server.js])

    [security_handler] follows the handler: read and load the upload,
    the name [<securityAction>-<now>.pdf], then

    - [encrypt]: 400, the upload left in place;
    - [watermark] with a non-empty text: the size of the first page,
      the text drawn on every page at [(width/2 - 100, height/2)] of
      that first page, size 48, opacity 0.2, the document saved into
      [downloads] (which the handler does not create); [drawText]
      throws, and the handler answers 500, when the text holds a
      character the standard font's WinAnsi encoding lacks;
    - every other action, or [watermark] without text: nothing;

    then, for all but [encrypt], the unlink of the upload and a success
    answer naming the output file, written or not.

    The page objects of [pdfDoc.getPages()] belong to the document:
    [pages.forEach(page => page.drawText(..))] changes the document's
    own pages ([draw_all] sets page [i] of the document). *)

From Stdlib Require Import QArith.
From S2P Require Import Prelude Js PdfLib Store Media.

(** [`${securityAction}-${Date.now()}.pdf`] *)
Definition security_name (securityAction : option string) (now : N) : string :=
  js_str securityAction +:+ "-" +:+ num_to_string now +:+ ".pdf".

(** The options of the watermark, from the size of the first page. *)
Definition watermark_opts (size : Q * Q) : draw_opts :=
  mkDraw (size.1 / 2 - 100) (size.2 / 2) 48 (Some (1 # 5)).

Section Handler.
  Context {Bytes Doc Page : Type} `{!PdfLib Bytes Doc Page, !PdfDraw Doc Page}.

  (** [pages.forEach(page => page.drawText(text, opts))]: page [i] of the
      array is page [i] of the document; the first [drawText] that
      throws ends the loop. *)
Fixpoint draw_all (d : Doc) (i : nat) (pages : list Page) (text : jstr) (o : draw_opts)
      : outcome js_error Doc :=
    match pages with
    | [] => Ok d
    | page :: rest =>
        match draw_text page text o with
        | Ok page' => draw_all (pdf_set_page d i page') (S i) rest text o
        | Throw e => Throw e
        end
    end.

  (** [pages[0].getSize()]: [undefined.getSize] throws on no page. *)
Definition first_page (pages : list Page) : outcome js_error Page :=
    match pages with
    | p :: _ => Ok p
    | [] => Throw (TypeError "Cannot read properties of undefined (reading 'getSize')")
    end.

  (** Lines 387-401. *)
Definition watermark (pdfDoc : Doc) (text : jstr) (outputFilename : string) : M Bytes unit :=
    let pages := pdf_pages pdfDoc in
    let! first := st_lift (first_page pages) in
    let! doc' := st_lift (draw_all pdfDoc 0 pages text (watermark_opts (page_size first))) in
    writeFile "downloads" outputFilename (pdf_save doc').

  (** The handler, lines 366-417. *)
Definition security_handler (securityAction password : option string) (watermarkText : option jstr)
    (file : option uploaded) : M Bytes response :=
    catch_500 (
      match file with
      | None => st_ret (failure 400 "No file uploaded")
      | Some f =>
          let! pdfBytes := readFile (up_dir f) (up_name f) in
          let! pdfDoc := st_lift (load_doc pdfBytes) in
          let! now := date_now in
          let outputFilename := security_name securityAction now in
          if field_is securityAction "encrypt" then
            st_ret (failure 400 "PDF encryption requires additional setup with qpdf or similar tools")
          else
            do! (if field_is securityAction "watermark" && truthy_text watermarkText
                 then watermark pdfDoc (default [] watermarkText) outputFilename
                 else st_ret tt) in
            do! unlink (up_dir f) (up_name f) in
            st_ret (success outputFilename (js_str securityAction +:+ " applied successfully"))
      end).
End Handler.

(** ** Running the handler *)

Section Run.
  Context {Bytes Doc Page : Type}
    `{!PdfLib Bytes Doc Page, !PdfLibLaws Bytes Doc Page, !PdfDraw Doc Page, !PdfDrawLaws Bytes Doc Page}.
  Implicit Types (w : world Bytes).

  (** Drawing a safe text on the pages [ps] captured at [i..] of the
      document replaces them with the drawn pages. *)
Lemma draw_all_app d pre ps t o :
    forallb text_safe t = true -> pdf_pages d = pre ++ ps ->
    exists d', draw_all d (length pre) ps t o = Ok d' /\
      pdf_pages d' = pre ++ map (fun p => page_draw p t o) ps.
  Proof.
    intros Ht. revert d pre. induction ps as [|p ps IH]; intros d pre Hd.
    { exists d. by rewrite app_nil_r in *. }
    cbn [draw_all map]. rewrite draw_text_safe by done.
    replace (S (length pre)) with (length (pre ++ [page_draw p t o])) by (rewrite length_app; simpl; lia).
    replace (pre ++ page_draw p t o :: map (fun p => page_draw p t o) ps)
      with ((pre ++ [page_draw p t o]) ++ map (fun p => page_draw p t o) ps) by (by rewrite <- app_assoc).
    apply IH. rewrite pdf_pages_set_page, Hd, <- (Nat.add_0_r (length pre)), insert_app_r. simpl. by rewrite <- app_assoc.
  Qed.

Lemma draw_all_pages d t o :
    forallb text_safe t = true ->
    exists d', draw_all d 0 (pdf_pages d) t o = Ok d' /\ pdf_pages d' = map (fun p => page_draw p t o) (pdf_pages d).
  Proof. intros Ht. by apply (draw_all_app d []). Qed.

  (** A text [drawText] refuses stops the loop at the first page. *)
Lemma draw_all_unsafe d i p ps t o :
    existsb text_unsafe t = true -> exists msg, draw_all d i (p :: ps) t o = Throw (LibError msg).
  Proof.
    intros Ht. destruct (draw_text_unsafe p t o Ht) as [msg Hm]. exists msg. cbn [draw_all]. by rewrite Hm.
  Qed.

  (** The handler once the upload is read and loaded. *)
Lemma security_handler_loaded action password text f uf (d : Doc) w :
    files w !! (up_dir f, up_name f) = Some uf -> load_doc (contents uf) = Ok d ->
    security_handler action password text (Some f) w =
      catch_500 (fun w0 =>
        (if field_is action "encrypt" then
           st_ret (failure 400 "PDF encryption requires additional setup with qpdf or similar tools")
         else
           do! (if field_is action "watermark" && truthy_text text
                then watermark d (default [] text) (security_name action (clock w))
                else st_ret tt) in
           do! unlink (up_dir f) (up_name f) in
           st_ret (success (security_name action (clock w)) (js_str action +:+ " applied successfully"))) w0) w.
  Proof.
    intros Hf Hd. unfold security_handler, catch_500, st_catch, st_bind at 1.
    rewrite (readFile_ok _ _ _ _ Hf). unfold st_bind at 1, st_lift. rewrite Hd.
    unfold st_bind at 1. by rewrite date_now_run.
  Qed.

  (** The watermark branch, on a document whose first page is [p0]. *)
Lemma security_watermark_branch password t f uf (d : Doc) p0 ps w :
    files w !! (up_dir f, up_name f) = Some uf -> load_doc (contents uf) = Ok d ->
    pdf_pages d = p0 :: ps -> t <> [] ->
    security_handler (Some "watermark") password (Some t) (Some f) w =
      catch_500 (fun w0 =>
        (do! (let! doc' := st_lift (draw_all d 0 (pdf_pages d) t (watermark_opts (page_size p0))) in
              writeFile "downloads" (security_name (Some "watermark") (clock w)) (pdf_save doc')) in
         do! unlink (up_dir f) (up_name f) in
         st_ret (success (security_name (Some "watermark") (clock w)) "watermark applied successfully")) w0) w.
  Proof.
    intros Hf Hd Hp Ht. rewrite (security_handler_loaded _ _ _ _ _ _ _ Hf Hd).
    change (field_is (Some "watermark") "encrypt") with false.
    change (field_is (Some "watermark") "watermark") with true.
    destruct t as [|u t]; [done|]. cbn [andb truthy_text default].
    unfold watermark. rewrite Hp. reflexivity.
  Qed.
End Run.

(** ** What the handler does *)

(** [C12] A watermark request on a PDF with pages, with [downloads]
    present, whose text [drawText] can encode (printable ASCII and
    Latin-1, line breaks and tabs): every page of the saved document is
    the page with the text drawn at [(w/2 - 100, h/2)] of the first
    page's size [(w, h)], size 48, opacity 0.2; the document is written
    as [watermark-<now>.pdf], the upload is removed and the answer names
    the file. *)
Theorem security_watermark_ok {Bytes Doc Page : Type}
  `{!PdfLib Bytes Doc Page, !PdfLibLaws Bytes Doc Page, !PdfDraw Doc Page, !PdfDrawLaws Bytes Doc Page}
  password t f uf (d : Doc) p0 ps (w : world Bytes) :
  let name := security_name (Some "watermark") (clock w) in
  files w !! (up_dir f, up_name f) = Some uf -> load_doc (contents uf) = Ok d ->
  pdf_pages d = p0 :: ps -> t <> [] -> forallb text_safe t = true -> "downloads" ∈ dirs w ->
  (up_dir f, up_name f) <> ("downloads", name) ->
  exists d',
    security_handler (Some "watermark") password (Some t) (Some f) w =
      (Ok (success name "watermark applied successfully"),
       mkWorld (delete (up_dir f, up_name f) (<[("downloads", name) := mkFile (pdf_save d') (clock w)]> (files w)))
               (dirs w) (clock w)) /\
    pdf_pages d' = map (fun p => page_draw p t (watermark_opts (page_size p0))) (pdf_pages d).
Proof.
  intros name Hf Hd Hp Ht Hsafe Hdl Hne.
  destruct (draw_all_pages d t (watermark_opts (page_size p0)) Hsafe) as (d' & Hdraw & Hpages).
  exists d'. split; [|done].
  rewrite (security_watermark_branch _ _ _ _ _ _ _ _ Hf Hd Hp Ht). apply catch_500_ok.
  unfold st_bind, st_lift. rewrite Hdraw, writeFile_ok by done.
  unfold unlink. cbn [files with_files].
  rewrite lookup_insert_ne by (intros Heq; apply Hne; rewrite <- Heq; reflexivity). by rewrite Hf.
Qed.

(** [C13] A watermark text with a character Helvetica's WinAnsi encoding
    cannot encode (a control character, or a character outside the Basic
    Multilingual Plane such as an emoji) makes [drawText] throw on the
    first page: the answer is 500, no file is written and the upload
    stays. *)
Theorem security_watermark_unencodable {Bytes Doc Page : Type}
  `{!PdfLib Bytes Doc Page, !PdfLibLaws Bytes Doc Page, !PdfDraw Doc Page, !PdfDrawLaws Bytes Doc Page}
  password t f uf (d : Doc) p0 ps (w : world Bytes) :
  files w !! (up_dir f, up_name f) = Some uf -> load_doc (contents uf) = Ok d ->
  pdf_pages d = p0 :: ps -> existsb text_unsafe t = true ->
  exists msg, security_handler (Some "watermark") password (Some t) (Some f) w = (Ok (failure 500 msg), w).
Proof.
  intros Hf Hd Hp Hu. assert (t <> []) as Ht by (by intros ->).
  destruct (draw_all_unsafe d 0 p0 ps t (watermark_opts (page_size p0)) Hu) as [msg Hm].
  exists msg. rewrite (security_watermark_branch _ _ _ _ _ _ _ _ Hf Hd Hp Ht).
  apply (catch_500_throw _ _ (LibError msg)). unfold st_bind, st_lift. by rewrite Hp, Hm.
Qed.

(** [C11] Any action but [encrypt], other than a watermark with a text
    (an unknown action, or [watermark] with an empty text), answers
    success with a download URL, but writes no file: the only change is
    the removal of the upload, so the URL names a file that does not
    exist (unless an earlier request wrote it). *)
Theorem security_no_output {Bytes Doc Page : Type}
  `{!PdfLib Bytes Doc Page, !PdfLibLaws Bytes Doc Page, !PdfDraw Doc Page, !PdfDrawLaws Bytes Doc Page}
  action password text f uf (d : Doc) (w : world Bytes) :
  files w !! (up_dir f, up_name f) = Some uf -> load_doc (contents uf) = Ok d ->
  field_is action "encrypt" = false -> field_is action "watermark" && truthy_text text = false ->
  security_handler action password text (Some f) w =
    (Ok (success (security_name action (clock w)) (js_str action +:+ " applied successfully")),
     with_files w (delete (up_dir f, up_name f) (files w))).
Proof.
  intros Hf Hd Henc Hwm.
  rewrite (security_handler_loaded _ _ _ _ _ _ _ Hf Hd). apply catch_500_ok.
  rewrite Henc, Hwm. unfold st_bind, st_ret, unlink. by rewrite Hf.
Qed.

(** [C30] A watermark request on a PDF without pages reads [pages[0]] as
    [undefined]: the answer is 500 and nothing changes, the upload
    included. *)
Theorem security_empty_document {Bytes Doc Page : Type}
  `{!PdfLib Bytes Doc Page, !PdfLibLaws Bytes Doc Page, !PdfDraw Doc Page, !PdfDrawLaws Bytes Doc Page}
  password text f uf (d : Doc) (w : world Bytes) :
  files w !! (up_dir f, up_name f) = Some uf -> load_doc (contents uf) = Ok d ->
  pdf_pages d = [] -> truthy_text text = true ->
  security_handler (Some "watermark") password text (Some f) w =
    (Ok (failure 500 "Cannot read properties of undefined (reading 'getSize')"), w).
Proof.
  intros Hf Hd Hp Ht.
  rewrite (security_handler_loaded _ _ _ _ _ _ _ Hf Hd).
  apply (catch_500_throw _ _ (TypeError "Cannot read properties of undefined (reading 'getSize')")).
  change (field_is (Some "watermark") "encrypt") with false.
  change (field_is (Some "watermark") "watermark") with true. rewrite Ht. cbn [andb].
  unfold watermark, st_bind, st_lift. by rewrite Hp.
Qed.

(** [C29] The handler never creates [downloads]: a watermark request
    with a text [drawText] encodes, on a server where no other endpoint
    created [downloads], fails with ENOENT, and nothing changes. *)
Theorem security_no_downloads_dir {Bytes Doc Page : Type}
  `{!PdfLib Bytes Doc Page, !PdfLibLaws Bytes Doc Page, !PdfDraw Doc Page, !PdfDrawLaws Bytes Doc Page}
  password t f uf (d : Doc) p0 ps (w : world Bytes) :
  files w !! (up_dir f, up_name f) = Some uf -> load_doc (contents uf) = Ok d ->
  pdf_pages d = p0 :: ps -> t <> [] -> forallb text_safe t = true -> "downloads" ∉ dirs w ->
  security_handler (Some "watermark") password (Some t) (Some f) w =
    (Ok (failure 500 (error_message (ENOENT "open" (path_join "downloads" (security_name (Some "watermark") (clock w)))))), w).
Proof.
  intros Hf Hd Hp Ht Hsafe Hdl.
  destruct (draw_all_pages d t (watermark_opts (page_size p0)) Hsafe) as (d' & Hdraw & _).
  rewrite (security_watermark_branch _ _ _ _ _ _ _ _ Hf Hd Hp Ht). apply catch_500_throw.
  unfold st_bind, st_lift. rewrite Hdraw. by rewrite writeFile_no_dir.
Qed.

(** ** Witnesses *)

Import MediaModel.

Definition letter : Q * Q := (612 # 1, 792 # 1)%Q.
Definition doc_pages : list mpage := [MPage 1 letter []; MPage 2 letter []].
Definition doc_file : file mblob := mkFile (MPdf doc_pages) 7.
Definition empty_file : file mblob := mkFile (MPdf []) 7.
Definition up_doc : uploaded := mkUploaded "uploads" "7-doc.pdf" "doc.pdf".
Definition up_empty : uploaded := mkUploaded "uploads" "7-empty.pdf" "empty.pdf".

(** Two uploads at instant 7; at instant 9, with and without [downloads]. *)
Definition sec_files : gmap (string * string) (file mblob) :=
  <[("uploads", "7-doc.pdf") := doc_file]> (<[("uploads", "7-empty.pdf") := empty_file]> ∅).
Definition w_sec : world mblob := mkWorld sec_files {["uploads"; "downloads"]} 9.
Definition w_sec_nodl : world mblob := mkWorld sec_files {["uploads"]} 9.

Definition draft : jstr := js_text "DRAFT".

(** ["DRAFT 😀"]: the emoji is the surrogate pair D83D DE00. *)
Definition draft_emoji : jstr := js_text "DRAFT " ++ [55357; 56832]%N.

Lemma security_watermark_ok_witness :
  exists r w', security_handler (Some "watermark") None (Some draft) (Some up_doc) w_sec = (Ok r, w') /\
    status r = 200%Z.
Proof.
  destruct (security_watermark_ok None draft up_doc doc_file doc_pages (MPage 1 letter [])
              [MPage 2 letter []] w_sec) as (d' & H & _);
    [vm_compute; reflexivity | reflexivity | reflexivity | by_eval | reflexivity | by_eval | by_eval |].
  eexists _, _. split; [exact H | reflexivity].
Defined.

Lemma security_watermark_unencodable_witness :
  exists msg, security_handler (Some "watermark") None (Some draft_emoji) (Some up_doc) w_sec =
    (Ok (failure 500 msg), w_sec).
Proof.
  apply (security_watermark_unencodable None draft_emoji up_doc doc_file doc_pages (MPage 1 letter [])
           [MPage 2 letter []]); [vm_compute; reflexivity | reflexivity | reflexivity | reflexivity].
Defined.

Lemma security_no_output_witness :
  security_handler (Some "protect") None None (Some up_doc) w_sec =
    (Ok (success "protect-9.pdf" "protect applied successfully"),
     with_files w_sec (delete ("uploads", "7-doc.pdf") (files w_sec))).
Proof.
  apply (security_no_output (Some "protect") None None up_doc doc_file doc_pages w_sec);
    [vm_compute; reflexivity | reflexivity | reflexivity | reflexivity].
Defined.

Lemma security_empty_document_witness :
  security_handler (Some "watermark") None (Some draft) (Some up_empty) w_sec =
    (Ok (failure 500 "Cannot read properties of undefined (reading 'getSize')"), w_sec).
Proof.
  apply (security_empty_document None (Some draft) up_empty empty_file []);
    [vm_compute; reflexivity | reflexivity | reflexivity | reflexivity].
Defined.

Lemma security_no_downloads_dir_witness :
  security_handler (Some "watermark") None (Some draft) (Some up_doc) w_sec_nodl =
    (Ok (failure 500 (error_message (ENOENT "open" (path_join "downloads" "watermark-9.pdf")))), w_sec_nodl).
Proof.
  apply (security_no_downloads_dir None draft up_doc doc_file doc_pages (MPage 1 letter [])
           [MPage 2 letter []]);
    [vm_compute; reflexivity | reflexivity | reflexivity | by_eval | reflexivity | by_eval].
Defined.
