(* ===== verification/Convert.v ===== *)
(** * The [/api/convert] handler (lines 62-151 of [src/server.js])

    [convert_handler] follows the handler: the name
    [converted-<now>.<toFormat>], the [mkdir] of [downloads], the
    extension of the original name, then the first branch whose test
    holds:

    - image to image ([jpg], [jpeg], [png], [webp], [gif], [bmp] both
      sides): sharp's [toFormat] ([jpg] renamed [jpeg]) and [toFile];
    - [pdf] to [jpg] or [png]: 400;
    - [txt] to [pdf]: a new document with one 600x800 page and the
      first 500 UTF-16 units of the decoded text drawn at (50, 750),
      size 12 ([text_pdf]), which throws (a 500) when one of them is
      outside WinAnsi;
    - [docx] to [txt]: mammoth's raw text;
    - [txt] to [docx]: a docx document of one paragraph;
    - otherwise: 400;

    then, for the conversions, the unlink of the upload and the answer
    [Converted to <TOFORMAT>].  The 400 answers leave the upload in
    place. *)

From Stdlib Require Import QArith.
From S2P Require Import Prelude Js PdfLib Store Media.

(** [['jpg', 'jpeg', 'png', 'webp', 'gif', 'bmp']] *)
Definition image_exts : list string := ["jpg"; "jpeg"; "png"; "webp"; "gif"; "bmp"].

(** [list.includes(field)]: an absent field ([undefined]) is in no list
    of strings. *)
Definition field_in (o : option string) (l : list string) : bool :=
  match o with Some s => is_one_of s l | None => false end.

(** [`converted-${Date.now()}.${toFormat}`] *)
Definition converted_name (now : N) (toFormat : option string) : string :=
  "converted-" +:+ num_to_string now +:+ "." +:+ js_str toFormat.

(** [toFormat === 'jpg' ? 'jpeg' : toFormat] *)
Definition sharp_target (toFormat : string) : string :=
  if String.eqb toFormat "jpg" then "jpeg" else toFormat.

(** The options of [page.drawText(content.slice(0, 500), {x: 50, y: 750, size: 12})]. *)
Definition text_opts : draw_opts := mkDraw (50 # 1) (750 # 1) 12 None.

(** The kind of conversion the tests of lines 80-135 select. *)
Inductive conversion : Type :=
| ImageToImage | PdfToImage | TxtToPdf | DocxToTxt | TxtToDocx | Unsupported.

(** Lines 80, 89, 94, 110, 115, in order. *)
Definition conversion_of (fromExt : string) (toFormat : option string) : conversion :=
  if is_one_of fromExt image_exts && field_in toFormat image_exts then ImageToImage
  else if String.eqb fromExt "pdf" && field_in toFormat ["jpg"; "png"] then PdfToImage
  else if String.eqb fromExt "txt" && field_is toFormat "pdf" then TxtToPdf
  else if String.eqb fromExt "docx" && field_is toFormat "txt" then DocxToTxt
  else if String.eqb fromExt "txt" && field_is toFormat "docx" then TxtToDocx
  else Unsupported.

Section Handler.
  Context {Bytes Doc Page : Type}
    `{!PdfLib Bytes Doc Page, !PdfDraw Doc Page, !Sharp Bytes, !TextLibs Bytes}.

  (** Lines 95-106: the document of a text; [addPage] returns the page
      object of the document, on which [drawText] then draws the first
      500 code units of the text, or throws. *)
Definition text_pdf (content : jstr) : outcome js_error Doc :=
    let pdfDoc := pdf_create in
    let page := blank_page (600 # 1, 800 # 1)%Q in
    let pdfDoc := pdf_add_page pdfDoc page in
    match draw_text page (firstn 500 content) text_opts with
    | Ok page' => Ok (pdf_set_page pdfDoc (pred (length (pdf_pages pdfDoc))) page')
    | Throw e => Throw e
    end.

  (** The output of a conversion, written into [downloads]. *)
Definition convert_output (c : conversion) (f : uploaded) (toFormat : string) (outputFilename : string)
    : M Bytes unit :=
    match c with
    | ImageToImage =>
        let! s := st_lift (sharp_toFormat (sharp_target toFormat) (sharp_of (up_dir f) (up_name f))) in
        sharp_toFile s "downloads" outputFilename
    | TxtToPdf =>
        let! content := readFile (up_dir f) (up_name f) in
        let! pdfDoc := st_lift (text_pdf (utf8_decode content)) in
        writeFile "downloads" outputFilename (pdf_save pdfDoc)
    | DocxToTxt =>
        let! docx := readFile (up_dir f) (up_name f) in
        let! text := st_lift (mammoth_extractRawText docx) in
        writeFile "downloads" outputFilename (utf8_encode text)
    | TxtToDocx =>
        let! content := readFile (up_dir f) (up_name f) in
        writeFile "downloads" outputFilename (docx_toBuffer (utf8_decode content))
    | _ => st_ret tt
    end.

  (** The handler, lines 62-151. *)
Definition convert_handler (toFormat : option string) (file : option uploaded) : M Bytes response :=
    catch_500 (
      match file with
      | None => st_ret (failure 400 "No file uploaded")
      | Some f =>
          let! now := date_now in
          let outputFilename := converted_name now toFormat in
          do! mkdir "downloads" in
          let fromExt := file_ext (originalname f) in
          match conversion_of fromExt toFormat with
          | PdfToImage => st_ret (failure 400 "PDF to image conversion requires additional setup")
          | Unsupported =>
              st_ret (failure 400 ("Conversion from " +:+ fromExt +:+ " to " +:+ js_str toFormat +:+ " not supported"))
          | c =>
              do! convert_output c f (js_str toFormat) outputFilename in
              do! unlink (up_dir f) (up_name f) in
              st_ret (success outputFilename ("Converted to " +:+ toUpperCase (js_str toFormat)))
          end
      end).
End Handler.

(** ** Running the handler *)

Section Run.
  Context {Bytes Doc Page : Type}
    `{!PdfLib Bytes Doc Page, !PdfLibLaws Bytes Doc Page, !PdfDraw Doc Page, !PdfDrawLaws Bytes Doc Page,
      !Sharp Bytes, !SharpLaws Bytes, !TextLibs Bytes}.
  Implicit Types (w : world Bytes).

  (** The handler once [downloads] is created, on the conversion chosen. *)
Lemma convert_handler_branch toFormat f w :
    convert_handler (Doc:=Doc) (Page:=Page) toFormat (Some f) w =
      catch_500 (fun w0 =>
        let outputFilename := converted_name (clock w) toFormat in
        let fromExt := file_ext (originalname f) in
        match conversion_of fromExt toFormat with
        | PdfToImage => st_ret (failure 400 "PDF to image conversion requires additional setup")
        | Unsupported =>
            st_ret (failure 400 ("Conversion from " +:+ fromExt +:+ " to " +:+ js_str toFormat +:+ " not supported"))
        | c =>
            do! convert_output (Doc:=Doc) (Page:=Page) c f (js_str toFormat) outputFilename in
            do! unlink (up_dir f) (up_name f) in
            st_ret (success outputFilename ("Converted to " +:+ toUpperCase (js_str toFormat)))
        end (mkWorld (files w) ({["downloads"]} ∪ dirs w) (clock w))) w.
  Proof. done. Qed.

  (** The document of a text whose first 500 code units [drawText]
      encodes: one blank 600x800 page with them drawn on it. *)
Lemma text_pdf_safe content :
    forallb text_safe (firstn 500 content) = true ->
    exists d, text_pdf (Doc:=Doc) content = Ok d /\
      pdf_pages d = [page_draw (blank_page (600 # 1, 800 # 1)%Q) (firstn 500 content) text_opts].
  Proof.
    intros Hs. unfold text_pdf. rewrite draw_text_safe by done. eexists. split; [done|].
    by autorewrite with pdfrw.
  Qed.

  (** Reading a text file that exists. *)
Lemma txt_read f uf w :
    files w !! (up_dir f, up_name f) = Some uf ->
    readFile (Bytes:=Bytes) (up_dir f) (up_name f) (mkWorld (files w) ({["downloads"]} ∪ dirs w) (clock w)) =
      (Ok (contents uf), mkWorld (files w) ({["downloads"]} ∪ dirs w) (clock w)).
  Proof. intros Huf. by apply readFile_ok. Qed.

  (** A conversion that wrote [b]: the upload goes, the answer names the file. *)
Lemma convert_finish c f toFormat w b :
    let name := converted_name (clock w) toFormat in
    c <> PdfToImage -> c <> Unsupported -> conversion_of (file_ext (originalname f)) toFormat = c ->
    is_Some (files w !! (up_dir f, up_name f)) -> (up_dir f, up_name f) <> ("downloads", name) ->
    convert_output (Doc:=Doc) (Page:=Page) c f (js_str toFormat) name
      (mkWorld (files w) ({["downloads"]} ∪ dirs w) (clock w)) =
      (Ok tt, mkWorld (<[("downloads", name) := mkFile b (clock w)]> (files w)) ({["downloads"]} ∪ dirs w) (clock w)) ->
    convert_handler (Doc:=Doc) (Page:=Page) toFormat (Some f) w =
      (Ok (success name ("Converted to " +:+ toUpperCase (js_str toFormat))),
       mkWorld (delete (up_dir f, up_name f) (<[("downloads", name) := mkFile b (clock w)]> (files w)))
               ({["downloads"]} ∪ dirs w) (clock w)).
  Proof.
    intros name Hp Hu Hc [uf Huf] Hne Hout. rewrite convert_handler_branch. apply catch_500_ok. cbn zeta.
    rewrite Hc. fold name.
    assert (forall k : M Bytes response,
              st_bind (convert_output (Doc:=Doc) (Page:=Page) c f (js_str toFormat) name) (fun _ => k)
                (mkWorld (files w) ({["downloads"]} ∪ dirs w) (clock w)) =
              k (mkWorld (<[("downloads", name) := mkFile b (clock w)]> (files w)) ({["downloads"]} ∪ dirs w) (clock w)))
      as Hk by (intros k; unfold st_bind; by rewrite Hout).
    destruct c; try done; rewrite Hk; unfold st_bind, unlink; cbn [files];
      rewrite lookup_insert_ne by congruence; by rewrite Huf.
  Qed.
  (** A target of the image list that [toFormat] accepts forces a
      format [toFile] writes. *)
Lemma toFormat_forced t s0 s fmt :
    is_one_of t image_exts = true -> sharp_toFormat (sharp_target t) s0 = Ok s -> sh_format s = Some fmt ->
    is_one_of fmt ["jpeg"; "png"; "webp"; "gif"] = true.
  Proof.
    intros Ht Hs Hf. apply is_one_of_spec in Ht.
    repeat (apply elem_of_cons in Ht as [->|Ht];
            [vm_compute in Hs; try discriminate; injection Hs as <-; vm_compute in Hf; by injection Hf as <-|]).
    by apply elem_of_nil in Ht.
  Qed.
End Run.

(** ** What the handler does *)

(** [C14] An image converted to an image format sharp knows: the file
    [converted-<now>.<t>] is an image of the format [toFormat] selects
    ([jpg] as [jpeg]), the upload is removed, the answer names the file. *)
Theorem convert_image_ok {Bytes Doc Page : Type}
  `{!PdfLib Bytes Doc Page, !PdfLibLaws Bytes Doc Page, !PdfDraw Doc Page, !PdfDrawLaws Bytes Doc Page,
    !Sharp Bytes, !SharpLaws Bytes, !TextLibs Bytes} t f uf s fmt b (w : world Bytes) :
  let name := converted_name (clock w) (Some t) in
  is_one_of (file_ext (originalname f)) image_exts = true -> is_one_of t image_exts = true ->
  sharp_toFormat (sharp_target t) (sharp_of (up_dir f) (up_name f)) = Ok s -> sh_format s = Some fmt ->
  files w !! (up_dir f, up_name f) = Some uf -> is_Some (image_format (contents uf)) ->
  (up_dir f, up_name f) <> ("downloads", name) ->
  sharp_encode s fmt (contents uf) = Ok b ->
  convert_handler (Doc:=Doc) (Page:=Page) (Some t) (Some f) w =
    (Ok (success name ("Converted to " +:+ toUpperCase t)),
     mkWorld (delete (up_dir f, up_name f) (<[("downloads", name) := mkFile b (clock w)]> (files w)))
             ({["downloads"]} ∪ dirs w) (clock w)) /\
  image_format b = Some fmt.
Proof.
  intros name Hfrom Hto Hs Hfmt Huf [it Hit] Hne Hb. split; [|by eapply sharp_encode_format].
  apply (convert_finish ImageToImage); [done | done | | by eexists | done |].
  - unfold conversion_of, field_in. by rewrite Hfrom, Hto.
  - unfold convert_output, st_bind, st_lift, js_str. rewrite Hs.
    rewrite (sharp_toFile_ok _ _ _ _ uf it fmt b); [done | | done | | done | cbn; set_solver].
    + cbn. by rewrite (sharp_toFormat_input _ _ _ Hs).
    + apply output_format_forced; [done|]. by eapply toFormat_forced.
Qed.

(** [C15] The form offers [bmp] as a target, but sharp has no BMP
    writer: [toFormat('bmp')] throws, so every conversion of an image to
    [bmp] answers 500, after [downloads] was created, with the upload
    left in place. *)
Theorem convert_to_bmp_fails {Bytes Doc Page : Type}
  `{!PdfLib Bytes Doc Page, !PdfLibLaws Bytes Doc Page, !PdfDraw Doc Page, !PdfDrawLaws Bytes Doc Page,
    !Sharp Bytes, !SharpLaws Bytes, !TextLibs Bytes} f (w : world Bytes) :
  is_one_of (file_ext (originalname f)) image_exts = true ->
  exists msg, convert_handler (Doc:=Doc) (Page:=Page) (Some "bmp") (Some f) w =
    (Ok (failure 500 msg), mkWorld (files w) ({["downloads"]} ∪ dirs w) (clock w)).
Proof.
  intros Hfrom. eexists. rewrite convert_handler_branch. apply catch_500_throw. cbn zeta.
  unfold conversion_of. rewrite Hfrom. done.
Qed.

(** [C31] A text file converted to PDF, when [drawText] can encode its
    first 500 code units (printable ASCII and Latin-1, line breaks and
    tabs): the saved document has exactly one page, a blank 600x800 page
    with those code units drawn at (50, 750) in size 12; the upload is
    removed. *)
Theorem convert_txt_pdf {Bytes Doc Page : Type}
  `{!PdfLib Bytes Doc Page, !PdfLibLaws Bytes Doc Page, !PdfDraw Doc Page, !PdfDrawLaws Bytes Doc Page,
    !Sharp Bytes, !SharpLaws Bytes, !TextLibs Bytes} f uf (w : world Bytes) :
  let name := converted_name (clock w) (Some "pdf") in
  let content := utf8_decode (contents uf) in
  file_ext (originalname f) = "txt" -> files w !! (up_dir f, up_name f) = Some uf ->
  (up_dir f, up_name f) <> ("downloads", name) -> forallb text_safe (firstn 500 content) = true ->
  exists d,
    convert_handler (Doc:=Doc) (Page:=Page) (Some "pdf") (Some f) w =
      (Ok (success name "Converted to PDF"),
       mkWorld (delete (up_dir f, up_name f) (<[("downloads", name) := mkFile (pdf_save d) (clock w)]> (files w)))
               ({["downloads"]} ∪ dirs w) (clock w)) /\
    pdf_pages d = [page_draw (blank_page (600 # 1, 800 # 1)%Q) (firstn 500 content) text_opts].
Proof.
  intros name content Hext Huf Hne Hsafe.
  destruct (text_pdf_safe (Doc:=Doc) content Hsafe) as (d & Hd & Hpages). exists d. split; [|done].
  apply (convert_finish TxtToPdf); [done | done | by rewrite Hext | by eexists | done |].
  unfold convert_output, st_bind. rewrite (txt_read _ _ _ Huf). unfold st_lift. fold content. rewrite Hd.
  rewrite writeFile_ok by (cbn; set_solver). reflexivity.
Qed.

(** [C32] A text file whose first 500 code units hold one [drawText]
    cannot encode (a control character, or a character outside the Basic
    Multilingual Plane): the conversion to PDF answers 500 after
    [downloads] was created, no file is written and the upload stays. *)
Theorem convert_txt_unencodable {Bytes Doc Page : Type}
  `{!PdfLib Bytes Doc Page, !PdfLibLaws Bytes Doc Page, !PdfDraw Doc Page, !PdfDrawLaws Bytes Doc Page,
    !Sharp Bytes, !SharpLaws Bytes, !TextLibs Bytes} f uf (w : world Bytes) :
  file_ext (originalname f) = "txt" -> files w !! (up_dir f, up_name f) = Some uf ->
  existsb text_unsafe (firstn 500 (utf8_decode (contents uf))) = true ->
  exists msg, convert_handler (Doc:=Doc) (Page:=Page) (Some "pdf") (Some f) w =
    (Ok (failure 500 msg), mkWorld (files w) ({["downloads"]} ∪ dirs w) (clock w)).
Proof.
  intros Hext Huf Hu.
  destruct (draw_text_unsafe (blank_page (600 # 1, 800 # 1)%Q) _ text_opts Hu) as [msg Hm].
  exists msg. rewrite convert_handler_branch. apply (catch_500_throw _ _ (LibError msg)). cbn zeta.
  assert (conversion_of (file_ext (originalname f)) (Some "pdf") = TxtToPdf) as -> by (by rewrite Hext).
  unfold convert_output, st_bind. rewrite (txt_read _ _ _ Huf). unfold st_lift, text_pdf. by rewrite Hm.
Qed.

(** [C33] A pair of formats no branch handles is answered 400, naming
    both, after [downloads] was created; the upload stays. *)
Theorem convert_unsupported {Bytes Doc Page : Type}
  `{!PdfLib Bytes Doc Page, !PdfDraw Doc Page, !Sharp Bytes, !TextLibs Bytes} toFormat f (w : world Bytes) :
  conversion_of (file_ext (originalname f)) toFormat = Unsupported ->
  convert_handler (Doc:=Doc) (Page:=Page) toFormat (Some f) w =
    (Ok (failure 400 ("Conversion from " +:+ file_ext (originalname f) +:+ " to " +:+ js_str toFormat
                      +:+ " not supported")),
     mkWorld (files w) ({["downloads"]} ∪ dirs w) (clock w)).
Proof.
  intros Hc. unfold convert_handler. apply catch_500_ok. unfold st_bind. rewrite date_now_run.
  unfold mkdir. cbn zeta. by rewrite Hc.
Qed.

(** ** Witnesses *)

Import MediaModel.

Definition up_photo : uploaded := mkUploaded "uploads" "7-photo.JPG" "photo.JPG".
Definition up_notes : uploaded := mkUploaded "uploads" "7-notes.txt" "notes.txt".
Definition up_report : uploaded := mkUploaded "uploads" "7-report.pdf" "report.pdf".
Definition photo_file : file mblob := mkFile (MImage "jpeg" None [] 200000) 7.
Definition notes_file : file mblob := mkFile (MText (js_text "hello")) 7.

(** A text file holding a NUL byte. *)
Definition bin_file : file mblob := mkFile (MText (js_text "ab" ++ [0%N])) 7.
Definition up_bin : uploaded := mkUploaded "uploads" "7-bin.txt" "bin.txt".
Definition w_conv : world mblob :=
  mkWorld (<[("uploads", "7-photo.JPG") := photo_file]>
            (<[("uploads", "7-notes.txt") := notes_file]>
              (<[("uploads", "7-report.pdf") := mkFile (MPdf []) 7]>
                (<[("uploads", "7-bin.txt") := bin_file]> ∅))))
          {["uploads"]} 9.

Lemma convert_image_ok_witness :
  exists r w', convert_handler (Doc:=list mpage) (Page:=mpage) (Some "png") (Some up_photo) w_conv = (Ok r, w') /\
    status r = 200%Z.
Proof.
  destruct (convert_image_ok (Doc:=list mpage) (Page:=mpage) "png" up_photo photo_file
              (sharp_png None (sharp_of "uploads" "7-photo.JPG")) "png" (MImage "png" (Some 80%Z) [] 160000) w_conv)
    as [H _];
    [vm_compute; reflexivity | vm_compute; reflexivity | reflexivity | reflexivity | vm_compute; reflexivity
    | by eexists | by_eval | vm_compute; reflexivity |].
  eexists _, _. split; [exact H | reflexivity].
Defined.

Lemma convert_to_bmp_fails_witness :
  exists msg, convert_handler (Doc:=list mpage) (Page:=mpage) (Some "bmp") (Some up_photo) w_conv =
    (Ok (failure 500 msg), mkWorld (files w_conv) ({["downloads"]} ∪ dirs w_conv) (clock w_conv)).
Proof. apply convert_to_bmp_fails. vm_compute. reflexivity. Defined.

Lemma convert_txt_pdf_witness :
  exists r w', convert_handler (Doc:=list mpage) (Page:=mpage) (Some "pdf") (Some up_notes) w_conv = (Ok r, w') /\
    r = success "converted-9.pdf" "Converted to PDF".
Proof.
  destruct (convert_txt_pdf (Doc:=list mpage) (Page:=mpage) up_notes notes_file w_conv) as (d & H & _);
    [vm_compute; reflexivity | vm_compute; reflexivity | by_eval | vm_compute; reflexivity |].
  eexists _, _. split; [exact H | reflexivity].
Defined.

Lemma convert_txt_unencodable_witness :
  exists msg, convert_handler (Doc:=list mpage) (Page:=mpage) (Some "pdf") (Some up_bin) w_conv =
    (Ok (failure 500 msg), mkWorld (files w_conv) ({["downloads"]} ∪ dirs w_conv) (clock w_conv)).
Proof.
  apply (convert_txt_unencodable (Doc:=list mpage) (Page:=mpage) up_bin bin_file w_conv);
    [vm_compute; reflexivity | vm_compute; reflexivity | vm_compute; reflexivity].
Defined.

Lemma convert_unsupported_witness :
  convert_handler (Doc:=list mpage) (Page:=mpage) (Some "txt") (Some up_report) w_conv =
    (Ok (failure 400 "Conversion from pdf to txt not supported"),
     mkWorld (files w_conv) ({["downloads"]} ∪ dirs w_conv) (clock w_conv)).
Proof. apply (convert_unsupported (Some "txt") up_report w_conv). vm_compute. reflexivity. Defined.
