(* ===== verification/Image.v ===== *)
(** * The [/api/image] handler (lines 420-469 of [src/server.js])

    [image_handler] follows the handler: the extension of the original
    name, the name [edited-<now>.<ext>], the [mkdir] of [downloads], the
    pipeline [sharp(file.path)] with at most one operation chosen by
    [imageOperation] ([image_pipeline]), [toFile] (whose format comes
    from the output's extension when sharp knows it, else from the
    input image's own format, else an error: [sharp_output_format]), the unlink of the upload and the
    answer [Image <imageOperation>d successfully]. *)

From S2P Require Import Prelude Js PdfLib Store Media.

(** [parseInt(field)]: [parseInt(undefined)] is [NaN]. *)
Definition parseInt_field (o : option string) : jsnum :=
  match o with Some s => parseInt s | None => JNaN end.

(** [n || 400] for a number: [NaN] and [0] are falsy. *)
Definition or_400 (n : jsnum) : jsnum :=
  match n with JNum 0 | JNaN => JNum 400 | _ => n end.

(** Lines 435-453. *)
Definition image_pipeline (imageOperation rotationAngle resizeWidth resizeHeight : option string)
    (dir name : string) : sharp :=
  let sharpInstance := sharp_of dir name in
  if field_is imageOperation "rotate" then
    sharp_then (Rotate (parseInt_field rotationAngle)) sharpInstance
  else if field_is imageOperation "resize" then
    sharp_then (Resize (parseInt_field resizeWidth) (parseInt_field resizeHeight)) sharpInstance
  else if field_is imageOperation "crop" then
    sharp_then (Extract (JNum 100) (JNum 100) (or_400 (parseInt_field resizeWidth))
                        (or_400 (parseInt_field resizeHeight))) sharpInstance
  else if field_is imageOperation "filter" then sharp_then Grayscale sharpInstance
  else sharpInstance.

(** [`edited-${Date.now()}.${ext}`] *)
Definition edited_name (now : N) (ext : string) : string :=
  "edited-" +:+ num_to_string now +:+ "." +:+ ext.

(** [`Image ${imageOperation}d successfully`] *)
Definition image_message (imageOperation : option string) : string :=
  "Image " +:+ js_str imageOperation +:+ "d successfully".

Section Handler.
  Context {Bytes : Type} `{!Sharp Bytes}.

  (** The handler, lines 420-469. *)
Definition image_handler (imageOperation rotationAngle resizeWidth resizeHeight : option string)
    (file : option uploaded) : M Bytes response :=
    catch_500 (
      match file with
      | None => st_ret (failure 400 "No file uploaded")
      | Some f =>
          let ext := file_ext (originalname f) in
          let! now := date_now in
          let outputFilename := edited_name now ext in
          do! mkdir "downloads" in
          let sharpInstance :=
            image_pipeline imageOperation rotationAngle resizeWidth resizeHeight (up_dir f) (up_name f) in
          do! sharp_toFile sharpInstance "downloads" outputFilename in
          do! unlink (up_dir f) (up_name f) in
          st_ret (success outputFilename (image_message imageOperation))
      end).
End Handler.

(** ** Running the handler *)

(** No operation forces a format: [toFile] writes the format of the
    output's extension. *)
Lemma image_pipeline_shape op ra rw rh dir name :
  sh_format (image_pipeline op ra rw rh dir name) = None /\
  sh_input (image_pipeline op ra rw rh dir name) = (dir, name).
Proof. unfold image_pipeline. by repeat case_match. Qed.

(** The pipeline forces no format: [toFile] picks it from the output's
    name, else from the input image. *)
Lemma image_output_format op ra rw rh dir name out t :
  sharp_output_format (image_pipeline op ra rw rh dir name) out t = pick_output toFile_rows None out t.
Proof. unfold sharp_output_format. by rewrite (proj1 (image_pipeline_shape op ra rw rh dir name)). Qed.

Section Run.
  Context {Bytes : Type} `{!Sharp Bytes, !SharpLaws Bytes}.
  Implicit Types (w : world Bytes).

Lemma image_handler_run op ra rw rh f w :
    image_handler op ra rw rh (Some f) w =
      catch_500 (fun w0 =>
        (do! sharp_toFile (image_pipeline op ra rw rh (up_dir f) (up_name f)) "downloads"
                          (edited_name (clock w) (file_ext (originalname f))) in
         do! unlink (up_dir f) (up_name f) in
         st_ret (success (edited_name (clock w) (file_ext (originalname f))) (image_message op))) w0)
        (mkWorld (files w) ({["downloads"]} ∪ dirs w) (clock w)).
  Proof. unfold image_handler, catch_500, st_catch, st_bind at 1. rewrite date_now_run. done. Qed.
End Run.

(** ** What the handler does *)

(** [C16] An edit whose output [edited-<now>.<ext>] [toFile] can write:
    the format is the one the name's extension selects ([.jpg], [.png],
    ...) or, for an extension sharp does not know (a [.jfif], a [.jpe]),
    the format of the input image; the file is an image of that format,
    the upload is removed, and the answer is
    [Image <imageOperation>d successfully]. *)
Theorem image_edit_ok {Bytes} `{!Sharp Bytes, !SharpLaws Bytes} op ra rw rh f uf it fmt b (w : world Bytes) :
  let name := edited_name (clock w) (file_ext (originalname f)) in
  files w !! (up_dir f, up_name f) = Some uf -> image_format (contents uf) = Some it ->
  pick_output toFile_rows None name it = Some fmt -> (up_dir f, up_name f) <> ("downloads", name) ->
  sharp_encode (image_pipeline op ra rw rh (up_dir f) (up_name f)) fmt (contents uf) = Ok b ->
  image_handler op ra rw rh (Some f) w =
    (Ok (success name (image_message op)),
     mkWorld (delete (up_dir f, up_name f) (<[("downloads", name) := mkFile b (clock w)]> (files w)))
             ({["downloads"]} ∪ dirs w) (clock w)) /\
  image_format b = Some fmt.
Proof.
  intros name Huf Hit Hfmt Hne Hb. split; [|by eapply sharp_encode_format].
  rewrite image_handler_run. apply catch_500_ok. fold name.
  destruct (image_pipeline_shape op ra rw rh (up_dir f) (up_name f)) as [_ Hin].
  unfold st_bind. rewrite (sharp_toFile_ok _ _ _ _ uf it fmt b); [ | by rewrite Hin | done
    | by rewrite image_output_format | done | cbn; set_solver].
  unfold unlink. cbn [files with_files]. rewrite lookup_insert_ne by congruence. by rewrite Huf.
Qed.

(** [C17] The endpoint checks no extension: an upload sharp cannot
    decode, or whose output name neither names a format [toFile] knows
    nor leaves it an input format it writes (a BMP, an SVG under [.svg]
    is written as PNG but a BMP is not), fails in [toFile] with 500,
    after [downloads] was created, and the upload stays. *)
Theorem image_unsupported_ext {Bytes} `{!Sharp Bytes, !SharpLaws Bytes} op ra rw rh f uf (w : world Bytes) :
  let name := edited_name (clock w) (file_ext (originalname f)) in
  files w !! (up_dir f, up_name f) = Some uf ->
  match image_format (contents uf) with
  | Some it => pick_output toFile_rows None name it = None
  | None => True
  end ->
  exists msg, image_handler op ra rw rh (Some f) w =
    (Ok (failure 500 msg), mkWorld (files w) ({["downloads"]} ∪ dirs w) (clock w)).
Proof.
  intros name Huf Hfmt.
  destruct (image_pipeline_shape op ra rw rh (up_dir f) (up_name f)) as [_ Hin].
  destruct (image_format (contents uf)) as [it|] eqn:Hit; eexists;
    rewrite image_handler_run; apply catch_500_throw; fold name;
    unfold st_bind, sharp_toFile; rewrite Hin; cbn [files]; rewrite Huf, Hit; [|done].
  by rewrite image_output_format, Hfmt.
Qed.

(** ** Witnesses *)

Import MediaModel.

Definition up_pic : uploaded := mkUploaded "uploads" "7-pic.jpg" "pic.jpg".
Definition up_bmp : uploaded := mkUploaded "uploads" "7-old.bmp" "old.bmp".
Definition pic_file : file mblob := mkFile (MImage "jpeg" None [] 50000) 7.
Definition w_pic : world mblob :=
  mkWorld (<[("uploads", "7-pic.jpg") := pic_file]>
            (<[("uploads", "7-old.bmp") := mkFile (MImage "bmp" None [] 9000) 7]> ∅))
          {["uploads"]} 9.

(** Scenario: cropping [pic.jpg] with no size cuts a 400x400 square
    at (100, 100) and answers "Image cropd successfully"; a filter
    answers "Image filterd successfully". *)
Example image_crop_scenario :
  image_handler (Some "crop") None None None (Some up_pic) w_pic =
    (Ok (success "edited-9.jpg" "Image cropd successfully"),
     mkWorld (delete ("uploads", "7-pic.jpg")
               (<[("downloads", "edited-9.jpg") :=
                   mkFile (MImage "jpeg" (Some 80%Z) [Extract (JNum 100) (JNum 100) (JNum 400) (JNum 400)] 40000) 9]>
                 (files w_pic)))
             ({["downloads"]} ∪ dirs w_pic) 9) /\
  fst (image_handler (Some "filter") None None None (Some up_pic) w_pic) =
    Ok (success "edited-9.jpg" "Image filterd successfully").
Proof. split; vm_compute; reflexivity. Qed.

(** A JPEG uploaded as [snap.jfif]: sharp knows no [.jfif] and writes
    the input's JPEG under [edited-9.jfif]. *)
Definition up_jfif : uploaded := mkUploaded "uploads" "7-snap.jfif" "snap.jfif".
Definition w_jfif : world mblob :=
  mkWorld (<[("uploads", "7-snap.jfif") := pic_file]> (files w_pic)) {["uploads"]} 9.

Lemma image_edit_ok_witness :
  exists r w', image_handler (Some "rotate") (Some "90") None None (Some up_jfif) w_jfif = (Ok r, w') /\
    r = success "edited-9.jfif" "Image rotated successfully".
Proof.
  destruct (image_edit_ok (Some "rotate") (Some "90") None None up_jfif pic_file "jpeg" "jpeg"
              (MImage "jpeg" (Some 80%Z) [Rotate (JNum 90)] 40000) w_jfif) as [H _];
    [vm_compute; reflexivity | reflexivity | vm_compute; reflexivity | by_eval | vm_compute; reflexivity |].
  eexists _, _. split; [exact H | reflexivity].
Defined.

Lemma image_unsupported_ext_witness :
  exists msg, image_handler (Some "filter") None None None (Some up_bmp) w_pic =
    (Ok (failure 500 msg), mkWorld (files w_pic) ({["downloads"]} ∪ dirs w_pic) (clock w_pic)).
Proof.
  apply (image_unsupported_ext (Some "filter") None None None up_bmp (mkFile (MImage "bmp" None [] 9000) 7));
    vm_compute; reflexivity.
Defined.
