(* ===== verification/Intake.v ===== *)
(** * Request intake: multer with its [fileSize] limit (lines 20-37)

    Every route but the health check runs multer first:
    [upload.single('file')] or [upload.array('files')] stores each file
    of the request through the [diskStorage] of lines 21-32
    ([Store.multer_store]), in order.  The limit
    [limits: { fileSize: 50 * 1024 * 1024 }] (line 36) stops a file
    after [fileSize] bytes: busboy emits ['limit'] on a file one byte
    longer, multer aborts the request, removes every file it stored for
    it, the cut one included ([remove_uploaded]; an unlink error is
    collected, not thrown), and hands a [MulterError] to Express, whose
    default error handler answers 500 with the message
    ["File too large"].  The route's handler then never runs.

    [receive] gives the request the handler will see ([Accepted]) or the
    answer of a request multer refused ([Rejected]).  The contents of
    the cut file do not matter, since it is removed: [multer_loop] stores
    it whole.  Express's error page is HTML; [too_large_answer] keeps its
    status and message. *)

From S2P Require Import Prelude Js PdfLib Store Split Media.

(** The request a client sends: its fields and its files (original name
    and contents). *)
Inductive request (Bytes : Type) : Type :=
| RSplit (body : split_body) (upload : option (string * Bytes))
| RMerge (uploads : option (list (string * Bytes)))
| RCompress (compressionLevel : option string) (upload : option (string * Bytes))
| RSecurity (securityAction password : option string) (watermarkText : option jstr) (upload : option (string * Bytes))
| RConvert (toFormat : option string) (upload : option (string * Bytes))
| RImage (imageOperation rotationAngle resizeWidth resizeHeight : option string)
    (upload : option (string * Bytes))
| RHealth.
Arguments RSplit {Bytes}. Arguments RMerge {Bytes}. Arguments RCompress {Bytes}.
Arguments RSecurity {Bytes}. Arguments RConvert {Bytes}. Arguments RImage {Bytes}.
Arguments RHealth {Bytes}.

(** A request whose files multer stored: the handler's [req.body] and
    [req.file] / [req.files]. *)
Inductive pending : Type :=
| PSplit (body : split_body) (file : option uploaded)
| PMerge (files : option (list uploaded))
| PCompress (compressionLevel : option string) (file : option uploaded)
| PSecurity (securityAction password : option string) (watermarkText : option jstr) (file : option uploaded)
| PConvert (toFormat : option string) (file : option uploaded)
| PImage (imageOperation rotationAngle resizeWidth resizeHeight : option string) (file : option uploaded)
| PHealth.

(** What multer makes of a request: the request the handler runs on, or
    the answer to a request it refused. *)
Inductive intake : Type :=
| Accepted (p : pending)
| Rejected (r : response).

Definition accepted (i : intake) : list pending :=
  match i with Accepted p => [p] | Rejected _ => [] end.

(** [50 * 1024 * 1024] *)
Definition fileSize : N := 50 * 1024 * 1024.

(** The answer of Express's default error handler to multer's
    [LIMIT_FILE_SIZE] error. *)
Definition too_large_answer : response := failure 500 "File too large".

(** The files a request carries. *)
Definition opt_list {A} (o : option A) : list A := match o with Some a => [a] | None => [] end.

Definition req_uploads {Bytes} (r : request Bytes) : list (string * Bytes) :=
  match r with
  | RSplit _ u | RCompress _ u | RSecurity _ _ _ u | RConvert _ u | RImage _ _ _ _ u => opt_list u
  | RMerge us => default [] us
  | RHealth => []
  end.

(** The uploads a waiting request refers to ([req.file], [req.files]). *)
Definition pending_files (p : pending) : list uploaded :=
  match p with
  | PSplit _ f | PCompress _ f | PSecurity _ _ _ f | PConvert _ f | PImage _ _ _ _ f => opt_list f
  | PMerge fs => default [] fs
  | PHealth => []
  end.

Section Multer.
  Context {Bytes : Type} `{!Sized Bytes}.

  (** The files of a request, in order: each is stored; the first one
      longer than [fileSize] stops the intake.  The files stored, that
      one included, and whether the limit was hit. *)
Fixpoint multer_loop (l : list (string * Bytes)) : M Bytes (list uploaded * bool) :=
    match l with
    | [] => st_ret ([], false)
    | (orig, b) :: rest =>
        let! f := multer_store orig b in
        if decide (byte_length b <= fileSize)%N then
          let! r := multer_loop rest in st_ret (f :: r.1, r.2)
        else st_ret ([f], true)
    end.

  (** multer's cleanup of an aborted request: [fs.unlink(file.path)] for
      each file stored, an error collected and not thrown. *)
Definition remove_uploaded (fs : list uploaded) : M Bytes unit :=
    let! _ := st_mapM (fun f => st_catch (unlink (up_dir f) (up_name f)) (fun _ => st_ret tt)) fs in
    st_ret tt.

  (** The files stored, or [None] when the request was aborted. *)
Definition multer (l : list (string * Bytes)) : M Bytes (option (list uploaded)) :=
    let! r := multer_loop l in
    if r.2 then do! remove_uploaded r.1 in st_ret None else st_ret (Some r.1).

  (** [upload.single('file')]: [req.file] or the abort. *)
Definition store_single (u : option (string * Bytes)) : M Bytes (option (option uploaded)) :=
    match u with
    | None => st_ret (Some None)
    | Some ob => let! o := multer [ob] in st_ret (head <$> o)
    end.

  (** [upload.array('files')]: [req.files] or the abort. *)
Definition store_array (us : option (list (string * Bytes))) : M Bytes (option (option (list uploaded))) :=
    match us with
    | None => st_ret (Some None)
    | Some l => let! o := multer l in st_ret (Some <$> o)
    end.

Definition accept {A} (k : A -> pending) (o : option A) : intake :=
    match o with Some a => Accepted (k a) | None => Rejected too_large_answer end.

  (** The multer middleware of each route. *)
Definition receive (r : request Bytes) : M Bytes intake :=
    match r with
    | RSplit body u => let! o := store_single u in st_ret (accept (PSplit body) o)
    | RMerge us => let! o := store_array us in st_ret (accept PMerge o)
    | RCompress l u => let! o := store_single u in st_ret (accept (PCompress l) o)
    | RSecurity a p t u => let! o := store_single u in st_ret (accept (PSecurity a p t) o)
    | RConvert t u => let! o := store_single u in st_ret (accept (PConvert t) o)
    | RImage o a w h u => let! f := store_single u in st_ret (accept (PImage o a w h) f)
    | RHealth => st_ret (Accepted PHealth)
    end.
End Multer.

(** ** Every invariant of the fs actions is kept by the intake *)

Section Inv.
  Context {Bytes : Type} `{!Sized Bytes} (P : world Bytes -> Prop) `{!FsInv P}.

Lemma inv_multer_store orig b : st_preserves P (multer_store orig b).
  Proof. unfold multer_store. preserves_tac. Qed.

Lemma inv_multer_loop l : st_preserves P (multer_loop l).
  Proof.
    induction l as [|[orig b] l IH]; simpl; [apply st_preserves_ret|].
    apply st_preserves_bind; [apply inv_multer_store|]. intros f. preserves_tac.
  Qed.

Lemma inv_remove_uploaded fs : st_preserves P (remove_uploaded fs).
  Proof.
    unfold remove_uploaded. apply st_preserves_bind; [|intros; apply st_preserves_ret].
    apply st_preserves_mapM. intros f. apply st_preserves_catch; [apply inv_unlink | intros; apply st_preserves_ret].
  Qed.

Lemma inv_multer l : st_preserves P (multer l).
  Proof.
    unfold multer. apply st_preserves_bind; [apply inv_multer_loop|]. intros [fs []]; simpl;
      [apply st_preserves_bind; [apply inv_remove_uploaded | intros; apply st_preserves_ret] | apply st_preserves_ret].
  Qed.

Lemma inv_receive r : st_preserves P (receive r).
  Proof.
    destruct r as [? u|us|? u|? ? ? u|? u|? ? ? ? u|]; simpl; [..|apply st_preserves_ret];
      (apply st_preserves_bind; [|intros; apply st_preserves_ret]);
      [destruct u | destruct us | destruct u..]; simpl; try apply st_preserves_ret;
      (apply st_preserves_bind; [apply inv_multer | intros; apply st_preserves_ret]).
  Qed.
End Inv.

(** ** Running the intake *)

(** A file multer cuts: longer than [fileSize]. *)
Definition too_big {Bytes} `{!Sized Bytes} (u : string * Bytes) : Prop := (fileSize < byte_length u.2)%N.

Definition up_key (f : uploaded) : string * string := (up_dir f, up_name f).

Section Run.
  Context {Bytes : Type} `{!Sized Bytes}.
  Implicit Types (w : world Bytes).

  (** The loop stores files until one is too big; it touches no file but
      those it stores, and stops exactly when some file is too big. *)
Lemma multer_loop_run l w :
    exists fs ab w', multer_loop l w = (Ok (fs, ab), w') /\ (ab = true <-> Exists too_big l) /\
      (forall k, k ∉ map up_key fs -> files w' !! k = files w !! k) /\ clock w' = clock w.
  Proof.
    revert w. induction l as [|[orig b] l IH]; intros w; simpl.
    - eexists [], false, w. split_and!; [done | rewrite Exists_nil; naive_solver | done | done].
    - unfold st_bind at 1. rewrite multer_store_run. set (w1 := mkWorld _ _ _).
      set (f := mkUploaded _ _ _). case_decide as Hb.
      + destruct (IH w1) as (fs & ab & w' & Hrun & Hab & Hk & Hc).
        exists (f :: fs), ab, w'. unfold st_bind. rewrite Hrun. split_and!; [done | | |].
        * rewrite Exists_cons, Hab. assert (¬ too_big (orig, b)) by (unfold too_big; simpl; lia). naive_solver.
        * intros k Hk'. apply not_elem_of_cons in Hk' as [Hf Hfs]. rewrite Hk by done.
          unfold w1. cbn. by rewrite lookup_insert_ne by done.
        * by rewrite Hc.
      + exists [f], true, w1. split_and!; [done | | |done].
        * split; [intros _; apply Exists_cons; left; unfold too_big; simpl; lia | done].
        * intros k Hk'. apply not_elem_of_cons in Hk' as [Hf _]. unfold w1. cbn.
          by rewrite lookup_insert_ne by done.
  Qed.

  (** The cleanup removes every file it is given and no other. *)
Lemma remove_uploaded_run fs w :
    exists w', remove_uploaded fs w = (Ok tt, w') /\
      (forall k, k ∈ map up_key fs -> files w' !! k = None) /\
      (forall k, k ∉ map up_key fs -> files w' !! k = files w !! k).
  Proof.
    unfold remove_uploaded.
    enough (exists bs w', st_mapM (fun f => st_catch (unlink (up_dir f) (up_name f)) (fun _ => st_ret tt)) fs w
                            = (Ok bs, w') /\
              (forall k, k ∈ map up_key fs -> files w' !! k = None) /\
              (forall k, k ∉ map up_key fs -> files w' !! k = files w !! k)) as (bs & w' & Hrun & H1 & H2).
    { exists w'. unfold st_bind. by rewrite Hrun. }
    revert w. induction fs as [|f fs IH]; intros w; simpl.
    - exists [], w. split_and!; [done | intros k Hk; by apply elem_of_nil in Hk | done].
    - set (w1 := snd (st_catch (unlink (up_dir f) (up_name f)) (fun _ => st_ret tt) w)).
      assert (st_catch (unlink (up_dir f) (up_name f)) (fun _ => st_ret tt) w = (Ok tt, w1) /\
              files w1 !! up_key f = None /\ forall k, k <> up_key f -> files w1 !! k = files w !! k)
        as (Hw1 & Hgone & Hkeep).
      { unfold w1, st_catch, unlink, up_key. destruct (files w !! _) eqn:Hf; cbn.
        - split_and!; [done | apply lookup_delete_eq | intros k Hk; by apply lookup_delete_ne].
        - by split_and!. }
      destruct (IH w1) as (bs & w' & Hrun & H1 & H2).
      exists (tt :: bs), w'. unfold st_bind. rewrite Hw1, Hrun. split_and!; [done | |].
      + intros k Hk. apply elem_of_cons in Hk as [->|Hk]; [|by apply H1].
        destruct (decide (up_key f ∈ map up_key fs)); [by apply H1|]. by rewrite H2.
      + intros k Hk. apply not_elem_of_cons in Hk as [Hf Hfs]. rewrite H2 by done. by apply Hkeep.
  Qed.

  (** multer refuses a request with a file too big, leaving no file it
      stored; it accepts any other. *)
Lemma multer_run l w :
    (Exists too_big l -> exists w', multer l w = (Ok None, w') /\ files w' ⊆ files w) /\
    (Forall (fun u => ¬ too_big u) l -> exists fs w', multer l w = (Ok (Some fs), w')).
  Proof.
    destruct (multer_loop_run l w) as (fs & ab & w1 & Hrun & Hab & Hk & _).
    unfold multer, st_bind. rewrite Hrun. simpl. split.
    - intros Hbig. apply Hab in Hbig as ->.
      destruct (remove_uploaded_run fs w1) as (w' & Hrm & Hgone & Hkeep). rewrite Hrm.
      exists w'. split; [done|]. apply map_subseteq_spec. intros k v Hv.
      destruct (decide (k ∈ map up_key fs)) as [Hin|Hin]; [by rewrite Hgone in Hv|].
      by rewrite Hkeep, Hk in Hv.
    - intros Hsmall. destruct ab; [|by eauto].
      exfalso. assert (Exists too_big l) as Hbig by (by apply Hab).
      by apply (Forall_Exists_neg too_big l) in Hsmall.
  Qed.
End Run.

Section One.
  Context {Bytes : Type} `{!Sized Bytes}.
  Implicit Types (w : world Bytes).

Lemma multer_one_small orig b w :
    (byte_length b <= fileSize)%N ->
    multer [(orig, b)] w =
      (Ok (Some [mkUploaded "uploads" (multer_name (clock w) orig) orig]),
       mkWorld (<[("uploads", multer_name (clock w) orig) := mkFile b (clock w)]> (files w))
               ({["uploads"]} ∪ dirs w) (clock w)).
  Proof. intros Hb. unfold multer, multer_loop, st_bind. rewrite multer_store_run, decide_True by done. done. Qed.

Lemma multer_one_big orig b w :
    (fileSize < byte_length b)%N ->
    multer [(orig, b)] w =
      (Ok None, mkWorld (delete ("uploads", multer_name (clock w) orig) (files w)) ({["uploads"]} ∪ dirs w) (clock w)).
  Proof.
    intros Hb. unfold multer, multer_loop, st_bind. rewrite multer_store_run, decide_False by lia.
    simpl. unfold remove_uploaded. simpl. unfold st_bind, st_catch, unlink, st_ret. simpl.
    rewrite lookup_insert_eq. simpl. by rewrite delete_insert_eq.
  Qed.
End One.

(** Run [receive] on a request once [multer] on its files is known. *)
Ltac receive_multer Hm :=
  cbn [receive store_single store_array]; unfold st_bind; rewrite Hm; reflexivity.

(** ** What the intake guarantees *)

(** [C21] multer refuses exactly the requests with a file longer than
    [fileSize]: such a request is answered 500 "File too large" before
    any handler runs, and leaves no file behind (every file it stored is
    removed; the files map after it is included in the one before).
    Any other request is accepted. *)
Theorem receive_rejected_no_trace {Bytes} `{!Sized Bytes} (r : request Bytes) (w : world Bytes) :
  (Exists too_big (req_uploads r) ->
     exists w', receive r w = (Ok (Rejected too_large_answer), w') /\ files w' ⊆ files w) /\
  (Forall (fun u => ¬ too_big u) (req_uploads r) -> exists p w', receive r w = (Ok (Accepted p), w')).
Proof.
  destruct r as [? [ob|]|[l|]|? [ob|]|? ? ? [ob|]|? [ob|]|? ? ? ? [ob|]|];
    split; intros H; simpl in H;
    try (by apply Exists_nil in H); try (by eexists _, _).
  all: first [ destruct (proj1 (multer_run _ w) H) as (w' & Hm & Hsub); exists w'; split; [receive_multer Hm | done]
             | destruct (proj2 (multer_run _ w) H) as (fs & w' & Hm); eexists _, w'; receive_multer Hm ].
Qed.

(** [C22] The boundary of [limits: { fileSize: 50 * 1024 * 1024 }]: a
    request with one file of at most 52428800 bytes is accepted, the
    file stored as [uploads/<now>-<name>]; one byte more and the request
    is answered 500 "File too large", the file removed again, nothing
    else changed but the creation of [uploads]. *)
Theorem receive_size_limit {Bytes} `{!Sized Bytes} (r : request Bytes) orig b (w : world Bytes) :
  req_uploads r = [(orig, b)] ->
  ((byte_length b <= 52428800)%N ->
     exists p, receive r w =
       (Ok (Accepted p),
        mkWorld (<[("uploads", multer_name (clock w) orig) := mkFile b (clock w)]> (files w))
                ({["uploads"]} ∪ dirs w) (clock w)) /\
     pending_files p = [mkUploaded "uploads" (multer_name (clock w) orig) orig]) /\
  ((52428800 < byte_length b)%N ->
     receive r w = (Ok (Rejected too_large_answer),
                    mkWorld (delete ("uploads", multer_name (clock w) orig) (files w)) ({["uploads"]} ∪ dirs w)
                            (clock w))).
Proof.
  intros Hr.
  destruct r as [? [ob|]|[l|]|? [ob|]|? ? ? [ob|]|? [ob|]|? ? ? ? [ob|]|];
    simpl in Hr; simplify_eq/=; split; intros Hb.
  all: first [ eexists; split; [receive_multer (multer_one_small orig b w Hb) | done]
             | receive_multer (multer_one_big orig b w Hb) ].
Qed.

(** ** Witnesses *)

Import MediaModel.

Definition w_intake : world mblob := mkWorld (<[("uploads", "1-old.pdf") := mkFile (MPdf []) 1]> ∅) {["uploads"]} 5.
Definition photo (size : N) : mblob := MImage "jpeg" None [] size.

Lemma receive_size_limit_witness :
  (exists p, receive (RCompress None (Some ("a.jpg", photo 52428800))) w_intake =
     (Ok (Accepted p),
      mkWorld (<[("uploads", multer_name 5 "a.jpg") := mkFile (photo 52428800) 5]> (files w_intake))
              ({["uploads"]} ∪ dirs w_intake) 5) /\
     pending_files p = [mkUploaded "uploads" (multer_name 5 "a.jpg") "a.jpg"]) /\
  receive (RCompress None (Some ("a.jpg", photo 52428801))) w_intake =
    (Ok (Rejected too_large_answer),
     mkWorld (delete ("uploads", multer_name 5 "a.jpg") (files w_intake)) ({["uploads"]} ∪ dirs w_intake) 5).
Proof.
  split.
  - apply (proj1 (receive_size_limit (RCompress None (Some ("a.jpg", photo 52428800))) "a.jpg" _ w_intake eq_refl)).
    by_eval.
  - apply (proj2 (receive_size_limit (RCompress None (Some ("a.jpg", photo 52428801))) "a.jpg" _ w_intake eq_refl)).
    by_eval.
Defined.

Lemma receive_rejected_no_trace_witness :
  exists w', receive (RMerge (Some [("a.pdf", MPdf []); ("b.jpg", photo 60000000)])) w_intake =
    (Ok (Rejected too_large_answer), w') /\ files w' ⊆ files w_intake.
Proof.
  apply (proj1 (receive_rejected_no_trace (RMerge (Some [("a.pdf", MPdf []); ("b.jpg", photo 60000000)])) w_intake)).
  simpl. apply Exists_cons. right. apply Exists_cons. left. unfold too_big. by_eval.
Defined.
