(* ===== verification/Server.v ===== *)
(** * The server: requests, the sweep and the clock together

    A request reaches the server in two stages: multer stores its files
    or refuses the request ([Intake.receive], lines 20-37), then the
    route's handler runs on an accepted request ([handle]);
    the health route ([RHealth], lines 471-474) has no upload and a
    constant answer.
    Handlers, the sweep and the clock interleave: [server_step] takes
    one of

    - [SReceive]: a request arrives; multer stores its uploads and it
      waits, or multer refuses it and it is answered at once;
    - [SHandle]: the handler of a waiting request runs to its end;
    - [STimer]: [setInterval] starts a sweep (when none is running);
    - [SSweep]: the running sweep takes one step (one [await]);
    - [STick]: time passes.

    Handlers run atomically with respect to each other; the sweep is
    cut at its [await]s, so any handler can run between two of its
    steps.  [server_init] is the server at start: no file, no directory,
    clock at 0. *)

From Stdlib Require Import QArith.
From S2P Require Import Prelude Js PdfLib Store RangeParser Split Merge Cleanup Media Compress Security Convert Image Intake.

Section Serve.
  Context {Bytes Doc Page : Type}
    `{!PdfLib Bytes Doc Page, !Archiver Bytes, !PdfDraw Doc Page, !Sharp Bytes, !TextLibs Bytes,
      !Sized Bytes}.

  (** [app.get('/api/health', ...)], lines 471-474. *)
Definition health_handler : M Bytes response := st_ret (mkResponse 200 (BStatus "OK" "Server is running")).

  (** The route's handler. *)
Definition handle (p : pending) : M Bytes response :=
    match p with
    | PSplit body f => split_handler (Doc:=Doc) (Page:=Page) body f
    | PMerge fs => merge_handler (Doc:=Doc) (Page:=Page) fs
    | PCompress l f => compress_handler (Doc:=Doc) (Page:=Page) l f
    | PSecurity a p t f => security_handler (Bytes:=Bytes) (Doc:=Doc) (Page:=Page) a p t f
    | PConvert t f => convert_handler (Doc:=Doc) (Page:=Page) t f
    | PImage o a w h f => image_handler o a w h f
    | PHealth => health_handler
    end.
End Serve.

(** The server's state. *)
Record server (Bytes : Type) := mkServer {
  sweep : sweep_pc;               (** where the sweep is, [Done] when none runs *)
  inflight : list pending;        (** the requests stored and not yet handled *)
  world_of : world Bytes
}.
Arguments mkServer {Bytes}. Arguments sweep {Bytes}. Arguments inflight {Bytes}. Arguments world_of {Bytes}.

Definition server_init {Bytes} : server Bytes := mkServer Done [] (mkWorld ∅ ∅ 0).

#[export] Instance sweep_pc_eq_dec : EqDecision sweep_pc.
Proof. solve_decision. Defined.

Section Steps.
  Context {Bytes Doc Page : Type}
    `{!PdfLib Bytes Doc Page, !Archiver Bytes, !PdfDraw Doc Page, !Sharp Bytes, !TextLibs Bytes,
      !Sized Bytes}.

Inductive server_step : server Bytes -> server Bytes -> Prop :=
  | SReceive r s i w' :
      receive r (world_of s) = (Ok i, w') ->
      server_step s (mkServer (sweep s) (inflight s ++ accepted i) w')
  | SHandle s i p :
      inflight s !! i = Some p ->
      server_step s (mkServer (sweep s) (delete i (inflight s))
                       (snd (handle (Doc:=Doc) (Page:=Page) p (world_of s))))
  | STimer s :
      sweep s = Done -> server_step s (mkServer (AtDir cleanup_dirs) (inflight s) (world_of s))
  | SSweep s :
      sweep s <> Done ->
      server_step s (mkServer (sweep_step (sweep s) (world_of s)).1 (inflight s)
                       (sweep_step (sweep s) (world_of s)).2)
  | STick s d : server_step s (mkServer (sweep s) (inflight s) (tick d (world_of s))).

Definition reachable (s : server Bytes) : Prop := rtc server_step server_init s.
End Steps.

(** ** An executable scheduler

    A schedule is a list of the choices [server_step] makes; [exec] runs
    it, and fails when a choice is not possible. *)
Inductive action (Bytes : Type) : Type :=
| AReceive (r : request Bytes)
| AHandle (i : nat)
| ATimer
| ASweep
| ATick (d : N).
Arguments AReceive {Bytes}. Arguments AHandle {Bytes}. Arguments ATimer {Bytes}.
Arguments ASweep {Bytes}. Arguments ATick {Bytes}.

Section Exec.
  Context {Bytes Doc Page : Type}
    `{!PdfLib Bytes Doc Page, !Archiver Bytes, !PdfDraw Doc Page, !Sharp Bytes, !TextLibs Bytes,
      !Sized Bytes}.

Definition exec1 (a : action Bytes) (s : server Bytes) : option (server Bytes) :=
    match a with
    | AReceive r =>
        match receive r (world_of s) with
        | (Ok i, w') => Some (mkServer (sweep s) (inflight s ++ accepted i) w')
        | (Throw _, _) => None
        end
    | AHandle i =>
        match inflight s !! i with
        | Some p => Some (mkServer (sweep s) (delete i (inflight s))
                            (snd (handle (Doc:=Doc) (Page:=Page) p (world_of s))))
        | None => None
        end
    | ATimer =>
        match sweep s with
        | Done => Some (mkServer (AtDir cleanup_dirs) (inflight s) (world_of s))
        | _ => None
        end
    | ASweep =>
        if decide (sweep s = Done) then None
        else Some (mkServer (sweep_step (sweep s) (world_of s)).1 (inflight s) (sweep_step (sweep s) (world_of s)).2)
    | ATick d => Some (mkServer (sweep s) (inflight s) (tick d (world_of s)))
    end.

Fixpoint exec (l : list (action Bytes)) (s : server Bytes) : option (server Bytes) :=
    match l with
    | [] => Some s
    | a :: l' => exec1 a s ≫= exec l'
    end.

Lemma exec1_step a s s' : exec1 a s = Some s' -> server_step (Doc:=Doc) (Page:=Page) s s'.
  Proof.
    destruct a as [r|i| | |d]; simpl.
    - destruct (receive r (world_of s)) as [[p|] w'] eqn:Hr; [|done]. intros [= <-]. by eapply SReceive.
    - destruct (inflight s !! i) eqn:Hi; [|done]. intros [= <-]. by eapply SHandle.
    - destruct (sweep s) eqn:Hs; try done. intros [= <-]. by eapply STimer.
    - case_decide; [done|]. intros [= <-]. by eapply SSweep.
    - intros [= <-]. eapply STick.
  Qed.

  (** Every schedule [exec] runs is a path of [server_step]. *)
Lemma exec_rtc l s s' : exec l s = Some s' -> rtc (server_step (Doc:=Doc) (Page:=Page)) s s'.
  Proof.
    revert s. induction l as [|a l IH]; intros s; simpl; [intros [= <-]; constructor|].
    destruct (exec1 a s) as [s1|] eqn:H1; [|done]. simpl. intros Hl.
    eapply rtc_l; [exact (exec1_step a s s1 H1) | by apply IH].
  Qed.
End Exec.

(** ** A step of the sweep *)

(** What an action keeps, the step that resumes after it keeps. *)
Lemma inv_resume {Bytes A} (P : world Bytes -> Prop) (m : M Bytes A) k ds w :
  st_preserves P m -> P w -> P (snd (resume m k ds w)).
Proof.
  intros Hm Hw. unfold resume. specialize (Hm w Hw).
  destruct (m w) as [[a|e] w']; exact Hm.
Qed.

(** ** A sweep that misses a stale upload *)

Import MediaModel.

(** At instant 0 a compress request for [old.txt] is refused (400) and
    its upload stays; an hour and a millisecond later a split request
    uploads [a.pdf]; the timer starts a sweep. *)
Definition r_old : request mblob := RCompress None (Some ("old.txt", MText (js_text "x"))).
Definition r_split : request mblob :=
  RSplit (mkSplitBody (Some "size") None (Some "1")) (Some ("a.pdf", MPdf [MPage 1 (612 # 1, 792 # 1)%Q []])).
Definition race_start : list (action mblob) :=
  [AReceive r_old; AHandle 0; ATick 3600001; AReceive r_split; ATimer].

(** The sweep lists [uploads], the split request runs to its end (and
    unlinks [a.pdf]), then the sweep goes on to its end. *)
Definition race_rest : list (action mblob) :=
  [ASweep; AHandle 0; ASweep; ASweep; ASweep; ASweep; ASweep; ASweep].

Definition old_upload : file mblob := mkFile (MText (js_text "x")) 0.

Definition race_run1 : option (server mblob) := exec (Doc:=list mpage) (Page:=mpage) race_start server_init.
Definition race_run2 : option (server mblob) := race_run1 ≫= exec (Doc:=list mpage) (Page:=mpage) race_rest.

(** [C8] The sweep can miss a stale upload: there is a reachable state
    in which a sweep starts while [uploads/0-old.txt] is more than an
    hour old, and a run in which that sweep goes to its end, the clock
    unchanged, with the file still there.  A request removed its own
    upload, listed before the stale one, between the sweep's [readdir]
    and its [stat]; the [stat] throws, the [catch] drops the rest of
    [uploads]. *)
Theorem sweep_race_keeps_stale :
  exists s1 s2 : server mblob,
    reachable (Doc:=list mpage) (Page:=mpage) s1 /\ sweep s1 = AtDir cleanup_dirs /\
    files (world_of s1) !! ("uploads", "0-old.txt") = Some old_upload /\
    is_old (clock (world_of s1)) old_upload = true /\
    rtc (server_step (Doc:=list mpage) (Page:=mpage)) s1 s2 /\
    sweep s2 = Done /\ clock (world_of s2) = clock (world_of s1) /\
    files (world_of s2) !! ("uploads", "0-old.txt") = Some old_upload.
Proof.
  assert (option_map sweep race_run1 = Some (AtDir cleanup_dirs)) as F1 by (vm_compute; reflexivity).
  assert (option_map (fun s => files (world_of s) !! ("uploads", "0-old.txt")) race_run1 = Some (Some old_upload))
    as F2 by (vm_compute; reflexivity).
  assert (option_map (fun s => clock (world_of s)) race_run1 = Some 3600001%N) as F3 by (vm_compute; reflexivity).
  assert (option_map (fun s => (sweep s, clock (world_of s), files (world_of s) !! ("uploads", "0-old.txt")))
            race_run2 = Some (Done, 3600001%N, Some old_upload)) as F4 by (vm_compute; reflexivity).
  unfold race_run2 in F4. destruct race_run1 as [s1|] eqn:H1; [|done].
  change (Some s1 ≫= exec race_rest) with (exec (Doc:=list mpage) (Page:=mpage) race_rest s1) in F4.
  destruct (exec (Doc:=list mpage) (Page:=mpage) race_rest s1) as [s2|] eqn:H2; [|done].
  injection F1 as F1. injection F2 as F2. injection F3 as F3. injection F4 as F4 F4' F4''.
  exists s1, s2. split_and!.
  - exact (exec_rtc _ _ _ H1).
  - exact F1.
  - exact F2.
  - rewrite F3. vm_compute. reflexivity.
  - exact (exec_rtc _ _ _ H2).
  - exact F4.
  - rewrite F4', F3. reflexivity.
  - exact F4''.
Qed.


