(* ===== verification/Contract.v ===== *)
(** * What a client can rely on: the answers and the download links

    A success has status 200 and a [downloadUrl] of
    [/downloads/<fileName>]; [app.use('/downloads', express.static('downloads'))] (line 18) serves
    the files of [downloads] under [/downloads/<name>] ([static_get]).
    A success answer of merge, compress and convert ([fetchable]) names
    a file that exists in [downloads] right after the handler ([served])
    under a plain URL name ([named]), so a [GET] of its link returns the
    file.  Security need not (the finding of
    [Security.security_no_output]); split answers before its zip stream
    is closed and image puts the upload's extension in the link
    unencoded, so both are left out.  On the server, the
    uploads a waiting request refers to are always in [uploads]
    ([pending_ok]), which the handlers need so that removing the upload
    never removes the output.

    The proofs are Hoare triples ([Prelude.hoare]) over the handlers'
    code: [served_tac] walks a handler, carrying "the output exists"
    from the [writeFile] or [toFile] that creates it to the answer. *)

From S2P Require Import Prelude Js PdfLib Store RangeParser Split Merge Cleanup Media Compress Security Convert Image Intake Server.

Section Catch.
  Context {Bytes : Type}.

Lemma hoare_catch_500 P Q (m : M Bytes response) :
    hoare P m Q -> (forall msg w, Q (failure 500 msg) w) -> hoare P (catch_500 m) Q.
  Proof. intros Hm H5. apply hoare_catch; [done|]. intros e. apply hoare_ret. auto. Qed.

  (** A handler wrapped in [catch] always answers. *)
Lemma catch_500_answers (m : M Bytes response) w : exists r w', catch_500 m w = (Ok r, w').
  Proof.
    unfold catch_500, st_catch. destruct (m w) as [[r|e] w']; [by eauto|].
    unfold st_ret. by eauto.
  Qed.

  (** What a triple proves of a handler wrapped in [catch] holds of its
      answer. *)
Lemma catch_500_post P Q (m : M Bytes response) w :
    hoare P (catch_500 m) Q -> P w -> exists r w', catch_500 m w = (Ok r, w') /\ Q r w'.
  Proof.
    intros Hm Hw. destruct (catch_500_answers m w) as (r & w' & Hr).
    exists r, w'. split; [done|]. specialize (Hm w Hw). by rewrite Hr in Hm.
  Qed.
End Catch.

(** Every handler answers: no exception escapes its [catch]. *)
Lemma handle_answers {Bytes Doc Page : Type}
  `{!PdfLib Bytes Doc Page, !Archiver Bytes, !PdfDraw Doc Page, !Sharp Bytes, !TextLibs Bytes, !Sized Bytes}
  p (w : world Bytes) : exists r w', handle (Doc:=Doc) (Page:=Page) p w = (Ok r, w').
Proof. destruct p; [apply catch_500_answers.. | by eexists _, _]. Qed.

(** ** The download links *)

(** The output a success answer names exists in [downloads], under the
    name its [downloadUrl] carries. *)
Definition served {Bytes} (r : response) (w : world Bytes) : Prop :=
  match rbody r with
  | BSuccess n u _ | BSuccessSize n u _ _ => u = "/downloads/" +:+ n /\ is_Some (files w !! ("downloads", n))
  | BError _ | BStatus _ _ => True
  end.

Definition has_file {Bytes} (k : string * string) (w : world Bytes) : Prop := is_Some (files w !! k).

Section Has.
  Context {Bytes : Type}.
  Implicit Types (w : world Bytes).

Lemma served_failure c msg w : served (failure c msg) w.
  Proof. done. Qed.
Lemma served_success n msg w : has_file ("downloads", n) w -> served (success n msg) w.
  Proof. done. Qed.
Lemma served_success_size n msg size w : has_file ("downloads", n) w -> served (success_size n msg size) w.
  Proof. done. Qed.

Lemma st_preserves_True {A} (m : M Bytes A) : st_preserves (fun _ => True) m.
  Proof. done. Qed.

Lemma has_date_now k : st_preserves (has_file k) (@date_now Bytes).
  Proof. by intros w Hw. Qed.
Lemma has_mkdir k dir : st_preserves (has_file k) (@mkdir Bytes dir).
  Proof. by intros w Hw. Qed.
Lemma has_readFile k dir name : st_preserves (has_file k) (@readFile Bytes dir name).
  Proof. intros w Hw. unfold readFile. by destruct (files w !! _). Qed.
Lemma has_stat k dir name : st_preserves (has_file k) (@stat Bytes dir name).
  Proof. intros w Hw. unfold stat. by destruct (files w !! _). Qed.
Lemma has_writeFile k dir name b : st_preserves (has_file k) (@writeFile Bytes dir name b).
  Proof.
    intros w Hw. unfold writeFile. case_decide; [|done].
    unfold has_file. cbn. rewrite lookup_insert_is_Some'. by right.
  Qed.
  (** Removing an upload keeps every file of [downloads]. *)
Lemma has_unlink_upload n name : st_preserves (has_file ("downloads", n)) (@unlink Bytes "uploads" name).
  Proof.
    intros w Hw. unfold unlink. destruct (files w !! _); [|done].
    unfold has_file. cbn. rewrite lookup_delete_is_Some. split; [congruence | done].
  Qed.
Lemma has_sharp_toFile `{!Sharp Bytes} k s dir name : st_preserves (has_file k) (sharp_toFile s dir name).
  Proof.
    intros w Hw. unfold sharp_toFile. repeat case_match; try done. by apply has_writeFile.
  Qed.

  (** The actions that create the output. *)
Lemma writeFile_has P dir name b : hoare P (@writeFile Bytes dir name b) (fun _ => has_file (dir, name)).
  Proof.
    intros w _. unfold writeFile. case_decide; [|done].
    unfold has_file. cbn. by rewrite lookup_insert_eq.
  Qed.
Lemma sharp_toFile_has `{!Sharp Bytes} P s dir name :
    hoare P (sharp_toFile s dir name) (fun _ => has_file (dir, name)).
  Proof.
    intros w Hw. unfold sharp_toFile.
    destruct (files w !! _); [|done]. destruct (image_format _); [|done].
    destruct (sharp_output_format s name _); [|done].
    destruct (sharp_encode _ _ _); [|done]. by apply (writeFile_has P dir name _ w Hw).
  Qed.
End Has.

#[export] Hint Resolve st_preserves_True has_date_now has_mkdir has_readFile has_stat has_writeFile
  has_unlink_upload has_sharp_toFile : served.
#[export] Hint Resolve st_preserves_ret st_preserves_lift : served.

(** The conversions that write an output (the others answer 400 first). *)
Definition conversion_writes (c : conversion) : bool :=
  match c with PdfToImage | Unsupported => false | _ => true end.

Section Outputs.
  Context {Bytes Doc Page : Type}
    `{!PdfLib Bytes Doc Page, !Archiver Bytes, !PdfDraw Doc Page, !Sharp Bytes, !TextLibs Bytes}.

Lemma write_zip_has P z outputFiles :
    hoare P (write_zip (Bytes:=Bytes) z outputFiles) (fun _ => has_file ("downloads", z)).
  Proof. unfold write_zip. apply hoare_bind_any. intros. apply writeFile_has. Qed.

Lemma convert_output_has P c f toFormat name :
    conversion_writes c = true ->
    hoare P (convert_output (Doc:=Doc) (Page:=Page) c f toFormat name) (fun _ => has_file ("downloads", name)).
  Proof.
    destruct c; try discriminate; intros _; unfold convert_output;
      repeat (apply hoare_bind_any; intros ?); first [apply writeFile_has | apply sharp_toFile_has].
  Qed.
End Outputs.

(** Walk a handler: skip what comes before the output is created,
    carry [has_file] from the action that creates it to the answer
    through the actions that keep it. *)
Ltac served_tac :=
  repeat first
    [ eapply hoare_bind;
        [ first [ apply writeFile_has | apply sharp_toFile_has | apply write_zip_has
                | apply convert_output_has; reflexivity ] | intros ? ]
    | apply hoare_bind_keep; [solve [eauto with served] | intros ?]
    | apply hoare_ret; intros ? ?;
        first [ apply served_failure | by apply served_success | by apply served_success_size | done ]
    | match goal with
      | |- hoare _ (match ?x with _ => _ end) _ => destruct x
      | |- hoare _ (if ?b then _ else _) _ => destruct b
      end ].

(** ** The requests waiting on the server *)

(** The uploads a waiting request refers to ([req.file], [req.files]). *)
Definition in_uploads (f : uploaded) : Prop := up_dir f = "uploads".

Definition pending_ok (p : pending) : Prop := Forall in_uploads (pending_files p).

Definition is_security (p : pending) : bool := match p with PSecurity _ _ _ _ => true | _ => false end.

(** The requests whose success links can be fetched: merge, compress,
    convert. *)
Definition fetchable (p : pending) : bool :=
  match p with PMerge _ | PCompress _ _ | PConvert _ _ => true | _ => false end.

Section Served.
  Context {Bytes Doc Page : Type}
    `{!PdfLib Bytes Doc Page, !Archiver Bytes, !PdfDraw Doc Page, !Sharp Bytes, !TextLibs Bytes,
      !Sized Bytes}.

  (** Every handler but security: a success names an output that exists. *)
Lemma handle_served p :
    pending_ok p -> is_security p = false ->
    hoare (fun _ => True) (handle (Doc:=Doc) (Page:=Page) p) (fun r (w : world Bytes) => served r w).
  Proof.
    intros Hp Hsec. destruct p as [body f|fs|l f|a pw t f|t f|o a rw rh f|]; simpl in Hsec |- *;
      try discriminate;
      [ unfold split_handler, finish_split | unfold merge_handler
      | unfold compress_handler, compress_image, compress_pdf
      | unfold convert_handler | unfold image_handler | unfold health_handler ];
      cbv zeta; try (apply hoare_catch_500; [|intros; apply served_failure]);
      try (destruct f as [f|]; [inversion Hp as [|? ? Hf]; subst; unfold in_uploads in Hf; rewrite Hf|]);
      served_tac.
  Qed.
End Served.

(** multer stores every file it receives in [uploads]. *)
Section Intake.
  Context {Bytes : Type} `{!Sized Bytes}.

Lemma multer_store_uploads P orig b :
    hoare P (multer_store (Bytes:=Bytes) orig b) (fun f _ => in_uploads f).
  Proof. unfold multer_store. repeat (apply hoare_bind_any; intros ?). by apply hoare_ret. Qed.

Lemma multer_loop_uploads P l :
    hoare P (multer_loop (Bytes:=Bytes) l) (fun r _ => Forall in_uploads r.1).
  Proof.
    revert P. induction l as [|[orig b] l IH]; intros P; simpl; [by apply hoare_ret|].
    eapply hoare_bind; [apply multer_store_uploads|]. intros f. cbv beta. apply hoare_pure. intros Hf.
    case_decide; [|apply hoare_ret; by constructor].
    eapply hoare_bind; [apply IH|]. intros r. apply hoare_ret. intros. by constructor.
  Qed.

Lemma multer_uploads P l :
    hoare P (multer (Bytes:=Bytes) l) (fun o _ => forall fs, o = Some fs -> Forall in_uploads fs).
  Proof.
    unfold multer. eapply hoare_bind; [apply multer_loop_uploads|]. intros [fs []]; simpl.
    - apply hoare_bind_any. intros. by apply hoare_ret.
    - apply hoare_ret. by intros ? ? ? [= <-].
  Qed.

Lemma store_single_uploads P u :
    hoare P (store_single (Bytes:=Bytes) u) (fun o _ => forall f, o = Some (Some f) -> in_uploads f).
  Proof.
    destruct u as [ob|]; simpl; [|by apply hoare_ret].
    eapply hoare_bind; [apply multer_uploads|]. intros o. cbv beta. apply hoare_pure. intros Ho. apply hoare_ret.
    intros _ _ f Hf. destruct o as [l|]; [|done]. destruct l as [|f' l]; simplify_eq/=.
    by apply (Forall_inv (Ho _ eq_refl)).
  Qed.

Lemma store_array_uploads P us :
    hoare P (store_array (Bytes:=Bytes) us) (fun o _ => forall fs, o = Some (Some fs) -> Forall in_uploads fs).
  Proof.
    destruct us as [l|]; simpl; [|by apply hoare_ret].
    eapply hoare_bind; [apply multer_uploads|]. intros o. cbv beta. apply hoare_pure. intros Ho. apply hoare_ret.
    intros _ _ fs Hfs. destruct o; simplify_eq/=. by apply Ho.
  Qed.

Lemma receive_pending_ok r :
    hoare (fun _ => True) (receive (Bytes:=Bytes) r) (fun i _ => Forall pending_ok (accepted i)).
  Proof.
    destruct r; simpl; [..|apply hoare_ret; repeat constructor];
      (eapply hoare_bind; [apply store_single_uploads || apply store_array_uploads|]);
      intros o; cbv beta; apply hoare_pure; intros Ho; apply hoare_ret; intros _ _;
      destruct o as [[x|]|]; simpl; repeat constructor; by apply Ho.
  Qed.
End Intake.

(** ** [express.static('downloads')] under [/downloads] (line 18)

    [static_get w url] is the file a [GET url] returns.  The names the
    handlers give their outputs are made of letters, digits, [.], [-]
    and [_] and start with a letter ([url_plain]); serve-static sends
    such a file as it is, and answers 404 for a name starting with a dot
    (its [dotfiles: 'ignore'] default).  Names with percent escapes or
    slashes, which no handler writes, are not modelled: [static_get]
    returns nothing for them. *)

Fixpoint strip_prefix (p s : string) : option string :=
  match p, s with
  | EmptyString, _ => Some s
  | String c p', String d s' => if Ascii.eqb c d then strip_prefix p' s' else None
  | String _ _, EmptyString => None
  end.

Definition url_char (c : ascii) : bool :=
  let n := nat_of_ascii c in
  ((48 <=? n) && (n <=? 57)) || ((65 <=? n) && (n <=? 90)) || ((97 <=? n) && (n <=? 122))
  || Ascii.eqb c "." || Ascii.eqb c "-" || Ascii.eqb c "_".

Definition url_plain (n : string) : bool :=
  match n with
  | String c _ => negb (Ascii.eqb c ".") && string_forallb url_char n
  | EmptyString => false
  end.

Definition static_get {Bytes} (w : world Bytes) (url : string) : option Bytes :=
  match strip_prefix "/downloads/" url with
  | Some n => if url_plain n then contents <$> files w !! ("downloads", n) else None
  | None => None
  end.

(** The file name and link of a success answer. *)
Definition body_link (r : response) : option (string * string) :=
  match rbody r with
  | BSuccess n u _ | BSuccessSize n u _ _ => Some (n, u)
  | BError _ | BStatus _ _ => None
  end.

Lemma strip_prefix_app p s : strip_prefix p (p +:+ s) = Some s.
Proof.
  induction p as [|c p IH]; [done|].
  change (strip_prefix (String c p) (String c (p +:+ s)) = Some s).
  cbn [strip_prefix]. by rewrite Ascii.eqb_refl.
Qed.

(** A served answer's link fetches its file. *)
Lemma static_get_link {Bytes} r (w : world Bytes) n u :
  served r w -> body_link r = Some (n, u) -> url_plain n = true ->
  exists f, files w !! ("downloads", n) = Some f /\ static_get w u = Some (contents f).
Proof.
  unfold served, body_link. intros Hs Hl Hn.
  destruct (rbody r); try discriminate; injection Hl as <- <-; destruct Hs as [-> [f Hf]];
    exists f; unfold static_get; by rewrite strip_prefix_app, Hn, Hf.
Qed.

(** ** The output names are plain

    The names merge, compress and convert give their outputs are plain
    URL names, so a [downloadUrl] reaches the file through [static_get]:
    [<prefix><Date.now()><suffix>] with a suffix fixed by the branch
    taken ([.pdf], an extension in the handler's list, or the [toFormat]
    of a supported conversion).  The image endpoint is not among them:
    [toFile] writes the input's format under an extension it does not
    know, so an upload named [x.a#b] gives the link
    [/downloads/edited-<now>.a#b], whose [#] starts a fragment. *)

Definition named (r : response) : Prop :=
  match body_link r with Some (n, _) => url_plain n = true | None => True end.

Lemma url_char_digit c : is_dec_digit c = true -> url_char c = true.
Proof. destruct c as [[] [] [] [] [] [] [] []]; done. Qed.

Lemma url_plain_stamped pre now post :
  url_plain pre = true -> string_forallb url_char post = true ->
  url_plain (pre +:+ num_to_string now +:+ post) = true.
Proof.
  destruct pre as [|c pre]; [done|]. cbn [url_plain string_forallb].
  intros [Hc [Hc' Hpre]%andb_true_iff]%andb_true_iff Hpost.
  change (String c pre +:+ ?x) with (String c (pre +:+ x)). cbn [url_plain string_forallb].
  rewrite Hc, Hc', !string_forallb_app, Hpre, Hpost.
  by rewrite (string_forallb_impl _ _ _ url_char_digit (num_to_string_digits now)).
Qed.

Lemma is_one_of_plain x l :
  Forall (fun e => string_forallb url_char e = true) l -> is_one_of x l = true ->
  string_forallb url_char x = true.
Proof.
  unfold is_one_of. intros Hl (e & He & Hx)%existsb_exists. apply String.eqb_eq in Hx as ->.
  rewrite Forall_forall in Hl. by apply Hl, list_elem_of_In.
Qed.

(** The target of a conversion the handler performs is plain. *)
Lemma conversion_plain e t c :
  conversion_of e t = c -> c <> Unsupported -> c <> PdfToImage -> string_forallb url_char (js_str t) = true.
Proof.
  unfold conversion_of. intros <-.
  repeat match goal with |- context [if ?b then _ else _] => destruct b eqn:? end;
    try (by intros []); try (by intros _ []); intros _ _.
  all: destruct t as [t|]; cbn [field_in field_is js_str] in *;
    repeat match goal with H : _ && _ = true |- _ => apply andb_true_iff in H as [_ H] end;
    try discriminate;
    first [ by eapply is_one_of_plain; [|eassumption]; repeat constructor
          | match goal with H : String.eqb t _ = true |- _ => by apply String.eqb_eq in H as -> end ].
Qed.

Lemma merged_plain now : url_plain (merged_name now) = true.
Proof. by apply url_plain_stamped. Qed.

Lemma compressed_plain now ext :
  is_one_of ext ["jpg"; "jpeg"; "png"; "webp"] = true \/ String.eqb ext "pdf" = true ->
  url_plain (compressed_name now ext) = true.
Proof.
  intros Hext. apply url_plain_stamped; [done|]. rewrite string_forallb_app. apply andb_true_iff. split; [done|].
  destruct Hext as [H|H%String.eqb_eq]; [|by subst].
  by apply (is_one_of_plain ext ["jpg"; "jpeg"; "png"; "webp"]); [repeat constructor|].
Qed.

Lemma converted_plain now e t c :
  conversion_of e t = c -> c <> Unsupported -> c <> PdfToImage -> url_plain (converted_name now t) = true.
Proof.
  intros Hc H1 H2. apply url_plain_stamped; [done|]. rewrite string_forallb_app. apply andb_true_iff.
  split; [done|]. by eapply conversion_plain.
Qed.

Lemma named_success n msg : url_plain n = true -> named (success n msg).
Proof. done. Qed.
Lemma named_success_size n msg size : url_plain n = true -> named (success_size n msg size).
Proof. done. Qed.

(** Walk a handler keeping the branch conditions and what [toFile]
    accepted, and check that every success names a plain file. *)
Ltac named_name :=
  lazymatch goal with
  | |- url_plain (merged_name _) = true => apply merged_plain
  | |- url_plain (compressed_name _ _) = true => apply compressed_plain; by (left + right)
  | |- url_plain (converted_name _ _) = true =>
      eapply converted_plain; [eassumption | discriminate | discriminate]
  end.

Ltac named_step :=
  match goal with
  | |- hoare _ (st_bind _ _) _ => apply hoare_bind_any; intros ?
  | |- hoare _ (st_ret _) _ =>
      apply hoare_ret; intros ? ?;
      lazymatch goal with
      | |- named (success _ _) => apply named_success; named_name
      | |- named (success_size _ _ _) => apply named_success_size; named_name
      | |- _ => exact I
      end
  | |- hoare _ (match ?x with _ => _ end) _ => destruct x eqn:?; cbv beta iota
  | |- hoare _ (if ?b then _ else _) _ => destruct b eqn:?; cbv beta iota
  end.

Ltac named_tac := repeat named_step.

Section Named.
  Context {Bytes Doc Page : Type}
    `{!PdfLib Bytes Doc Page, !Archiver Bytes, !PdfDraw Doc Page, !Sharp Bytes, !TextLibs Bytes,
      !Sized Bytes}.

Lemma handle_named p :
    fetchable p = true ->
    hoare (fun _ => True) (handle (Doc:=Doc) (Page:=Page) p) (fun r (_ : world Bytes) => named r).
  Proof.
    intros Hp. destruct p; simpl in Hp |- *; try discriminate;
      [ unfold merge_handler | unfold compress_handler, compress_image, compress_pdf | unfold convert_handler ];
      cbv zeta; (apply hoare_catch_500; [named_tac | done]).
  Qed.
End Named.

(** ** What the server guarantees *)

(** In every state the server reaches, every request waiting for
    its handler refers only to files multer stored in [uploads]. *)
Lemma reachable_pending_ok {Bytes Doc Page : Type}
  `{!PdfLib Bytes Doc Page, !Archiver Bytes, !PdfDraw Doc Page, !Sharp Bytes, !TextLibs Bytes, !Sized Bytes}
  (s : server Bytes) :
  reachable (Doc:=Doc) (Page:=Page) s -> Forall pending_ok (inflight s).
Proof.
  unfold reachable. revert s. apply (rtc_ind_r (fun s => Forall pending_ok (inflight s)) server_init).
  { constructor. }
  intros s1 s2 _ Hstep IH.
  destruct Hstep as [r s p w' Hr|s i p _|s _|s _|s d]; simpl in *; try done.
  - apply Forall_app_2; [done|].
    pose proof (receive_pending_ok r (world_of s) I) as H. by rewrite Hr in H.
  - by apply Forall_delete.
Qed.

(** [C5] On a reachable server, handling a waiting merge, compress or
    convert request gives an answer whose success, if it is one, names a
    file that exists in [downloads] in the world the handler leaves, and
    a [GET] of its [downloadUrl] through [express.static('downloads')]
    returns that file's bytes. *)
Theorem handled_success_served {Bytes Doc Page : Type}
  `{!PdfLib Bytes Doc Page, !Archiver Bytes, !PdfDraw Doc Page, !Sharp Bytes, !TextLibs Bytes, !Sized Bytes}
  (s : server Bytes) i p :
  reachable (Doc:=Doc) (Page:=Page) s -> inflight s !! i = Some p -> fetchable p = true ->
  exists r w', handle (Doc:=Doc) (Page:=Page) p (world_of s) = (Ok r, w') /\
    forall n u, body_link r = Some (n, u) ->
      exists f, files w' !! ("downloads", n) = Some f /\ static_get w' u = Some (contents f).
Proof.
  intros Hs Hi Hf.
  assert (pending_ok p) as Hp by (eapply Forall_lookup_1; [apply (reachable_pending_ok s Hs) | exact Hi]).
  assert (is_security p = false) as Hsec by (by destruct p).
  destruct (handle_answers (Doc:=Doc) (Page:=Page) p (world_of s)) as (r & w' & H). exists r, w'.
  split; [done|]. intros n u Hl.
  pose proof (handle_served p Hp Hsec (world_of s) I) as Hserved.
  pose proof (handle_named p Hf (world_of s) I) as Hnamed. rewrite H in Hserved, Hnamed.
  apply (static_get_link r); [done | done |]. unfold named in Hnamed. by rewrite Hl in Hnamed.
Qed.

(** ** What a handler may remove *)

(** The files a waiting request owns: its uploads. *)
Definition upload_keys (p : pending) : list (string * string) :=
  map (fun f => (up_dir f, up_name f)) (pending_files p).

Lemma has_unlink_other {Bytes} k dir name :
  (dir, name) <> k -> st_preserves (has_file k) (@unlink Bytes dir name).
Proof.
  intros Hne w Hw. unfold unlink. destruct (files w !! _); [|done].
  unfold has_file. cbn. rewrite lookup_delete_is_Some. by split.
Qed.

Lemma has_catch_500 {Bytes} k (m : M Bytes response) :
  st_preserves (has_file k) m -> st_preserves (has_file k) (catch_500 m).
Proof. intros Hm. unfold catch_500. apply st_preserves_catch; [done|]. intros. apply st_preserves_ret. Qed.

#[export] Hint Resolve has_unlink_other : served.

(** Keep [has_file k] through a program that unlinks only other files. *)
Ltac keep_tac :=
  repeat first
    [ progress eauto with served
    | apply st_preserves_bind; [|intros ?]
    | match goal with
      | |- st_preserves _ (match ?x with _ => _ end) => destruct x
      | |- st_preserves _ (if ?b then _ else _) => destruct b
      end ].

Section Keep.
  Context {Bytes Doc Page : Type}
    `{!PdfLib Bytes Doc Page, !Archiver Bytes, !PdfDraw Doc Page, !Sharp Bytes, !TextLibs Bytes,
      !Sized Bytes}.

Lemma has_merge_loop k fs (d : Doc) :
    k ∉ map (fun f => (up_dir f, up_name f)) fs ->
    st_preserves (has_file k) (merge_loop (Bytes:=Bytes) fs d).
  Proof.
    revert d. induction fs as [|f fs IH]; intros d Hk; simpl; [apply st_preserves_ret|].
    apply not_elem_of_cons in Hk as [Hf Hk]. keep_tac.
  Qed.

Lemma has_save_parts k i parts : st_preserves (has_file k) (save_parts (Bytes:=Bytes) (Doc:=Doc) i parts).
  Proof. revert i. induction parts; intros i; simpl; unfold save_part; keep_tac. Qed.

Lemma has_read_parts k names : st_preserves (has_file k) (read_parts (Bytes:=Bytes) names).
  Proof. induction names; simpl; keep_tac. Qed.
End Keep.

#[export] Hint Resolve has_save_parts has_read_parts has_merge_loop : served.

(** [C6] A handler removes no file but its own request's uploads: a file
    that is not one of them and exists before the handler runs exists
    after it, whatever the handler answers.  (Two uploads stored in the
    same millisecond under the same name are one file, see
    [Store.multer_same_instant].) *)
Theorem handle_removes_only_own {Bytes Doc Page : Type}
  `{!PdfLib Bytes Doc Page, !Archiver Bytes, !PdfDraw Doc Page, !Sharp Bytes, !TextLibs Bytes, !Sized Bytes}
  p k (w : world Bytes) :
  k ∉ upload_keys p -> has_file k w -> has_file k (snd (handle (Doc:=Doc) (Page:=Page) p w)).
Proof.
  intros Hk. revert w. unfold upload_keys in Hk.
  destruct p as [body f|fs|l f|a pw tx f|tx f|o a rw rh f|]; simpl in Hk |- *;
    [ unfold split_handler, finish_split, split_outputs, write_zip | unfold merge_handler
    | unfold compress_handler, compress_image, compress_pdf | unfold security_handler, watermark
    | unfold convert_handler, convert_output | unfold image_handler | unfold health_handler ];
    try apply has_catch_500; try (destruct f as [f|]; [apply not_elem_of_cons in Hk as [Hf _]|]); keep_tac.
Qed.

(** ** Witnesses *)

Import MediaModel.

(** Five milliseconds in, a PNG arrives for compression. *)
Definition fetch_start : list (action mblob) :=
  [ATick 5; AReceive (RCompress (Some "high") (Some ("photo.png", MImage "png" None [] 1000)))].

Lemma handled_success_served_witness :
  exists s : server mblob, exec (Doc:=list mpage) (Page:=mpage) fetch_start server_init = Some s /\
    exists p, inflight s !! 0 = Some p /\ fetchable p = true /\
      exists r w', handle (Doc:=list mpage) (Page:=mpage) p (world_of s) = (Ok r, w') /\
        forall n u, body_link r = Some (n, u) ->
          exists f, files w' !! ("downloads", n) = Some f /\ static_get w' u = Some (contents f).
Proof.
  destruct (exec (Doc:=list mpage) (Page:=mpage) fetch_start server_init) as [s|] eqn:H;
    [|vm_compute in H; discriminate].
  exists s. split; [done|].
  destruct (inflight s !! 0) as [p|] eqn:Hp; [|vm_compute in H; injection H as <-; vm_compute in Hp; discriminate].
  assert (fetchable p = true) as Hsec
    by (vm_compute in H; injection H as <-; vm_compute in Hp; injection Hp as <-; reflexivity).
  exists p. split_and!; [done | done |].
  apply (handled_success_served (Doc:=list mpage) (Page:=mpage) s 0 p); [exact (exec_rtc _ _ _ H) | done | done].
Defined.

Lemma handle_removes_only_own_witness :
  has_file ("uploads", "7-notes.txt")
    (snd (handle (Doc:=list mpage) (Page:=mpage) (PCompress (Some "high") (Some up_jpg)) w_img)).
Proof.
  apply handle_removes_only_own; [by_eval | eexists; reflexivity].
Defined.
