(* ===== verification/RoundTrip.v ===== *)
(** * Split then merge: the round trip of the spec (section 8)

    A page-range expression ["a1-b1,a2-b2,...,an-bn"] whose intervals
    start at page 1, follow each other without gap or overlap and end at
    the last page ([chain]) makes [/api/split] build parts that, laid end
    to end, are the document; merging the saved
    parts with [/api/merge] in the same order gives back the original
    page sequence.  The range string goes
    through the real parser: [range_tokens], [parseInt] and [trim]. *)

From S2P Require Import Prelude Js PdfLib Store RangeParser Split Merge.

(** The range expression of a list of intervals, ["a-b"] joined by [","]. *)
Definition range_token (ab : N * N) : string := num_to_string ab.1 +:+ "-" +:+ num_to_string ab.2.
Definition ranges_string (bounds : list (N * N)) : string := join_char ","%char (map range_token bounds).

(** The intervals start at page [next], are not reversed, follow each
    other and end at page [T]. *)
Fixpoint chain (next : N) (bounds : list (N * N)) (T : N) : bool :=
  match bounds with
  | [] => (next =? T + 1)%N
  | (a, b) :: rest => (a =? next)%N && (a <=? b)%N && chain (b + 1)%N rest T
  end.

Lemma range_token_chars ab :
  string_forallb (fun c => negb (is_js_space c)) (range_token ab) = true /\
  includes_char ","%char (range_token ab) = false.
Proof.
  unfold range_token. rewrite string_forallb_app, includes_char_app. simpl.
  rewrite string_forallb_app, includes_char_app.
  assert (forall n, string_forallb (fun c => negb (is_js_space c)) (num_to_string n) = true) as Hs.
  { intros n. eapply string_forallb_impl; [|apply num_to_string_digits].
    intros c Hc. by rewrite is_dec_digit_not_space. }
  rewrite !Hs, !num_to_string_no_sep by done. done.
Qed.

Lemma range_tokens_ranges_string bounds :
  bounds <> [] -> range_tokens (ranges_string bounds) = map range_token bounds.
Proof.
  intros Hne. unfold range_tokens, ranges_string. rewrite split_join_pieces.
  - rewrite map_map. apply map_ext. intros ab. apply trim_id, range_token_chars.
  - by destruct bounds.
  - apply Forall_map, Forall_forall. intros ab _. apply range_token_chars.
Qed.

Lemma chain_cons next a b rest T :
  chain next ((a, b) :: rest) T = true <-> a = next /\ (a <= b)%N /\ chain (b + 1)%N rest T = true.
Proof.
  simpl. rewrite !andb_true_iff, N.eqb_eq, N.leb_le. tauto.
Qed.

Lemma chain_le next bounds T : chain next bounds T = true -> (next <= T + 1)%N.
Proof.
  revert next. induction bounds as [|[a b] rest IH]; intros next.
  - simpl. intros ->%N.eqb_eq. lia.
  - intros (-> & Hab & Hc)%chain_cons. specialize (IH _ Hc). lia.
Qed.

(** The pages a token ["a-b"] gives, [a >= 1] (see the interval lemmas of [RangeParser]). *)
Definition slice {A} (l : list A) (ab : N * N) : list A :=
  take (Z.to_nat (Z.min (Z.of_N ab.2) (Z.of_nat (length l)) - Z.of_N ab.1 + 1))
       (drop (Z.to_nat (Z.of_N ab.1 - 1)) l).

Lemma chain_slices {A} (l : list A) next bounds :
  chain next bounds (N.of_nat (length l)) = true -> (1 <= next)%N ->
  concat (map (slice l) bounds) = drop (N.to_nat next - 1) l.
Proof.
  revert next. induction bounds as [|[a b] rest IH]; intros next Hc Hnext.
  - simpl in Hc. apply N.eqb_eq in Hc. simpl. rewrite drop_ge; [done | lia].
  - apply chain_cons in Hc as (-> & Hab & Hc). pose proof (chain_le _ _ _ Hc) as Hle.
    cbn [map concat]. rewrite (IH (b + 1)%N) by (done || lia). unfold slice. cbn [fst snd].
    replace (Z.to_nat (Z.of_N next - 1)) with (N.to_nat next - 1) by lia.
    replace (Z.to_nat (Z.min (Z.of_N b) (Z.of_nat (length l)) - Z.of_N next + 1))
      with (N.to_nat b + 1 - N.to_nat next) by lia.
    replace (N.to_nat (b + 1) - 1) with ((N.to_nat next - 1) + (N.to_nat b + 1 - N.to_nat next)) by lia.
    rewrite <- drop_drop. apply take_drop.
Qed.

Lemma chain_starts next bounds T :
  chain next bounds T = true -> (1 <= next)%N -> Forall (fun ab => (1 <= ab.1)%N) bounds.
Proof.
  revert next. induction bounds as [|[a b] rest IH]; intros next Hc Hnext; [done|].
  apply chain_cons in Hc as (-> & Hab & Hc). constructor; [done|]. apply (IH _ Hc). lia.
Qed.

(** The proof of the property below, shared with the lemmas that use it. *)
Lemma split_ranges_cover_docs {Bytes Doc Page : Type}
  `{!PdfLib Bytes Doc Page, !PdfLibLaws Bytes Doc Page} (src : Doc) bounds :
  bounds <> [] -> chain 1 bounds (N.of_nat (length (pdf_pages src))) = true ->
  exists docs,
    Forall2 (fun r d => range_part src (getPageCount src) r = Ok d)
      (range_tokens (ranges_string bounds)) docs /\
    concat (map pdf_pages docs) = pdf_pages src.
Proof.
  intros Hne Hc. rewrite range_tokens_ranges_string by done.
  destruct (Forall_exists_Forall2
              (fun ab d => range_part src (getPageCount src) (range_token ab) = Ok d /\
                           pdf_pages d = slice (pdf_pages src) ab) bounds) as [docs Hdocs].
  { eapply Forall_impl; [exact (chain_starts _ _ _ Hc ltac:(lia))|]. intros [a b] Ha.
    destruct (range_interval_slice src (range_token (a, b)) (Z.of_N a) (Z.of_N b)) as (d & Hd & Hp).
    - apply parse_range_printed_eq.
    - simpl in Ha. lia.
    - exists d. split; [done|]. by rewrite Hp. }
  exists docs. split.
  - apply Forall2_map_l_iff. eapply Forall2_impl; [exact Hdocs|]. by intros ? ? [? ?].
  - rewrite (Forall2_map_eq (slice (pdf_pages src)) pdf_pages bounds docs).
    + rewrite (chain_slices _ 1 bounds Hc) by lia. apply drop_0.
    + eapply Forall2_impl; [exact Hdocs|]. by intros ? ? [? ?].
Qed.

(** Splitting a document by a range expression whose intervals
    cover its pages from the first to the last, without gap or overlap,
    gives parts (none of them throws) whose pages, laid end to end, are
    the document's pages. *)
Theorem split_ranges_cover {Bytes Doc Page : Type}
  `{!PdfLib Bytes Doc Page, !PdfLibLaws Bytes Doc Page} (src : Doc) bounds :
  bounds <> [] -> chain 1 bounds (N.of_nat (length (pdf_pages src))) = true ->
  exists docs,
    Forall2 (fun r d => range_part src (getPageCount src) r = Ok d)
      (range_tokens (ranges_string bounds)) docs /\
    concat (map pdf_pages docs) = pdf_pages src.
Proof. intros. by apply split_ranges_cover_docs. Qed.

(** Uploads holding saved documents load as documents with their pages. *)
Lemma uploads_load_saved {Bytes Doc Page : Type}
  `{!PdfLib Bytes Doc Page, !PdfLibLaws Bytes Doc Page} (w : world Bytes) fs (docs : list Doc) :
  Forall2 (fun f d => exists t, files w !! up_path f = Some (mkFile (pdf_save d) t)) fs docs ->
  exists srcs, uploads_load w fs srcs /\ map pdf_pages srcs = map pdf_pages docs.
Proof.
  induction 1 as [|f d fs docs [t Ht] _ [srcs [Hl Hp]]]; [exists []; split; [constructor | done]|].
  destruct (load_doc_save d) as (s & Hs & Hsp).
  exists (s :: srcs). split.
  - constructor; [|done]. by exists (mkFile (pdf_save d) t).
  - simpl. by rewrite Hsp, Hp.
Qed.

(** [C24] The round trip of the spec: split a document by a covering
    range expression of at least two intervals, upload the parts in the
    same order and merge them: the merged file holds a document with
    exactly the original page sequence. *)
Theorem split_merge_roundtrip {Bytes Doc Page : Type}
  `{!PdfLib Bytes Doc Page, !PdfLibLaws Bytes Doc Page} (src : Doc) bounds :
  (2 <= length bounds)%nat -> chain 1 bounds (N.of_nat (length (pdf_pages src))) = true ->
  exists docs,
    Forall2 (fun r d => range_part src (getPageCount src) r = Ok d)
      (range_tokens (ranges_string bounds)) docs /\
    forall fs (w : world Bytes),
      NoDup (map up_path fs) ->
      Forall2 (fun f d => exists t, files w !! up_path f = Some (mkFile (pdf_save d) t)) fs docs ->
      exists merged w' msg,
        merge_handler (Some fs) w = (Ok (success (merged_name (clock w)) msg), w') /\
        files w' !! ("downloads", merged_name (clock w)) = Some (mkFile (pdf_save merged) (clock w)) /\
        pdf_pages merged = pdf_pages src.
Proof.
  intros Hlen Hc.
  destruct (split_ranges_cover_docs src bounds) as (docs & Hdocs & Hcat); [intros ->; simpl in Hlen; lia | done |].
  exists docs. split; [done|]. intros fs w Hnd Hfs.
  destruct (uploads_load_saved w fs docs Hfs) as (srcs & Hl & Hp).
  assert (length fs = length bounds) as Hfl.
  { rewrite (Forall2_length _ _ _ Hfs), <- (Forall2_length _ _ _ Hdocs).
    destruct bounds; [simpl in Hlen; lia|]. rewrite range_tokens_ranges_string by done.
    apply length_map. }
  destruct (merge_handler_run fs srcs w) as [Hmp Hrun]; [lia | done | done |].
  eexists _, _, _. split; [exact Hrun|]. split; [cbn [files]; apply lookup_insert_eq|].
  by rewrite Hmp, Hp.
Qed.

(** ** Witnesses: the theorems on the list model *)

Import ListModel.

Lemma split_ranges_cover_witness :
  exists docs : list (list nat),
    Forall2 (fun r d => range_part (Bytes:=blob nat) doc10 (getPageCount (Bytes:=blob nat) doc10) r = Ok d)
      (range_tokens "1-3,4-10") docs /\ concat (map (pdf_pages (Bytes:=blob nat)) docs) = doc10.
Proof.
  destruct (split_ranges_cover (Bytes:=blob nat) doc10 [(1, 3); (4, 10)]%N) as (docs & H1 & H2);
    [discriminate | reflexivity |].
  by exists docs.
Defined.

Lemma split_merge_roundtrip_witness :
  exists docs : list (list nat),
    Forall2 (fun r d => range_part (Bytes:=blob nat) doc10 (getPageCount (Bytes:=blob nat) doc10) r = Ok d)
      (range_tokens (ranges_string [(1, 3); (4, 10)]%N)) docs.
Proof.
  destruct (split_merge_roundtrip (Bytes:=blob nat) doc10 [(1, 3); (4, 10)]%N) as [docs [Hdocs _]];
    [simpl; lia | reflexivity |].
  by exists docs.
Defined.
