(* ===== verification/Scenarios.v ===== *)
(** * The scenarios of the spec, run on the whole handlers

    Each theorem runs [split_handler] on a world holding one uploaded
    10-page PDF (the list model of [PdfLib]) and reads the zip the
    handler wrote: the page count of each part, in archive order. *)

From S2P Require Import Prelude Js PdfLib Store RangeParser Split.
Import ListModel.

(** The page counts of the parts packed in the zip [name]. *)
Definition zip_part_sizes (w : world (blob nat)) (name : string) : option (list nat) :=
  match files w !! ("downloads", name) with
  | Some f =>
      match contents f with
      | BZip entries => Some (map (fun e => match e.2 with BPdf ps => length ps | _ => O end) entries)
      | _ => None
      end
  | None => None
  end.

(** The sizes of the parts of a split request on [w_split]. *)
Definition split_sizes (body : split_body) : option (list nat) :=
  zip_part_sizes (snd (split_handler body (Some up_a) w_split)) (zip_name (clock w_split)).

(** Spec scenario: ["1-3, 5, 7-10"] on a 10-page document gives
    three parts of 3, 1 and 4 pages. *)
Theorem scenario_ranges_3_1_4 : split_sizes (pages_body "1-3, 5, 7-10") = Some [3; 1; 4]%nat.
Proof. vm_compute. reflexivity. Qed.

(** Spec scenario: ["9-12"] on a 10-page document gives one part
    of 2 pages (pages 11 and 12 do not exist and are dropped). *)
Theorem scenario_range_past_end : split_sizes (pages_body "9-12") = Some [2]%nat.
Proof. vm_compute. reflexivity. Qed.

(** Spec scenario: 4 parts of a 10-page document have 3, 3, 3 and
    1 pages. *)
Theorem scenario_size_4_parts : split_sizes (size_body "4") = Some [3; 3; 3; 1]%nat.
Proof. vm_compute. reflexivity. Qed.
