(* ===== verification/Paths.v ===== *)
(** * Every output stays inside [downloads]

    The handlers write [path.join('downloads', outputFilename)] with names
    built from [Date.now()] and from the request: the upload's extension
    (compress, image), the [toFormat] field (convert), the
    [securityAction] field (security).  A field holding a [/] or a name
    [..] would make [path.join] leave [downloads].  The code keeps every
    such name safe only through its guards: convert writes only when
    [toFormat] passed one of its lists, security writes only for the
    [watermark] action, and [path.extname] never yields a [/]
    ([Media.file_ext_clean]).

    [safe_name n]: no [/], and neither [.] nor [..].  [dl_safe w]: every
    file of [downloads] has a safe name.  Every step of the server keeps
    [dl_safe] ([reachable_downloads_safe]), so the pair [("downloads",
    n)] the model uses as the key of a file is exactly the path the code
    writes.  The proofs walk each handler with [dl_tac], keeping the
    branch conditions that make each name safe. *)

From Stdlib Require Import QArith.
From S2P Require Import Prelude Js PdfLib Store RangeParser Split Merge Cleanup Media Compress Security Convert Image Intake Server Contract.

Definition safe_name (n : string) : bool :=
  negb (includes_char "/" n) && negb (String.eqb n ".") && negb (String.eqb n "..").

Definition dl_safe {Bytes} (w : world Bytes) : Prop :=
  map_Forall (fun k _ => k.1 = "downloads" -> safe_name k.2 = true) (files w).

(** ** Safe names *)

(** A name whose first character is neither [.] nor [/], with no [/]
    after it. *)
Lemma safe_lead (c : ascii) pre rest :
  Ascii.eqb c "." = false -> Ascii.eqb c "/" = false ->
  includes_char "/" pre = false -> includes_char "/" rest = false ->
  safe_name (String c pre +:+ rest) = true.
Proof.
  intros Hd Hs Hp Hr. unfold safe_name.
  change (String c pre +:+ rest) with (String c (pre +:+ rest)).
  assert (String.eqb (String c (pre +:+ rest)) "." = false) as ->.
  { apply String.eqb_neq. intros [= -> _]. by rewrite Ascii.eqb_refl in Hd. }
  assert (String.eqb (String c (pre +:+ rest)) ".." = false) as ->.
  { apply String.eqb_neq. intros [= -> _]. by rewrite Ascii.eqb_refl in Hd. }
  cbn [includes_char]. rewrite Hs, includes_char_app, Hp, Hr. done.
Qed.

Lemma num_no_slash n : includes_char "/" (num_to_string n) = false.
Proof. by apply num_to_string_no_sep. Qed.

Lemma plain_no_slash s : string_forallb url_char s = true -> includes_char "/" s = false.
Proof.
  induction s as [|c s IH]; [done|]. cbn [string_forallb includes_char].
  intros [Hc Hs]%andb_true_iff. rewrite (IH Hs), orb_false_r.
  destruct (Ascii.eqb_spec c "/"); [subst; done | done].
Qed.

(** The [/] of a name made of pieces. *)
Ltac no_slash_tac :=
  repeat rewrite includes_char_app; rewrite ?num_no_slash; cbn [includes_char Ascii.eqb];
  repeat match goal with H : includes_char "/" _ = false |- _ => rewrite H end; reflexivity.

Ltac safe_name_tac :=
  first [ apply safe_lead; [reflexivity | reflexivity | no_slash_tac | no_slash_tac]
        | unfold part_name, zip_name, merged_name, compressed_name, converted_name, edited_name,
            security_name; apply safe_lead; [reflexivity | reflexivity | no_slash_tac | no_slash_tac] ].

(** ** What the actions do to [downloads] *)

Section Actions.
  Context {Bytes : Type}.
  Implicit Types (w : world Bytes).

  (** An action that only reads or removes files keeps [dl_safe]. *)
Lemma dl_sub {A} (m : M Bytes A) : (forall w, files (snd (m w)) ⊆ files w) -> st_preserves dl_safe m.
  Proof.
    intros Hm w Hw. unfold dl_safe. intros k f Hk. apply (Hw k f).
    by eapply lookup_weaken; [exact Hk | apply Hm].
  Qed.

Lemma dl_date_now : st_preserves dl_safe (@date_now Bytes).
  Proof. by apply dl_sub. Qed.
Lemma dl_mkdir dir : st_preserves dl_safe (@mkdir Bytes dir).
  Proof. by apply dl_sub. Qed.
Lemma dl_readFile dir name : st_preserves dl_safe (@readFile Bytes dir name).
  Proof. apply dl_sub. intros w. unfold readFile. by destruct (files w !! _). Qed.
Lemma dl_stat dir name : st_preserves dl_safe (@stat Bytes dir name).
  Proof. apply dl_sub. intros w. unfold stat. by destruct (files w !! _). Qed.
Lemma dl_readdir dir : st_preserves dl_safe (@readdir Bytes dir).
  Proof. apply dl_sub. intros w. unfold readdir. by case_decide. Qed.
Lemma dl_unlink dir name : st_preserves dl_safe (@unlink Bytes dir name).
  Proof. apply dl_sub. intros w. unfold unlink. destruct (files w !! _); [apply delete_subseteq | done]. Qed.

  (** A write keeps [dl_safe] when it goes outside [downloads] or under
      a safe name. *)
Lemma dl_writeFile dir name b :
    (dir = "downloads" -> safe_name name = true) -> st_preserves dl_safe (@writeFile Bytes dir name b).
  Proof.
    intros Hn w Hw. unfold writeFile. case_decide; [|done].
    apply map_Forall_insert_2; [exact Hn | exact Hw].
  Qed.

Lemma dl_sharp_toFile `{!Sharp Bytes} s dir name :
    (dir = "downloads" -> safe_name name = true) -> st_preserves dl_safe (sharp_toFile s dir name).
  Proof.
    intros Hn w Hw. unfold sharp_toFile. repeat case_match; try done. by apply dl_writeFile.
  Qed.

Lemma dl_catch_500 (m : M Bytes response) : st_preserves dl_safe m -> st_preserves dl_safe (catch_500 m).
  Proof. intros Hm. apply st_preserves_catch; [done|]. intros. apply st_preserves_ret. Qed.
End Actions.

#[export] Hint Resolve dl_date_now dl_mkdir dl_readFile dl_stat dl_readdir dl_unlink
  st_preserves_ret st_preserves_lift : dl.

(** Walk an action: split every bind and branch (keeping the branch
    condition), and check each write's name. *)
Ltac dl_step :=
  match goal with
  | |- st_preserves _ (catch_500 _) => apply dl_catch_500
  | |- st_preserves _ (st_bind _ _) => apply st_preserves_bind; [|intros ?]
  | |- st_preserves _ (writeFile _ _ _) => apply dl_writeFile; intros ?; try discriminate
  | |- st_preserves _ (sharp_toFile _ _ _) => apply dl_sharp_toFile; intros ?; try discriminate
  | |- st_preserves _ (match ?x with _ => _ end) => destruct x eqn:?; cbv beta iota
  | |- st_preserves _ (if ?b then _ else _) => destruct b eqn:?; cbv beta iota
  | |- st_preserves _ _ => solve [eauto with dl]
  end.

Ltac dl_tac := repeat dl_step.

(** ** The handlers *)

Section Handlers.
  Context {Bytes Doc Page : Type}
    `{!PdfLib Bytes Doc Page, !Archiver Bytes, !PdfDraw Doc Page, !Sharp Bytes, !TextLibs Bytes,
      !Sized Bytes}.

Lemma dl_save_parts i parts : st_preserves dl_safe (save_parts (Bytes:=Bytes) (Doc:=Doc) i parts).
  Proof.
    revert i. induction parts as [|part parts IH]; intros i; simpl; unfold save_part; dl_tac; safe_name_tac.
  Qed.

Lemma dl_read_parts names : st_preserves dl_safe (read_parts (Bytes:=Bytes) names).
  Proof. induction names as [|n names IH]; simpl; dl_tac. Qed.

Lemma dl_merge_loop fs (d : Doc) : st_preserves dl_safe (merge_loop (Bytes:=Bytes) fs d).
  Proof. revert d. induction fs as [|f fs IH]; intros d; simpl; dl_tac. Qed.
End Handlers.

#[export] Hint Resolve dl_save_parts dl_read_parts dl_merge_loop : dl.

Section Handle.
  Context {Bytes Doc Page : Type}
    `{!PdfLib Bytes Doc Page, !Archiver Bytes, !PdfDraw Doc Page, !Sharp Bytes, !TextLibs Bytes,
      !Sized Bytes}.

Lemma dl_split_handler body f :
    st_preserves dl_safe (split_handler (Bytes:=Bytes) (Doc:=Doc) (Page:=Page) body f).
  Proof. unfold split_handler, finish_split, write_zip, split_outputs; cbv zeta; dl_tac; safe_name_tac. Qed.

Lemma dl_merge_handler fs : st_preserves dl_safe (merge_handler (Bytes:=Bytes) (Doc:=Doc) (Page:=Page) fs).
  Proof. unfold merge_handler; cbv zeta; dl_tac; safe_name_tac. Qed.

  (** The extension [compressed-<now>.<ext>] takes from the upload has no [/]. *)
Lemma dl_compress_handler l f : st_preserves dl_safe (compress_handler (Doc:=Doc) (Page:=Page) l f).
  Proof.
    unfold compress_handler, compress_image, compress_pdf; cbv zeta; dl_tac;
      destruct (file_ext_clean (originalname u)); safe_name_tac.
  Qed.

  (** Security writes only for the [watermark] action. *)
Lemma dl_security_handler a p t f :
    st_preserves dl_safe (security_handler (Bytes:=Bytes) (Doc:=Doc) (Page:=Page) a p t f).
  Proof.
    unfold security_handler, watermark; cbv zeta; dl_tac.
    match goal with H : field_is a "watermark" && _ = true |- _ => apply andb_true_iff in H as [H _] end.
    destruct a as [a|]; [|discriminate]. cbn in *. apply String.eqb_eq in Heqb0 as ->. safe_name_tac.
  Qed.

  (** Convert writes only for a [toFormat] of one of its lists. *)
Lemma dl_convert_handler t f : st_preserves dl_safe (convert_handler (Doc:=Doc) (Page:=Page) t f).
  Proof.
    unfold convert_handler, convert_output; cbv zeta; dl_tac;
      match goal with H : conversion_of _ _ = _ |- _ =>
        pose proof (plain_no_slash _ (conversion_plain _ _ _ H ltac:(discriminate) ltac:(discriminate)))
      end; safe_name_tac.
  Qed.

Lemma dl_image_handler o a w h f : st_preserves dl_safe (image_handler (Bytes:=Bytes) o a w h f).
  Proof.
    unfold image_handler; cbv zeta; dl_tac; destruct (file_ext_clean (originalname u)); safe_name_tac.
  Qed.
End Handle.

(** ** The server *)

Section Server.
  Context {Bytes Doc Page : Type}
    `{!PdfLib Bytes Doc Page, !Archiver Bytes, !PdfDraw Doc Page, !Sharp Bytes, !TextLibs Bytes,
      !Sized Bytes}.

Lemma dl_handle p : st_preserves dl_safe (handle (Bytes:=Bytes) (Doc:=Doc) (Page:=Page) p).
  Proof.
    destruct p; simpl;
      [ apply dl_split_handler | apply dl_merge_handler | apply dl_compress_handler
      | apply dl_security_handler | apply dl_convert_handler | apply dl_image_handler
      | apply st_preserves_ret ].
  Qed.

  (** multer writes into [uploads] only. *)
Lemma dl_multer_loop l : st_preserves dl_safe (multer_loop (Bytes:=Bytes) l).
  Proof.
    induction l as [|[orig b] l IH]; simpl; unfold multer_store; dl_tac.
  Qed.

Lemma dl_receive r : st_preserves dl_safe (receive (Bytes:=Bytes) r).
  Proof.
    destruct r; simpl; unfold store_single, store_array, multer, remove_uploaded; dl_tac;
      first [ apply dl_multer_loop
            | apply st_preserves_mapM; intros; apply st_preserves_catch; eauto with dl ].
  Qed.

Lemma dl_sweep_step pc w : dl_safe w -> dl_safe (snd (sweep_step (Bytes:=Bytes) pc w)).
  Proof.
    intros Hw. destruct pc as [[|dir ds]|dir [|x xs] ds|dir x xs ds|]; simpl; try done;
      apply inv_resume; try done; dl_tac.
  Qed.
End Server.

(** [C7] In every state the server reaches, whatever the requests (any
    [securityAction], any [toFormat], any upload name), their order, the
    sweeps and the time between them, every file of [downloads] has a
    name without [/] that is neither [.] nor [..]: no request makes a
    handler write outside [downloads]. *)
Theorem reachable_downloads_safe {Bytes Doc Page : Type}
  `{!PdfLib Bytes Doc Page, !Archiver Bytes, !PdfDraw Doc Page, !Sharp Bytes, !TextLibs Bytes, !Sized Bytes}
  (s : server Bytes) :
  reachable (Doc:=Doc) (Page:=Page) s ->
  forall n f, files (world_of s) !! ("downloads", n) = Some f -> safe_name n = true.
Proof.
  unfold reachable. intros Hs n f Hf.
  enough (dl_safe (world_of s)) as H by exact (H ("downloads", n) f Hf eq_refl).
  clear n f Hf. revert s Hs. apply (rtc_ind_r (fun s => dl_safe (world_of s)) server_init).
  { apply map_Forall_empty. }
  intros s1 s2 _ Hstep IH.
  destruct Hstep as [r s p w' Hr|s i p _|s _|s _|s d]; simpl in *.
  - pose proof (dl_receive r (world_of s) IH) as H. by rewrite Hr in H.
  - exact (dl_handle p (world_of s) IH).
  - done.
  - exact (dl_sweep_step (sweep s) (world_of s) IH).
  - exact IH.
Qed.

(** ** Witness *)

Import MediaModel.

(** A compression, then a security request whose action is [../x]: its
    answer names [../x-5.pdf], but nothing is written there. *)
Definition path_run : list (action mblob) :=
  fetch_start ++
  [AReceive (RSecurity (Some "../x") None None (Some ("d.pdf", MPdf [MPage 1 (612 # 1, 792 # 1)%Q []])));
   AHandle 0; AHandle 0].

Lemma reachable_downloads_safe_witness :
  exists s : server mblob, exec (Doc:=list mpage) (Page:=mpage) path_run server_init = Some s /\
    exists f, files (world_of s) !! ("downloads", "compressed-5.png") = Some f /\
      safe_name "compressed-5.png" = true.
Proof.
  destruct (exec (Doc:=list mpage) (Page:=mpage) path_run server_init) as [s|] eqn:H;
    [|vm_compute in H; discriminate].
  exists s. split; [done|].
  destruct (files (world_of s) !! ("downloads", "compressed-5.png")) as [f|] eqn:Hf;
    [|vm_compute in H; injection H as <-; vm_compute in Hf; discriminate].
  exists f. split; [done|].
  exact (reachable_downloads_safe (Doc:=list mpage) (Page:=mpage) s (exec_rtc _ _ _ H) _ f Hf).
Defined.
